(** * kaicloudnote: the note handlers and their two storage back ends

    The repository holds four request handlers for the same notes API:

    - [KvFunction]  (functions/worker.js): a Pages Function over a KV
      namespace, every handler checking the identity header itself;
    - [KvWorker]    (the standard-worker rewrite of the former): identity
      checked once in [fetch], before routing;
    - [D1Function]  (functions/api/notes.js, first script): a Pages Function
      over a D1 table, the note id taken from the route parameters;
    - [D1Worker]    (functions/api/notes.js, second script): a worker over
      the same table that matches the path itself and answers [undefined]
      for every other path.

    Handlers are embedded as functions in a state-and-exception monad over
    the backend they talk to.  What the platform supplies to a request
    (the generated UUID, the clock) is an explicit argument. *)

From stdpp Require Import gmap strings list fin_maps sorting pretty.
From Stdlib Require Import ZArith Ascii.

Local Set Warnings "-register-all".
Local Open Scope Z_scope.

(** ** JavaScript values *)

(** A JSON document.  Numbers are integers (the handlers only produce
    timestamps); an object is a finite map from property names. *)
Inductive json : Type :=
  | JNull
  | JBool (b : bool)
  | JNum (n : Z)
  | JStr (s : string)
  | JArr (l : list json)
  | JObj (o : gmap string json).

(** A JavaScript value as the handlers see it: [None] is [undefined]. *)
Abbreviation jsval := (option json).

(** A piece of text handed to [JSON.parse]: either the serialisation of a
    document, kept as that document, or text that is not JSON at all. *)
Inductive text : Type :=
  | Doc (j : json)
  | Junk (s : string).

(** A thrown [Error]: its class name and its [message]. *)
Record error : Type := Error { err_name : string; message : string }.

Inductive outcome (A : Type) : Type :=
  | Ok (a : A)
  | Throw (e : error).
Arguments Ok {A} a.
Arguments Throw {A} e.

(** [!v] is [negb (truthy v)]. *)
Definition truthy (v : jsval) : bool :=
  match v with
  | None | Some JNull => false
  | Some (JBool b) => b
  | Some (JNum n) => negb (n =? 0)%Z
  | Some (JStr s) => negb (String.eqb s "")
  | Some (JArr _) | Some (JObj _) => true
  end.

(** Truthiness of what [Headers.get] and [KV.get] answer: [null] or a
    string. *)
Definition truthy_string (v : option string) : bool :=
  match v with
  | None => false
  | Some s => negb (String.eqb s "")
  end.

Definition truthy_text (v : option text) : bool :=
  match v with
  | None => false
  | Some (Doc _) => true
  | Some (Junk s) => negb (String.eqb s "")
  end.

(** [a || b] *)
Definition js_or (a b : jsval) : jsval := if truthy a then a else b.

(** [a ?? b] *)
Definition nullish (a b : jsval) : jsval :=
  match a with
  | None | Some JNull => b
  | Some _ => a
  end.

(** [typeof v === 'string'] *)
Definition is_string (v : jsval) : bool :=
  match v with
  | Some (JStr _) => true
  | _ => false
  end.

(** The characters of a string as one-character strings, for the indexed
    properties of a string value. *)
Fixpoint chars (s : string) : list json :=
  match s with
  | EmptyString => []
  | String c s' => JStr (String c EmptyString) :: chars s'
  end.

Definition indexed (l : list json) : gmap string json :=
  list_to_map (imap (λ i j, (pretty i, j)) l).

(** [{...j}]: the own enumerable properties of [j]. *)
Definition spread (j : json) : gmap string json :=
  match j with
  | JObj o => o
  | JArr l => indexed l
  | JStr s => indexed (chars s)
  | JNull | JBool _ | JNum _ => ∅
  end.

(** [j.k] for a name [k] that is not [length] or an index: only objects
    carry such a property. *)
Definition prop (j : json) (k : string) : jsval :=
  match j with
  | JObj o => o !! k
  | _ => None
  end.

(** [{ ...rest, k: v }] as [JSON.stringify] renders it: a property holding
    [undefined] is left out of the text. *)
Definition assign (k : string) (v : jsval) (o : gmap string json) :
    gmap string json :=
  match v with
  | Some j => <[k := j]> o
  | None => delete k o
  end.

Definition type_error (msg : string) : error := Error "TypeError" msg.
Definition syntax_error (msg : string) : error := Error "SyntaxError" msg.

(** [JSON.parse t] *)
Definition JSON_parse (t : text) : outcome json :=
  match t with
  | Doc j => Ok j
  | Junk "" => Throw (syntax_error "Unexpected end of JSON input")
  | Junk s => Throw (syntax_error ("Unexpected token in JSON: " +:+ s))
  end.

(** [const { k } = j]: destructuring [null] throws. *)
Definition destructure (j : json) (k : string) : outcome jsval :=
  match j with
  | JNull =>
      Throw (type_error ("Cannot destructure property '" +:+ k +:+ "' of null"))
  | _ => Ok (prop j k)
  end.

(** ** The handler monad: backend state and exceptions *)

Definition M (S A : Type) : Type := S → outcome A * S.

Global Instance M_ret {S} : MRet (M S) := λ A a s, (Ok a, s).

Global Instance M_bind {S} : MBind (M S) := λ A B f m s,
  match m s with
  | (Ok a, s') => f a s'
  | (Throw e, s') => (Throw e, s')
  end.

(** A computation that touches no backend. *)
Definition lift {S A} (r : outcome A) : M S A := λ s, (r, s).

(** [try { body } catch (error) { handler }] *)
Definition try_catch {S A} (body : M S A) (handler : error → M S A) : M S A :=
  λ s,
    match body s with
    | (Ok a, s') => (Ok a, s')
    | (Throw e, s') => handler e s'
    end.

(** ** Requests and responses *)

Definition lower_ascii (c : ascii) : ascii :=
  let n := N_of_ascii c in
  if ((65 <=? n) && (n <=? 90))%N then ascii_of_N (n + 32) else c.

Fixpoint lower (s : string) : string :=
  match s with
  | EmptyString => EmptyString
  | String c s' => String (lower_ascii c) (lower s')
  end.

(** A request.  [headers] is the [Headers] object, its names in lower
    case; [pathname] is [new URL(request.url).pathname]; [body] is the
    text [request.json()] parses. *)
Record Request : Type := {
  method : string;
  pathname : string;
  headers : gmap string string;
  body : text
}.

(** [request.headers.get(name)] *)
Definition headers_get (name : string) (r : Request) : option string :=
  headers r !! lower name.

(** [await request.json()] *)
Definition request_json {S} (r : Request) : M S json := lift (JSON_parse (body r)).

(** What the platform supplies while a request runs:
    [crypto.randomUUID()] and [Date.now()]. *)
Record Runtime : Type := { randomUUID : string; now : Z }.

Record Response : Type := {
  status : Z;
  resp_headers : list (string * string);
  resp_body : json
}.

(** What an entry point hands back to the platform: a response, or
    [undefined] ([None]) to let the static-asset layer serve the request. *)
Definition handled {S} (m : M S Response) : M S (option Response) :=
  r ← m; mret (Some r).

(** ** Path patterns *)

Definition in_range (lo hi : N) (c : ascii) : bool :=
  let n := N_of_ascii c in ((lo <=? n) && (n <=? hi))%N.

Definition is_digit (c : ascii) : bool := in_range 48 57 c.
Definition is_hyphen (c : ascii) : bool := (N_of_ascii c =? 45)%N.

(** The class [[a-fA-F0-9-]]. *)
Definition is_hex_or_hyphen (c : ascii) : bool :=
  in_range 97 102 c || in_range 65 70 c || is_digit c || is_hyphen c.

(** The class [[a-zA-Z0-9-]]. *)
Definition is_alnum_or_hyphen (c : ascii) : bool :=
  in_range 97 122 c || in_range 65 90 c || is_digit c || is_hyphen c.

Fixpoint all_chars (p : ascii → bool) (s : string) : bool :=
  match s with
  | EmptyString => true
  | String c s' => p c && all_chars p s'
  end.

(** [strip_prefix p s] is the rest of [s] after a leading [p]. *)
Fixpoint strip_prefix (p s : string) : option string :=
  match p, s with
  | EmptyString, _ => Some s
  | String a p', String b s' =>
      if Ascii.eqb a b then strip_prefix p' s' else None
  | String _ _, EmptyString => None
  end.

(** [path.match(/^\/api\/notes\/([a-fA-F0-9-]{36})$/)]: the captured
    group, when the path matches. *)
Definition match_uuid_path (path : string) : option string :=
  match strip_prefix "/api/notes/" path with
  | Some tok =>
      if (String.length tok =? 36)%nat && all_chars is_hex_or_hyphen tok
      then Some tok else None
  | None => None
  end.

(** [pathname.match(/^\/api\/notes\/?([a-zA-Z0-9-]+)?$/)]: [None] when the
    path does not match, else the captured group ([None] for an
    unmatched group). *)
Definition match_notes_path (path : string) : option (option string) :=
  match strip_prefix "/api/notes" path with
  | Some rest =>
      let tok := match rest with
                 | String "/" r => r
                 | _ => rest
                 end in
      match tok with
      | EmptyString => Some None
      | _ => if all_chars is_alnum_or_hyphen tok then Some (Some tok) else None
      end
  | None => None
  end.

(** ** The KV namespace *)

Inductive kv_call : Type :=
  | KvList (prefix : string)
  | KvGet (key : string)
  | KvPut (key : string) (value : text)
  | KvDelete (key : string).

(** The namespace bound as [env.NOTES_KV].  [entries] is what it stores.
    [kv_faults] says which of the coming calls fail, and with what
    message: each call consumes one element, [Some msg] makes it throw.
    [kv_calls] records every call made, in order. *)
Record KVNamespace : Type := {
  entries : gmap string text;
  kv_faults : list (option string);
  kv_calls : list kv_call
}.

Definition backend_error (msg : string) : error := Error "Error" msg.

Definition kv_invoke {A} (c : kv_call)
    (run : gmap string text → A * gmap string text) : M KVNamespace A :=
  λ kv,
    let faults := tail (kv_faults kv) in
    let calls := kv_calls kv ++ [c] in
    match kv_faults kv with
    | Some msg :: _ =>
        (Throw (backend_error msg),
         {| entries := entries kv; kv_faults := faults; kv_calls := calls |})
    | _ =>
        let '(a, m) := run (entries kv) in
        (Ok a, {| entries := m; kv_faults := faults; kv_calls := calls |})
    end.

(** One call of [list] returns at most this many keys. *)
Definition kv_list_limit : nat := 1000.

(** The key names [list({ prefix })] returns: those that start with
    [prefix], in the order of their bytes. *)
Definition keys_with_prefix (prefix : string) (m : gmap string text) :
    list string :=
  take kv_list_limit
    (merge_sort String.le
       (filter (λ k, String.prefix prefix k = true) (map_to_list m).*1)).

Definition kv_list (prefix : string) : M KVNamespace (list string) :=
  kv_invoke (KvList prefix) (λ m, (keys_with_prefix prefix m, m)).

Definition kv_get (key : string) : M KVNamespace (option text) :=
  kv_invoke (KvGet key) (λ m, (m !! key, m)).

Definition kv_put (key : string) (value : text) : M KVNamespace unit :=
  kv_invoke (KvPut key value) (λ m, (tt, <[key := value]> m)).

Definition kv_delete (key : string) : M KVNamespace unit :=
  kv_invoke (KvDelete key) (λ m, (tt, delete key m)).

(** The key [`notes:${userId}:${noteId}`] and the prefix
    [`notes:${userId}:`]. *)
Definition note_key (userId noteId : string) : string :=
  "notes:" +:+ userId +:+ ":" +:+ noteId.

Definition user_prefix (userId : string) : string :=
  "notes:" +:+ userId +:+ ":".

(** The loop of [handleListNotes]: fetch every listed key, skip the ones
    that read as falsy, parse the others. *)
Fixpoint collect_notes (keys : list string) (notes : list json) :
    M KVNamespace (list json) :=
  match keys with
  | [] => mret notes
  | key :: keys' =>
      noteContent ← kv_get key;
      match noteContent with
      | Some t =>
          if truthy_text noteContent then
            note ← lift (JSON_parse t);
            collect_notes keys' (notes ++ [note])
          else collect_notes keys' notes
      | None => collect_notes keys' notes
      end
  end.

(** The note object [handleCreateNote] builds. *)
Definition new_note (noteId content : string) (timestamp : Z) : json :=
  JObj (<["id" := JStr noteId]>
       (<["content" := JStr content]>
       (<["createdAt" := JNum timestamp]>
       (<["updatedAt" := JNum timestamp]> ∅)))).

(** [{ ...existingNote, content: content ?? existingNote.content,
       updatedAt: Date.now() }]; reading [.content] off [null] throws. *)
Definition updated_note (existingNote : json) (content : jsval) (t : Z) :
    outcome json :=
  match content, existingNote with
  | (None | Some JNull), JNull =>
      Throw (type_error "Cannot read properties of null (reading 'content')")
  | _, _ =>
      Ok (JObj (assign "updatedAt" (Some (JNum t))
               (assign "content" (nullish content (prop existingNote "content"))
                  (spread existingNote))))
  end.

(** ** functions/worker.js: the Pages Function over KV

    Every handler resolves the caller itself.  No handler catches what
    the namespace, [JSON.parse] or [request.json()] throw.  (The stray
    identifier that follows [onRequest] in the script lies outside every
    function and has no counterpart here.) *)
Module KvFunction.

Definition jsonResponse (data : json) (status : Z) : Response :=
  {| status := status;
     resp_headers := [("Content-Type", "application/json")];
     resp_body := data |}.

Definition errorResponse (message : string) (status : Z) : Response :=
  jsonResponse (JObj {["error" := JStr message]}) status.

Definition getUserId (request : Request) : option string :=
  headers_get "X-User-Token" request.

Definition handleListNotes (request : Request) : M KVNamespace Response :=
  match getUserId request with
  | Some userId =>
      if truthy_string (Some userId) then
        keys ← kv_list (user_prefix userId);
        notes ← collect_notes keys [];
        mret (jsonResponse (JArr notes) 200)
      else mret (errorResponse "缺少使用者憑證 (X-User-Token)" 401)
  | None => mret (errorResponse "缺少使用者憑證 (X-User-Token)" 401)
  end.

Definition handleCreateNote (rt : Runtime) (request : Request) :
    M KVNamespace Response :=
  match getUserId request with
  | Some userId =>
      if truthy_string (Some userId) then
        parsed ← request_json request;
        content ← lift (destructure parsed "content");
        match content with
        | Some (JStr c) =>
            let noteId := randomUUID rt in
            let timestamp := now rt in
            let newNote := new_note noteId c timestamp in
            let key := note_key userId noteId in
            _ ← kv_put key (Doc newNote);
            mret (jsonResponse newNote 201)
        | _ => mret (errorResponse "內容必須是字串" 400)
        end
      else mret (errorResponse "缺少使用者憑證" 401)
  | None => mret (errorResponse "缺少使用者憑證" 401)
  end.

Definition handleUpdateNote (rt : Runtime) (request : Request)
    (noteId : string) : M KVNamespace Response :=
  match getUserId request with
  | Some userId =>
      if truthy_string (Some userId) then
        let key := note_key userId noteId in
        existingNoteJSON ← kv_get key;
        match existingNoteJSON with
        | Some t =>
            if truthy_text existingNoteJSON then
              existingNote ← lift (JSON_parse t);
              parsed ← request_json request;
              content ← lift (destructure parsed "content");
              updatedNote ← lift (updated_note existingNote content (now rt));
              _ ← kv_put key (Doc updatedNote);
              mret (jsonResponse updatedNote 200)
            else mret (errorResponse "找不到要更新的筆記" 404)
        | None => mret (errorResponse "找不到要更新的筆記" 404)
        end
      else mret (errorResponse "缺少使用者憑證" 401)
  | None => mret (errorResponse "缺少使用者憑證" 401)
  end.

Definition handleDeleteNote (request : Request) (noteId : string) :
    M KVNamespace Response :=
  match getUserId request with
  | Some userId =>
      if truthy_string (Some userId) then
        let key := note_key userId noteId in
        existingNote ← kv_get key;
        if truthy_text existingNote then
          _ ← kv_delete key;
          mret (jsonResponse (JObj {["success" := JBool true]}) 200)
        else mret (errorResponse "找不到要刪除的筆記" 404)
      else mret (errorResponse "缺少使用者憑證" 401)
  | None => mret (errorResponse "缺少使用者憑證" 401)
  end.

Definition onRequest (rt : Runtime) (request : Request) :
    M KVNamespace Response :=
  let path := pathname request in
  let unrouted : M KVNamespace Response :=
    mret (errorResponse "API 路由不存在或方法不允許" 404) in
  let item :=
    match match_uuid_path path with
    | Some noteId =>
        if String.eqb (method request) "PUT"
        then handleUpdateNote rt request noteId
        else if String.eqb (method request) "DELETE"
        then handleDeleteNote request noteId
        else unrouted
    | None => unrouted
    end in
  if String.eqb path "/api/notes" then
    if String.eqb (method request) "GET" then handleListNotes request
    else if String.eqb (method request) "POST" then handleCreateNote rt request
    else item
  else item.

End KvFunction.

(** ** The standard-worker script over KV

    [fetch] resolves the caller once, before it looks at the path, and
    passes the id on.  [handleDeleteNote] deletes without reading first.
    As in [KvFunction], nothing is caught. *)
Module KvWorker.

Definition jsonResponse (data : json) (status : Z) : Response :=
  {| status := status;
     resp_headers := [("Content-Type", "application/json");
                      ("Access-Control-Allow-Origin", "*")];
     resp_body := data |}.

Definition errorResponse (message : string) (status : Z) : Response :=
  jsonResponse (JObj {["error" := JStr message]}) status.

Definition getUserId (request : Request) : option string :=
  headers_get "X-User-Token" request.

Definition handleListNotes (userId : string) : M KVNamespace Response :=
  keys ← kv_list (user_prefix userId);
  notes ← collect_notes keys [];
  mret (jsonResponse (JArr notes) 200).

Definition handleCreateNote (rt : Runtime) (request : Request)
    (userId : string) : M KVNamespace Response :=
  parsed ← request_json request;
  content ← lift (destructure parsed "content");
  match content with
  | Some (JStr c) =>
      let noteId := randomUUID rt in
      let timestamp := now rt in
      let newNote := new_note noteId c timestamp in
      let key := note_key userId noteId in
      _ ← kv_put key (Doc newNote);
      mret (jsonResponse newNote 201)
  | _ => mret (errorResponse "內容必須是字串" 400)
  end.

Definition handleUpdateNote (rt : Runtime) (request : Request)
    (userId noteId : string) : M KVNamespace Response :=
  let key := note_key userId noteId in
  existingNoteJSON ← kv_get key;
  match existingNoteJSON with
  | Some t =>
      if truthy_text existingNoteJSON then
        existingNote ← lift (JSON_parse t);
        parsed ← request_json request;
        content ← lift (destructure parsed "content");
        updatedNote ← lift (updated_note existingNote content (now rt));
        _ ← kv_put key (Doc updatedNote);
        mret (jsonResponse updatedNote 200)
      else mret (errorResponse "找不到要更新的筆記" 404)
  | None => mret (errorResponse "找不到要更新的筆記" 404)
  end.

Definition handleDeleteNote (userId noteId : string) :
    M KVNamespace Response :=
  let key := note_key userId noteId in
  _ ← kv_delete key;
  mret (jsonResponse (JObj {["success" := JBool true]}) 200).

(** [fetch] never answers [undefined]: its result is a [Response]. *)
Definition fetch (rt : Runtime) (request : Request) :
    M KVNamespace (option Response) :=
  let path := pathname request in
  let method := method request in
  match getUserId request with
  | Some userId =>
      if truthy_string (Some userId) then
        let rest : M KVNamespace Response :=
          if String.prefix "/api/" path
          then mret (errorResponse "API 路由不存在或方法不允許" 404)
          else mret (errorResponse "找不到資源" 404) in
        let item :=
          match match_uuid_path path with
          | Some noteId =>
              if String.eqb method "PUT"
              then handleUpdateNote rt request userId noteId
              else if String.eqb method "DELETE"
              then handleDeleteNote userId noteId
              else rest
          | None => rest
          end in
        handled (if String.eqb path "/api/notes" then
                   if String.eqb method "GET" then handleListNotes userId
                   else if String.eqb method "POST"
                   then handleCreateNote rt request userId
                   else item
                 else item)
      else mret (Some (errorResponse "缺少使用者憑證 (X-User-Token)" 401))
  | None => mret (Some (errorResponse "缺少使用者憑證 (X-User-Token)" 401))
  end.

End KvWorker.

(** ** The D1 table *)

(** What a column holds. *)
Inductive sqlval : Type :=
  | SqlNull
  | SqlInt (n : Z)
  | SqlText (s : string)
  | SqlBlob (bytes : list Z).

(** A row of [notes].  [id] and [user_session_id] are only ever bound to
    strings and [created_at] to [Date.now()]. *)
Record Row : Type := {
  note_id : string;
  user_session_id : string;
  title : sqlval;
  content : sqlval;
  created_at : Z
}.

(** The four prepared statements of the scripts, with their bound
    parameters in the order of the [?] marks. *)
Inductive statement : Type :=
  (** SELECT id, title, content, created_at FROM notes
      WHERE user_session_id = ? ORDER BY created_at DESC *)
  | SelectNotes (session : string)
  (** INSERT INTO notes (id, user_session_id, title, content, created_at)
      VALUES (?, ?, ?, ?, ?) *)
  | InsertNote (id session : string) (title content : sqlval) (created_at : Z)
  (** UPDATE notes SET title = ?, content = ?
      WHERE id = ? AND user_session_id = ? *)
  | UpdateNote (title content : sqlval) (id session : string)
  (** DELETE FROM notes WHERE id = ? AND user_session_id = ? *)
  | DeleteNote (id session : string).

(** The database bound as [env.NOTES_DB]; faults and the call record are
    as in [KVNamespace]. *)
Record D1Database : Type := {
  notes : list Row;
  d1_faults : list (option string);
  d1_calls : list statement
}.

Definition d1_invoke {A} (c : statement)
    (run : list Row → outcome A * list Row) : M D1Database A :=
  λ db,
    let faults := tail (d1_faults db) in
    let calls := d1_calls db ++ [c] in
    match d1_faults db with
    | Some msg :: _ =>
        (Throw (backend_error msg),
         {| notes := notes db; d1_faults := faults; d1_calls := calls |})
    | _ =>
        let '(r, rows) := run (notes db) in
        (r, {| notes := rows; d1_faults := faults; d1_calls := calls |})
    end.

(** [WHERE id = ? AND user_session_id = ?] *)
Definition owned_by (id session : string) (r : Row) : bool :=
  String.eqb (note_id r) id && String.eqb (user_session_id r) session.

Definition newer_first (a b : Row) : Prop := created_at b ≤ created_at a.

Global Instance newer_first_dec a b : Decision (newer_first a b).
Proof. unfold newer_first. apply _. Defined.

Definition select_notes (session : string) (rows : list Row) : list Row :=
  merge_sort newer_first
    (filter (λ r, String.eqb (user_session_id r) session = true) rows).

(** Modelled from the spec: the table declaration is not in the
    repository; the spec has the table keyed by [id], so an insert of an
    id already present fails. *)
Definition insert_note (r : Row) (rows : list Row) : outcome unit * list Row :=
  if existsb (λ r', String.eqb (note_id r') (note_id r)) rows
  then (Throw (backend_error "D1_ERROR: UNIQUE constraint failed: notes.id"), rows)
  else (Ok tt, rows ++ [r]).

Definition set_columns (t c : sqlval) (r : Row) : Row :=
  {| note_id := note_id r; user_session_id := user_session_id r;
     title := t; content := c; created_at := created_at r |}.

Definition changes_of (id session : string) (rows : list Row) : Z :=
  Z.of_nat (length (filter (λ r, owned_by id session r = true) rows)).

Definition update_note (t c : sqlval) (id session : string) (rows : list Row) :
    list Row :=
  (λ r, if owned_by id session r then set_columns t c r else r) <$> rows.

Definition delete_note (id session : string) (rows : list Row) : list Row :=
  filter (λ r, owned_by id session r = false) rows.

(** [.all()]: the rows of a SELECT. *)
Definition d1_all (session : string) : M D1Database (list Row) :=
  d1_invoke (SelectNotes session) (λ rows, (Ok (select_notes session rows), rows)).

(** [.run()] of the INSERT. *)
Definition d1_run_insert (r : Row) : M D1Database unit :=
  d1_invoke (InsertNote (note_id r) (user_session_id r) (title r) (content r)
               (created_at r))
            (insert_note r).

(** [.run()] of the UPDATE; the answer is [changes]. *)
Definition d1_run_update (t c : sqlval) (id session : string) : M D1Database Z :=
  d1_invoke (UpdateNote t c id session)
            (λ rows, (Ok (changes_of id session rows),
                      update_note t c id session rows)).

(** [.run()] of the DELETE; the answer is [changes]. *)
Definition d1_run_delete (id session : string) : M D1Database Z :=
  d1_invoke (DeleteNote id session)
            (λ rows, (Ok (changes_of id session rows),
                      delete_note id session rows)).

Definition d1_type_error (ty : string) : error :=
  backend_error ("D1_TYPE_ERROR: Type '" +:+ ty +:+ "' not supported").

Definition as_byte (j : json) : option Z :=
  match j with
  | JNum n => if (0 <=? n) && (n <? 256) then Some n else None
  | _ => None
  end.

(** What [.bind(v)] turns a JavaScript value into; it throws on
    [undefined], on objects and on arrays that are not byte arrays.  (The
    message of the platform goes on to print the value.) *)
Definition d1_bind (v : jsval) : outcome sqlval :=
  match v with
  | None => Throw (d1_type_error "undefined")
  | Some JNull => Ok SqlNull
  | Some (JBool b) => Ok (SqlInt (if b then 1 else 0))
  | Some (JNum n) => Ok (SqlInt n)
  | Some (JStr s) => Ok (SqlText s)
  | Some (JArr l) =>
      match mapM as_byte l with
      | Some bytes => Ok (SqlBlob bytes)
      | None => Throw (d1_type_error "object")
      end
  | Some (JObj _) => Throw (d1_type_error "object")
  end.

Definition sql_json (v : sqlval) : json :=
  match v with
  | SqlNull => JNull
  | SqlInt n => JNum n
  | SqlText s => JStr s
  | SqlBlob bytes => JArr (JNum <$> bytes)
  end.

(** A result row of the SELECT as the object D1 hands back. *)
Definition row_json (r : Row) : json :=
  JObj (<["id" := JStr (note_id r)]>
       (<["title" := sql_json (title r)]>
       (<["content" := sql_json (content r)]>
       (<["created_at" := JNum (created_at r)]> ∅)))).

(** ** functions/api/notes.js: the two scripts over D1

    Both scripts have the same helpers and, inside their [try], the same
    [switch (method)]; it is embedded once, as [D1.dispatch]. *)
Module D1.

Definition jsonResponse (data : json) (status : Z) : Response :=
  {| status := status;
     resp_headers := [("Content-Type", "application/json");
                      ("Access-Control-Allow-Origin", "*")];
     resp_body := data |}.

Definition errorResponse (message : string) (status : Z) : Response :=
  jsonResponse (JObj {["message" := JStr message]}) status.

Definition placeholder : string := "(無標題)".

(** The body of [try { switch (method) { ... } }]. *)
Definition dispatch (rt : Runtime) (request : Request)
    (userSessionId : string) (noteId : option string) :
    M D1Database Response :=
  let method := method request in
  if String.eqb method "GET" then
    results ← d1_all userSessionId;
    mret (jsonResponse (JArr (row_json <$> results)) 200)
  else if String.eqb method "POST" then
    parsed ← request_json request;
    title ← lift (destructure parsed "title");
    content ← lift (destructure parsed "content");
    let newId := randomUUID rt in
    let timestamp := now rt in
    t ← lift (d1_bind (js_or title (Some (JStr placeholder))));
    c ← lift (d1_bind content);
    _ ← d1_run_insert {| note_id := newId; user_session_id := userSessionId;
                         title := t; content := c; created_at := timestamp |};
    mret (jsonResponse
            (JObj (assign "id" (Some (JStr newId))
                  (assign "title" title
                  (assign "content" content
                  (assign "created_at" (Some (JNum timestamp)) ∅)))))
            201)
  else if String.eqb method "PUT" then
    if truthy_string noteId then
      parsed ← request_json request;
      title ← lift (destructure parsed "title");
      content ← lift (destructure parsed "content");
      t ← lift (d1_bind (js_or title (Some (JStr placeholder))));
      c ← lift (d1_bind content);
      changes ← d1_run_update t c (default "" noteId) userSessionId;
      if changes =? 0
      then mret (errorResponse "Note not found or you do not own this note." 404)
      else mret (jsonResponse
                   (JObj {["message" := JStr "Note updated successfully"]}) 200)
    else mret (errorResponse "Missing note ID for update." 400)
  else if String.eqb method "DELETE" then
    if truthy_string noteId then
      changes ← d1_run_delete (default "" noteId) userSessionId;
      if changes =? 0
      then mret (errorResponse "Note not found or you do not own this note." 404)
      else mret (jsonResponse
                   (JObj {["message" := JStr "Note deleted successfully"]}) 200)
    else mret (errorResponse "Missing note ID for deletion." 400)
  else mret (errorResponse ("Method " +:+ method +:+ " not allowed.") 405).

(** [catch (error) { return errorResponse(`Database error:
    ${error.message}`, 500) }] *)
Definition on_error (e : error) : M D1Database Response :=
  mret (errorResponse ("Database error: " +:+ message e) 500).

End D1.

(** A route parameter: one segment, or the segments of a catch-all. *)
Inductive param : Type :=
  | PStr (s : string)
  | PArr (l : list string).

(** The first script: [onRequest(context)]. *)
Module D1Function.

Record Context : Type := {
  request : Request;
  params_notes : option param
}.

(** [params.notes && params.notes.length > 0 ? params.notes[0] : null] *)
Definition first_param (p : option param) : option string :=
  match p with
  | Some (PArr (x :: _)) => Some x
  | Some (PStr (String c _)) => Some (String c EmptyString)
  | Some (PArr []) | Some (PStr EmptyString) | None => None
  end.

Definition onRequest (rt : Runtime) (context : Context) :
    M D1Database Response :=
  let request := request context in
  match headers_get "X-User-Session" request with
  | Some userSessionId =>
      if truthy_string (Some userSessionId) then
        let noteId := first_param (params_notes context) in
        try_catch (D1.dispatch rt request userSessionId noteId) D1.on_error
      else mret (D1.errorResponse
                   "Missing X-User-Session header. User must be initialized." 401)
  | None => mret (D1.errorResponse
                    "Missing X-User-Session header. User must be initialized." 401)
  end.

End D1Function.

(** The second script: [handleRequest] and the worker's [fetch]. *)
Module D1Worker.

Definition handleRequest (rt : Runtime) (request : Request) :
    M D1Database (option Response) :=
  match match_notes_path (pathname request) with
  | None => mret None
  | Some group =>
      match headers_get "X-User-Session" request with
      | Some userSessionId =>
          if truthy_string (Some userSessionId) then
            let noteId := if truthy_string group then group else None in
            handled (try_catch (D1.dispatch rt request userSessionId noteId)
                               D1.on_error)
          else mret (Some (D1.errorResponse
                       "Missing X-User-Session header. User must be initialized."
                       401))
      | None => mret (Some (D1.errorResponse
                       "Missing X-User-Session header. User must be initialized."
                       401))
      end
  end.

Definition fetch (rt : Runtime) (request : Request) :
    M D1Database (option Response) :=
  response ← handleRequest rt request;
  match response with
  | Some r => mret (Some r)
  | None => mret None
  end.

End D1Worker.

(** ** Callers and routes *)

(** The identity header [name] is missing or empty. *)
Definition anonymous (name : string) (r : Request) : Prop :=
  headers_get name r = None ∨ headers_get name r = Some "".

(** The identity header [name] carries the non-empty value [user]. *)
Definition identified (name : string) (r : Request) (user : string) : Prop :=
  headers_get name r = Some user ∧ user ≠ "".

Inductive action : Type :=
  | List
  | Create
  | Update (id : string)
  | Delete (id : string).

(** The route table of the spec (section 6), read with the item pattern
    of the KV scripts: GET and POST on the collection path, PUT and DELETE
    on an item path. *)
Definition kv_route (r : Request) : option action :=
  if String.eqb (pathname r) "/api/notes" then
    if String.eqb (method r) "GET" then Some List
    else if String.eqb (method r) "POST" then Some Create
    else None
  else
    match match_uuid_path (pathname r) with
    | Some id =>
        if String.eqb (method r) "PUT" then Some (Update id)
        else if String.eqb (method r) "DELETE" then Some (Delete id)
        else None
    | None => None
    end.

(** A path of the D1 worker's API: one its pattern matches. *)
Definition d1_api_path (r : Request) : Prop :=
  is_Some (match_notes_path (pathname r)).

(** Scope strings without the separator of the key scheme. *)
Definition is_colon (c : ascii) : bool := (N_of_ascii c =? 58)%N.

Definition no_colon (s : string) : bool :=
  all_chars (λ c, negb (is_colon c)) s.

(** [r'] has the id, the owner and the creation time of [r]. *)
Definition same_identity (r r' : Row) : Prop :=
  note_id r' = note_id r ∧ user_session_id r' = user_session_id r ∧
  created_at r' = created_at r.

(** ** Requests that get as far as the backend *)

(** The body of [r] is a JSON value, not [null], whose [title] (or the
    placeholder) and [content] D1 can bind. *)
Definition bindable_body (r : Request) : Prop :=
  ∃ j t c, body r = Doc j ∧ j ≠ JNull ∧
    d1_bind (js_or (prop j "title") (Some (JStr D1.placeholder))) = Ok t ∧
    d1_bind (prop j "content") = Ok c.

(** The switch of the D1 scripts gets to run its prepared statement. *)
Definition reaches_database (r : Request) (noteId : option string) : Prop :=
  method r = "GET" ∨
  (method r = "POST" ∧ bindable_body r) ∨
  (method r = "PUT" ∧ truthy_string noteId = true ∧ bindable_body r) ∨
  (method r = "DELETE" ∧ truthy_string noteId = true).

(** The KV handler of the route of [r] gets to call the namespace: always
    for list, update and delete, and for create when the body passes the
    validation. *)
Definition reaches_namespace (r : Request) : Prop :=
  match kv_route r with
  | Some Create => ∃ j c, body r = Doc j ∧ prop j "content" = Some (JStr c)
  | Some _ => True
  | None => False
  end.

(** ** Sample data *)

Definition empty_kv : KVNamespace :=
  {| entries := ∅; kv_faults := []; kv_calls := [] |}.

Definition empty_db : D1Database :=
  {| notes := []; d1_faults := []; d1_calls := [] |}.

Definition sample_uuid : string := "123e4567-e89b-12d3-a456-426614174000".

Definition sample_rt : Runtime :=
  {| randomUUID := sample_uuid; now := 1700000000000 |}.

Definition later_rt : Runtime :=
  {| randomUUID := "9b2e1c4a-7f3d-4e5b-8a6c-0d1e2f3a4b5c"; now := 1700000060000 |}.

(** A request that carries no header at all. *)
Definition bare_request (m path : string) (b : text) : Request :=
  {| method := m; pathname := path; headers := ∅; body := b |}.

(** A request of [user], identified through the header [name]. *)
Definition request_of (name user m path : string) (b : text) : Request :=
  {| method := m; pathname := path;
     headers := {[ lower name := user ]}; body := b |}.

Definition content_body (c : json) : text := Doc (JObj {["content" := c]}).

Definition item_path (id : string) : string := "/api/notes/" +:+ id.

(** A namespace holding, under a key of user [u], text that is not JSON. *)
Definition junk_kv : KVNamespace :=
  {| entries := {[ note_key "u" sample_uuid := Junk "{oops" ]};
     kv_faults := []; kv_calls := [] |}.

(** Backends whose next call fails. *)
Definition failing_kv : KVNamespace :=
  {| entries := ∅; kv_faults := [Some "KV GET failed: 503"]; kv_calls := [] |}.

Definition failing_db : D1Database :=
  {| notes := []; d1_faults := [Some "D1_ERROR: no such table: notes"];
     d1_calls := [] |}.

(** A namespace and a table that hold one note of user [u]. *)
Definition one_note_kv : KVNamespace :=
  {| entries := {[ note_key "u" sample_uuid :=
                     Doc (new_note sample_uuid "buy milk" 1700000000000) ]};
     kv_faults := []; kv_calls := [] |}.

Definition sample_row : Row :=
  {| note_id := sample_uuid; user_session_id := "u";
     title := SqlText "Groceries"; content := SqlText "buy milk";
     created_at := 1700000000000 |}.

Definition one_note_db : D1Database :=
  {| notes := [sample_row]; d1_faults := []; d1_calls := [] |}.

(** A PUT on the sample note through the Pages Function over D1. *)
Definition d1_put (user : string) (b : text) : D1Function.Context :=
  {| D1Function.request :=
       request_of "X-User-Session" user "PUT" (item_path sample_uuid) b;
     D1Function.params_notes := Some (PArr [sample_uuid]) |}.

(** A PUT on the sample note through the KV scripts, and the record it
    leaves. *)
Definition kv_put_request : Request :=
  request_of "X-User-Token" "u" "PUT" (item_path sample_uuid)
    (content_body (JStr "buy oat milk")).

Definition updated_sample : json :=
  JObj (<["id" := JStr sample_uuid]>
       (<["content" := JStr "buy oat milk"]>
       (<["createdAt" := JNum 1700000000000]>
       (<["updatedAt" := JNum 1700000060000]> ∅)))).

Definition updated_message : json :=
  JObj {["message" := JStr "Note updated successfully"]}.

(** The properties of the sample note as stored in [one_note_kv]. *)
Definition sample_props : gmap string json :=
  <["id" := JStr sample_uuid]>
  (<["content" := JStr "buy milk"]>
  (<["createdAt" := JNum 1700000000000]>
  (<["updatedAt" := JNum 1700000000000]> ∅))).

(** A PUT whose body has no [content]. *)
Definition kv_put_no_content : Request :=
  request_of "X-User-Token" "u" "PUT" (item_path sample_uuid)
    (Doc (JObj {["title" := JStr "Shopping"]})).

(** A DELETE on the sample note through the KV scripts. *)
Definition kv_delete_request : Request :=
  request_of "X-User-Token" "u" "DELETE" (item_path sample_uuid) (Junk "").

Definition success_body : json := JObj {["success" := JBool true]}.

(** User [a:b] creates a note; user [a] lists. *)
Definition create_as_a_b : Request :=
  request_of "X-User-Token" "a:b" "POST" "/api/notes"
    (content_body (JStr "secret")).

Definition list_as_a : Request :=
  request_of "X-User-Token" "a" "GET" "/api/notes" (Junk "").

(** ** Notions for the further properties *)

(** [m'] is [m] except, at most, at [key]. *)
Definition differ_at (key : string) (m m' : gmap string text) : Prop :=
  ∀ k, k ≠ key → m' !! k = m !! k.

(** A response of the standard worker as the Pages Function over KV
    renders it: without the cross-origin header. *)
Definition plain (resp : Response) : Response :=
  {| status := status resp;
     resp_headers := [("Content-Type", "application/json")];
     resp_body := resp_body resp |}.

(** The rows of the sessions other than [session]. *)
Definition foreign_rows (session : string) (rows : list Row) : list Row :=
  filter (λ r, user_session_id r ≠ session) rows.

(** The document a stored text holds, if it is one. *)
Definition doc_of (t : text) : option json :=
  match t with
  | Doc j => Some j
  | Junk _ => None
  end.

(** A list request of user [u]. *)
Definition list_as_u : Request :=
  request_of "X-User-Token" "u" "GET" "/api/notes" (Junk "").

(** The notes a healthy scan of [keys] collects from [m]. *)
Definition docs_at (m : gmap string text) (keys : list string) : list json :=
  omap (λ k, m !! k ≫= doc_of) keys.

(** No key under [prefix] holds text that is neither JSON nor empty. *)
Definition parseable_under (prefix : string) (m : gmap string text) : Prop :=
  ∀ k s, String.prefix prefix k = true → m !! k = Some (Junk s) → s = "".

(** A valid create of user [u]. *)
Definition create_as_u : Request :=
  request_of "X-User-Token" "u" "POST" "/api/notes"
    (content_body (JStr "hello")).

(** The Pages Function over KV and the standard worker end alike: the
    same namespace, and the same response up to the cross-origin header,
    or the same thrown error. *)
Definition agree (a : outcome Response * KVNamespace)
    (b : outcome (option Response) * KVNamespace) : Prop :=
  a.2 = b.2 ∧
  match a.1, b.1 with
  | Ok ra, Ok (Some rb) => ra = plain rb
  | Throw e, Throw e' => e = e'
  | _, _ => False
  end.

Definition json_header : string * string := ("Content-Type", "application/json").

Definition cors_header : string * string := ("Access-Control-Allow-Origin", "*").

(** The request in [c] reaches the switch of the first D1 script as
    caller [user] with note id [noteId]. *)
Definition d1_function_call (c : D1Function.Context) (user : string)
    (noteId : option string) : Prop :=
  identified "X-User-Session" (D1Function.request c) user ∧
  D1Function.first_param (D1Function.params_notes c) = noteId.

(** The request [r] reaches the switch of the D1 worker as caller [user]
    with note id [noteId]. *)
Definition d1_worker_call (r : Request) (user : string)
    (noteId : option string) : Prop :=
  identified "X-User-Session" r user ∧
  ∃ g, match_notes_path (pathname r) = Some g ∧
       noteId = if truthy_string g then g else None.



(** A worker request of user [u] on the sample note. *)
Definition d1_worker_request (m : string) (b : text) : Request :=
  request_of "X-User-Session" "u" m (item_path sample_uuid) b.

(** What follows the optional slash of the D1 worker's pattern. *)
Definition after_slash (rest : string) : string :=
  match rest with
  | String "/" r => r
  | _ => rest
  end.

(** * Properties *)

(** ** Strings and paths *)

Lemma strip_prefix_Some p s rest :
  strip_prefix p s = Some rest → s = p +:+ rest.
Proof.
  revert s. induction p as [|a p IH]; intros s; simpl.
  - by intros [= ->].
  - destruct s as [|b s]; [done|].
    destruct (Ascii.eqb a b) eqn:E; [|done].
    apply Ascii.eqb_eq in E as ->. intros H. by rewrite (IH _ H).
Qed.

Lemma strip_prefix_app p s : strip_prefix p (p +:+ s) = Some s.
Proof.
  induction p as [|a p IH]; [by destruct s|].
  change (String a p +:+ s) with (String a (p +:+ s)). simpl.
  by rewrite Ascii.eqb_refl.
Qed.

Lemma prefix_app p s : String.prefix p (p +:+ s) = true.
Proof.
  induction p as [|a p IH]; [by destruct s|].
  change (String a p +:+ s) with (String a (p +:+ s)). simpl.
  destruct (ascii_dec a a); [done|congruence].
Qed.

Lemma prefix_Some p s : String.prefix p s = true → ∃ rest, s = p +:+ rest.
Proof.
  revert s. induction p as [|a p IH]; intros s; simpl.
  - intros _. by exists s.
  - destruct s as [|b s]; simpl; [done|].
    destruct (ascii_dec a b) as [->|]; [|done].
    intros [rest ->]%IH. exists rest. reflexivity.
Qed.

Lemma match_uuid_path_api path id :
  match_uuid_path path = Some id → String.prefix "/api/" path = true.
Proof.
  unfold match_uuid_path.
  destruct (strip_prefix _ path) as [tok|] eqn:E; [|done].
  apply strip_prefix_Some in E as ->. intros _. reflexivity.
Qed.

Lemma match_notes_path_api path g :
  match_notes_path path = Some g → String.prefix "/api/" path = true.
Proof.
  unfold match_notes_path.
  destruct (strip_prefix _ path) as [tok|] eqn:E; [|done].
  apply strip_prefix_Some in E as ->. intros _. reflexivity.
Qed.

Lemma outside_api_no_uuid_path path :
  String.prefix "/api/" path = false → match_uuid_path path = None.
Proof.
  intros H. destruct (match_uuid_path path) eqn:E; [|done].
  apply match_uuid_path_api in E. congruence.
Qed.

Lemma outside_api_no_notes_path path :
  String.prefix "/api/" path = false → match_notes_path path = None.
Proof.
  intros H. destruct (match_notes_path path) eqn:E; [|done].
  apply match_notes_path_api in E. congruence.
Qed.

Lemma outside_api_not_collection path :
  String.prefix "/api/" path = false → String.eqb path "/api/notes" = false.
Proof.
  intros H. apply String.eqb_neq. intros ->. discriminate H.
Qed.

Lemma truthy_string_false (v : option string) :
  truthy_string v = false ↔ v = None ∨ v = Some "".
Proof.
  destruct v as [s|]; simpl; [|by split; [left|]].
  rewrite negb_false_iff, String.eqb_eq. split.
  - intros ->. by right.
  - by intros [|[= ->]].
Qed.

Lemma truthy_string_true (v : option string) :
  truthy_string v = true ↔ ∃ s, v = Some s ∧ s ≠ "".
Proof.
  destruct v as [s|]; simpl.
  - rewrite negb_true_iff, String.eqb_neq. split.
    + intros. by exists s.
    + by intros (? & [= ->] & ?).
  - split; [done|]. by intros (? & ? & ?).
Qed.

(** ** Routing *)

(** The KV Pages Function dispatches exactly along the route table. *)
Lemma kv_function_routes rt r :
  KvFunction.onRequest rt r =
    match kv_route r with
    | Some List => KvFunction.handleListNotes r
    | Some Create => KvFunction.handleCreateNote rt r
    | Some (Update id) => KvFunction.handleUpdateNote rt r id
    | Some (Delete id) => KvFunction.handleDeleteNote r id
    | None => mret (KvFunction.errorResponse "API 路由不存在或方法不允許" 404)
    end.
Proof.
  unfold KvFunction.onRequest, kv_route.
  destruct (String.eqb (pathname r) "/api/notes") eqn:Ep.
  - apply String.eqb_eq in Ep. rewrite Ep.
    destruct (String.eqb (method r) "GET"); [done|].
    by destruct (String.eqb (method r) "POST").
  - destruct (match_uuid_path (pathname r)); [|done].
    destruct (String.eqb (method r) "PUT"); [done|].
    by destruct (String.eqb (method r) "DELETE").
Qed.

(** So does the standard worker, once the caller is known. *)
Lemma kv_worker_routes rt r user :
  identified "X-User-Token" r user →
  KvWorker.fetch rt r =
    handled
      match kv_route r with
      | Some List => KvWorker.handleListNotes user
      | Some Create => KvWorker.handleCreateNote rt r user
      | Some (Update id) => KvWorker.handleUpdateNote rt r user id
      | Some (Delete id) => KvWorker.handleDeleteNote user id
      | None =>
          if String.prefix "/api/" (pathname r)
          then mret (KvWorker.errorResponse "API 路由不存在或方法不允許" 404)
          else mret (KvWorker.errorResponse "找不到資源" 404)
      end.
Proof.
  intros [Hu Hne]. unfold KvWorker.fetch, KvWorker.getUserId, kv_route.
  rewrite Hu. simpl. apply String.eqb_neq in Hne as ->. simpl.
  destruct (String.eqb (pathname r) "/api/notes") eqn:Ep.
  - apply String.eqb_eq in Ep. rewrite Ep.
    destruct (String.eqb (method r) "GET"); [done|].
    by destruct (String.eqb (method r) "POST").
  - destruct (match_uuid_path (pathname r)); [|done].
    destruct (String.eqb (method r) "PUT"); [done|].
    by destruct (String.eqb (method r) "DELETE").
Qed.

(** ** Requests without an identity *)

Lemma handled_is_some {S} (m : M S Response) s : (handled m s).1 ≠ Ok None.
Proof.
  unfold handled, mbind, M_bind. by destruct (m s) as [[resp|e] s'].
Qed.

Lemma kv_function_anonymous rt r kv :
  anonymous "X-User-Token" r → is_Some (kv_route r) →
  ∃ resp, KvFunction.onRequest rt r kv = (Ok resp, kv) ∧ status resp = 401.
Proof.
  intros Hanon [a Ha]. rewrite kv_function_routes, Ha.
  unfold KvFunction.handleListNotes, KvFunction.handleCreateNote,
    KvFunction.handleUpdateNote, KvFunction.handleDeleteNote,
    KvFunction.getUserId.
  by destruct Hanon as [-> | ->], a; eexists.
Qed.

Lemma kv_worker_anonymous rt r kv :
  anonymous "X-User-Token" r →
  KvWorker.fetch rt r kv =
    (Ok (Some (KvWorker.errorResponse "缺少使用者憑證 (X-User-Token)" 401)), kv).
Proof.
  unfold KvWorker.fetch, KvWorker.getUserId. by intros [-> | ->].
Qed.

Lemma d1_function_anonymous rt c db :
  anonymous "X-User-Session" (D1Function.request c) →
  D1Function.onRequest rt c db =
    (Ok (D1.errorResponse
           "Missing X-User-Session header. User must be initialized." 401), db).
Proof.
  unfold D1Function.onRequest. by intros [-> | ->].
Qed.

Lemma d1_worker_anonymous rt r db :
  anonymous "X-User-Session" r → d1_api_path r →
  D1Worker.fetch rt r db =
    (Ok (Some (D1.errorResponse
           "Missing X-User-Session header. User must be initialized." 401)), db).
Proof.
  unfold D1Worker.fetch, D1Worker.handleRequest, d1_api_path.
  intros Hanon [g ->]. by destruct Hanon as [-> | ->].
Qed.

(** C7.  A request to one of the API routes whose identity header is
    missing or empty is answered with status 401, and the backend is as it
    was, record of calls included: nothing was read or written.  This
    holds in the four scripts; the API routes are those of the route table
    for the KV scripts, every request the Pages Function over D1 is given,
    and the paths the D1 worker's pattern matches. *)
Theorem missing_identity_is_401_untouched :
  (∀ rt r kv, anonymous "X-User-Token" r → is_Some (kv_route r) →
     ∃ resp, KvFunction.onRequest rt r kv = (Ok resp, kv) ∧ status resp = 401) ∧
  (∀ rt r kv, anonymous "X-User-Token" r → is_Some (kv_route r) →
     ∃ resp, KvWorker.fetch rt r kv = (Ok (Some resp), kv) ∧ status resp = 401) ∧
  (∀ rt c db, anonymous "X-User-Session" (D1Function.request c) →
     ∃ resp, D1Function.onRequest rt c db = (Ok resp, db) ∧ status resp = 401) ∧
  (∀ rt r db, anonymous "X-User-Session" r → d1_api_path r →
     ∃ resp, D1Worker.fetch rt r db = (Ok (Some resp), db) ∧ status resp = 401).
Proof.
  repeat split.
  - apply kv_function_anonymous.
  - intros rt r kv H _. eexists. by rewrite kv_worker_anonymous.
  - intros rt c db H. eexists. by rewrite d1_function_anonymous.
  - intros rt r db H Hp. eexists. by rewrite d1_worker_anonymous.
Qed.

Lemma missing_identity_is_401_untouched_witness :
  (∃ resp, KvFunction.onRequest sample_rt
             (bare_request "DELETE" (item_path sample_uuid) (Junk "")) empty_kv
           = (Ok resp, empty_kv) ∧ status resp = 401) ∧
  (∃ resp, KvWorker.fetch sample_rt
             (bare_request "POST" "/api/notes" (content_body (JStr "x"))) empty_kv
           = (Ok (Some resp), empty_kv) ∧ status resp = 401) ∧
  (∃ resp, D1Function.onRequest sample_rt
             {| D1Function.request := bare_request "GET" "/api/notes" (Junk "");
                D1Function.params_notes := None |} empty_db
           = (Ok resp, empty_db) ∧ status resp = 401) ∧
  (∃ resp, D1Worker.fetch sample_rt
             (request_of "X-User-Session" "" "PUT" "/api/notes/abc"
                (content_body (JStr "x"))) empty_db
           = (Ok (Some resp), empty_db) ∧ status resp = 401).
Proof.
  destruct missing_identity_is_401_untouched as (H1 & H2 & H3 & H4).
  split; [|split; [|split]].
  - apply H1; [by left | by eexists].
  - apply H2; [by left | by eexists].
  - apply H3. by left.
  - apply H4; [by right | by eexists].
Defined.

(** C10.  In the standard worker over KV the identity check comes before
    any look at the path: whatever the path and method, a request whose
    [X-User-Token] is missing or empty gets the 401 response and the
    namespace is not touched; and no request at all makes [fetch] answer
    [undefined], so the static-asset layer is never given the request. *)
Theorem kv_worker_identity_before_routing :
  (∀ rt r kv, anonymous "X-User-Token" r →
     KvWorker.fetch rt r kv =
       (Ok (Some (KvWorker.errorResponse "缺少使用者憑證 (X-User-Token)" 401)),
        kv)) ∧
  (∀ rt r kv, (KvWorker.fetch rt r kv).1 ≠ Ok None).
Proof.
  split; [apply kv_worker_anonymous|].
  intros rt r kv. unfold KvWorker.fetch.
  destruct (KvWorker.getUserId r) as [user|]; [|done].
  destruct (truthy_string (Some user)); [|done].
  apply handled_is_some.
Qed.

Lemma kv_worker_identity_before_routing_witness :
  KvWorker.fetch sample_rt (bare_request "GET" "/index.html" (Junk "")) empty_kv =
    (Ok (Some (KvWorker.errorResponse "缺少使用者憑證 (X-User-Token)" 401)),
     empty_kv).
Proof.
  apply (proj1 kv_worker_identity_before_routing). by left.
Defined.

(** ** Paths outside the API prefix *)

Lemma d1_worker_unmatched rt r db :
  match_notes_path (pathname r) = None →
  D1Worker.handleRequest rt r db = (Ok None, db) ∧
  D1Worker.fetch rt r db = (Ok None, db).
Proof.
  intros H. unfold D1Worker.fetch, D1Worker.handleRequest. by rewrite H.
Qed.

(** The D1 worker declines a request exactly when its pattern does not
    match the path. *)
Lemma d1_worker_declines_iff rt r db :
  (D1Worker.fetch rt r db).1 = Ok None ↔ match_notes_path (pathname r) = None.
Proof.
  split; [|by intros [_ ->]%(d1_worker_unmatched rt r db)].
  unfold D1Worker.fetch, D1Worker.handleRequest.
  destruct (match_notes_path (pathname r)) as [g|]; [|done].
  destruct (headers_get "X-User-Session" r) as [user|]; [|done].
  destruct (truthy_string (Some user)); [|done].
  unfold handled, try_catch, D1.on_error, mbind, M_bind, mret, M_ret.
  by destruct (D1.dispatch _ _ _ _ db) as [[resp|e] db'].
Qed.

(** C9, as the claim has it, fails: with a path outside the API prefix the
    two KV scripts answer a 404 error response themselves. *)
Lemma static_path_answered_with_404 :
  KvFunction.onRequest sample_rt
    (request_of "X-User-Token" "u" "GET" "/index.html" (Junk "")) empty_kv =
    (Ok (KvFunction.errorResponse "API 路由不存在或方法不允許" 404), empty_kv) ∧
  KvWorker.fetch sample_rt
    (request_of "X-User-Token" "u" "GET" "/index.html" (Junk "")) empty_kv =
    (Ok (Some (KvWorker.errorResponse "找不到資源" 404)), empty_kv).
Proof. split; reflexivity. Qed.

(** C9, amended.  For a path outside the API prefix [/api/], the D1
    worker's [handleRequest] and [fetch] answer [undefined] and leave the
    database untouched, which hands the request to the static-asset layer.
    The two KV scripts have no such answer: the Pages Function over KV
    answers its 404 error response, and the standard worker, for an
    identified caller, its own 404 error response; neither touches the
    namespace. *)
Theorem outside_api_prefix :
  (∀ rt r db, String.prefix "/api/" (pathname r) = false →
     D1Worker.handleRequest rt r db = (Ok None, db) ∧
     D1Worker.fetch rt r db = (Ok None, db)) ∧
  (∀ rt r kv, String.prefix "/api/" (pathname r) = false →
     KvFunction.onRequest rt r kv =
       (Ok (KvFunction.errorResponse "API 路由不存在或方法不允許" 404), kv)) ∧
  (∀ rt r kv user, identified "X-User-Token" r user →
     String.prefix "/api/" (pathname r) = false →
     KvWorker.fetch rt r kv =
       (Ok (Some (KvWorker.errorResponse "找不到資源" 404)), kv)).
Proof.
  split; [|split].
  - intros rt r db H. by apply d1_worker_unmatched, outside_api_no_notes_path.
  - intros rt r kv H. rewrite kv_function_routes. unfold kv_route.
    by rewrite outside_api_not_collection, outside_api_no_uuid_path.
  - intros rt r kv user Hu H. rewrite (kv_worker_routes rt r user Hu).
    unfold kv_route.
    by rewrite outside_api_not_collection, outside_api_no_uuid_path, H.
Qed.

Lemma outside_api_prefix_witness :
  (D1Worker.handleRequest sample_rt
     (bare_request "GET" "/index.html" (Junk "")) empty_db = (Ok None, empty_db) ∧
   D1Worker.fetch sample_rt
     (bare_request "GET" "/index.html" (Junk "")) empty_db = (Ok None, empty_db)) ∧
  KvFunction.onRequest sample_rt
    (bare_request "GET" "/style.css" (Junk "")) empty_kv =
    (Ok (KvFunction.errorResponse "API 路由不存在或方法不允許" 404), empty_kv) ∧
  KvWorker.fetch sample_rt
    (request_of "X-User-Token" "u" "GET" "/" (Junk "")) empty_kv =
    (Ok (Some (KvWorker.errorResponse "找不到資源" 404)), empty_kv).
Proof.
  destruct outside_api_prefix as (H1 & H2 & H3).
  split; [|split].
  - by apply H1.
  - by apply H2.
  - by apply (H3 _ _ _ "u").
Defined.

(** ** The handler monad *)

Lemma bind_Ok {S A B} (m : M S A) (f : A → M S B) s a s1 :
  m s = (Ok a, s1) → (m ≫= f) s = f a s1.
Proof. unfold mbind, M_bind. by intros ->. Qed.

Lemma bind_Throw {S A B} (m : M S A) (f : A → M S B) s e s1 :
  m s = (Throw e, s1) → (m ≫= f) s = (Throw e, s1).
Proof. unfold mbind, M_bind. by intros ->. Qed.

Lemma bind_Ok_inv {S A B} (m : M S A) (f : A → M S B) s b s2 :
  (m ≫= f) s = (Ok b, s2) → ∃ a s1, m s = (Ok a, s1) ∧ f a s1 = (Ok b, s2).
Proof.
  unfold mbind, M_bind. destruct (m s) as [[a|e] s1]; [|done].
  intros H. by exists a, s1.
Qed.

Lemma lift_Ok_inv {S A} (r : outcome A) (s : S) a s1 :
  lift r s = (Ok a, s1) → r = Ok a ∧ s1 = s.
Proof. unfold lift. by intros [= -> ->]. Qed.

Lemma mret_inv {S A} (a b : A) (s s1 : S) :
  (mret a : M S A) s = (Ok b, s1) → b = a ∧ s1 = s.
Proof. unfold mret, M_ret. by intros [= -> ->]. Qed.

(** [try]/[catch] with the handler of the D1 scripts always returns. *)
Lemma try_catch_on_error (body : M D1Database Response) db :
  ∃ resp db', try_catch body D1.on_error db = (Ok resp, db') ∧
    match body db with
    | (Ok r, db1) => resp = r ∧ db' = db1
    | (Throw e, db1) =>
        resp = D1.errorResponse ("Database error: " +:+ message e) 500 ∧ db' = db1
    end.
Proof.
  unfold try_catch. destruct (body db) as [[r|e] db1]; by eexists _, _.
Qed.

Ltac run :=
  unfold handled, request_json, mbind, M_bind, mret, M_ret, lift in *;
  simpl in *.

Lemma identified_truthy name r user :
  identified name r user →
  headers_get name r = Some user ∧ truthy_string (Some user) = true.
Proof.
  intros [H1 H2]. split; [done|]. apply truthy_string_true. by exists user.
Qed.

(** For an identified caller the D1 scripts are the guarded switch. *)
Lemma d1_function_identified rt c user :
  identified "X-User-Session" (D1Function.request c) user →
  D1Function.onRequest rt c =
    try_catch (D1.dispatch rt (D1Function.request c) user
                 (D1Function.first_param (D1Function.params_notes c)))
              D1.on_error.
Proof.
  intros [Hu Ht]%identified_truthy. unfold D1Function.onRequest.
  by rewrite Hu, Ht.
Qed.

Lemma d1_worker_identified rt r user group :
  identified "X-User-Session" r user →
  match_notes_path (pathname r) = Some group →
  D1Worker.handleRequest rt r =
    handled (try_catch (D1.dispatch rt r user
                          (if truthy_string group then group else None))
                       D1.on_error).
Proof.
  intros [Hu Ht]%identified_truthy Hp. unfold D1Worker.handleRequest.
  by rewrite Hp, Hu, Ht.
Qed.

Lemma d1_worker_fetch rt r db :
  D1Worker.fetch rt r db = D1Worker.handleRequest rt r db.
Proof.
  unfold D1Worker.fetch. run.
  by destruct (D1Worker.handleRequest rt r db) as [[[resp|]|e] db'].
Qed.

(** ** Creating with an invalid body *)

Lemma kv_function_create_invalid rt r kv user j :
  identified "X-User-Token" r user → body r = Doc j → j ≠ JNull →
  is_string (prop j "content") = false →
  KvFunction.handleCreateNote rt r kv =
    (Ok (KvFunction.errorResponse "內容必須是字串" 400), kv).
Proof.
  intros [Hu Ht]%identified_truthy Hb Hj Hc.
  unfold KvFunction.handleCreateNote, KvFunction.getUserId.
  rewrite Hu, Ht. run. rewrite Hb.
  destruct j; try done; simpl in *.
  by destruct (o !! "content") as [[]|].
Qed.

Lemma kv_worker_create_invalid rt r kv user j :
  body r = Doc j → j ≠ JNull → is_string (prop j "content") = false →
  KvWorker.handleCreateNote rt r user kv =
    (Ok (KvWorker.errorResponse "內容必須是字串" 400), kv).
Proof.
  intros Hb Hj Hc. unfold KvWorker.handleCreateNote. run. rewrite Hb.
  destruct j; try done; simpl in *.
  by destruct (o !! "content") as [[]|].
Qed.

(** The POST branch of the D1 switch has a single way to return. *)
Lemma d1_post_status rt r user noteId db resp db' :
  method r = "POST" →
  D1.dispatch rt r user noteId db = (Ok resp, db') → status resp = 201.
Proof.
  intros Hm. unfold D1.dispatch. rewrite Hm. simpl.
  intros (parsed & db1 & _ & H)%bind_Ok_inv.
  apply bind_Ok_inv in H as (title & db2 & _ & H).
  apply bind_Ok_inv in H as (content & db3 & _ & H).
  apply bind_Ok_inv in H as (t & db4 & _ & H).
  apply bind_Ok_inv in H as (c & db5 & _ & H).
  apply bind_Ok_inv in H as (u & db6 & _ & H).
  by apply mret_inv in H as [-> _].
Qed.

Lemma d1_post_guarded rt r user noteId db :
  method r = "POST" →
  ∃ resp db',
    try_catch (D1.dispatch rt r user noteId) D1.on_error db = (Ok resp, db') ∧
    (status resp = 201 ∨ status resp = 500).
Proof.
  intros Hm.
  destruct (try_catch_on_error (D1.dispatch rt r user noteId) db)
    as (resp & db' & Heq & Hcase).
  exists resp, db'. split; [done|].
  destruct (D1.dispatch rt r user noteId db) as [[r0|e] db1] eqn:E.
  - destruct Hcase as [-> _]. left. by eapply d1_post_status.
  - destruct Hcase as [-> _]. by right.
Qed.

(** C8, as the claim has it, fails for the D1 scripts: with the number 5
    for [content] the note is inserted and the answer is 201. *)
Lemma d1_create_takes_non_string_content :
  D1Function.onRequest sample_rt
    {| D1Function.request :=
         request_of "X-User-Session" "u" "POST" "/api/notes"
           (content_body (JNum 5));
       D1Function.params_notes := None |}
    empty_db =
  (Ok (D1.jsonResponse
         (JObj (<["id" := JStr sample_uuid]>
               (<["content" := JNum 5]>
               (<["created_at" := JNum 1700000000000]> ∅)))) 201),
   {| notes := [ {| note_id := sample_uuid; user_session_id := "u";
                    title := SqlText D1.placeholder; content := SqlInt 5;
                    created_at := 1700000000000 |} ];
      d1_faults := [];
      d1_calls := [InsertNote sample_uuid "u" (SqlText D1.placeholder)
                     (SqlInt 5) 1700000000000] |}).
Proof. reflexivity. Qed.

(** C8, amended.  In the two KV scripts, a POST to the collection path by
    an identified caller whose body parses to a JSON value other than
    [null] in which [content] is missing or not a string is answered with
    the 400 validation response, and the namespace is as it was, record of
    calls included.  The D1 scripts do not validate the body: their answer
    to a POST of an identified caller has status 201 or 500, never 400. *)
Theorem invalid_create_body :
  (∀ rt r kv user j,
     identified "X-User-Token" r user → kv_route r = Some Create →
     body r = Doc j → j ≠ JNull → is_string (prop j "content") = false →
     KvFunction.onRequest rt r kv =
       (Ok (KvFunction.errorResponse "內容必須是字串" 400), kv)) ∧
  (∀ rt r kv user j,
     identified "X-User-Token" r user → kv_route r = Some Create →
     body r = Doc j → j ≠ JNull → is_string (prop j "content") = false →
     KvWorker.fetch rt r kv =
       (Ok (Some (KvWorker.errorResponse "內容必須是字串" 400)), kv)) ∧
  (∀ rt c db user,
     identified "X-User-Session" (D1Function.request c) user →
     method (D1Function.request c) = "POST" →
     ∃ resp db', D1Function.onRequest rt c db = (Ok resp, db') ∧
                 (status resp = 201 ∨ status resp = 500)) ∧
  (∀ rt r db user,
     identified "X-User-Session" r user → d1_api_path r → method r = "POST" →
     ∃ resp db', D1Worker.fetch rt r db = (Ok (Some resp), db') ∧
                 (status resp = 201 ∨ status resp = 500)).
Proof.
  split; [|split; [|split]].
  - intros rt r kv user j Hu Hr Hb Hj Hc.
    rewrite kv_function_routes, Hr. by eapply kv_function_create_invalid.
  - intros rt r kv user j Hu Hr Hb Hj Hc.
    rewrite (kv_worker_routes rt r user Hu), Hr. unfold handled.
    erewrite bind_Ok; [done|]. by eapply kv_worker_create_invalid.
  - intros rt c db user Hu Hm. rewrite (d1_function_identified rt c user Hu).
    by apply d1_post_guarded.
  - intros rt r db user Hu [g Hg] Hm.
    rewrite d1_worker_fetch, (d1_worker_identified rt r user g Hu Hg).
    destruct (d1_post_guarded rt r user
                (if truthy_string g then g else None) db Hm)
      as (resp & db' & Heq & Hst).
    exists resp, db'. split; [|done]. unfold handled.
    by erewrite bind_Ok.
Qed.

Lemma invalid_create_body_witness :
  KvFunction.onRequest sample_rt
    (request_of "X-User-Token" "u" "POST" "/api/notes" (content_body (JNum 5)))
    empty_kv =
    (Ok (KvFunction.errorResponse "內容必須是字串" 400), empty_kv) ∧
  KvWorker.fetch sample_rt
    (request_of "X-User-Token" "u" "POST" "/api/notes"
       (Doc (JObj {["title" := JStr "t"]})))
    empty_kv =
    (Ok (Some (KvWorker.errorResponse "內容必須是字串" 400)), empty_kv) ∧
  (∃ resp db',
     D1Function.onRequest sample_rt
       {| D1Function.request :=
            request_of "X-User-Session" "u" "POST" "/api/notes"
              (content_body (JNum 5));
          D1Function.params_notes := None |} empty_db = (Ok resp, db') ∧
     (status resp = 201 ∨ status resp = 500)) ∧
  (∃ resp db',
     D1Worker.fetch sample_rt
       (request_of "X-User-Session" "u" "POST" "/api/notes" (Junk "{"))
       empty_db = (Ok (Some resp), db') ∧
     (status resp = 201 ∨ status resp = 500)).
Proof.
  destruct invalid_create_body as (H1 & H2 & H3 & H4).
  split; [|split; [|split]].
  - by eapply (H1 _ _ _ "u").
  - by eapply (H2 _ _ _ "u").
  - by eapply (H3 _ _ _ "u").
  - eapply (H4 _ _ _ "u"); [done| |done]. by eexists.
Defined.

(** ** Backend calls *)

Lemma kv_invoke_healthy {A} c (f : gmap string text → A * gmap string text) kv :
  kv_faults kv = [] →
  kv_invoke c f kv =
    (Ok (f (entries kv)).1,
     {| entries := (f (entries kv)).2; kv_faults := [];
        kv_calls := kv_calls kv ++ [c] |}).
Proof.
  unfold kv_invoke. intros ->. by destruct (f (entries kv)).
Qed.

Lemma kv_invoke_fault {A} c (f : gmap string text → A * gmap string text)
    kv msg fs :
  kv_faults kv = Some msg :: fs →
  kv_invoke c f kv =
    (Throw (backend_error msg),
     {| entries := entries kv; kv_faults := fs;
        kv_calls := kv_calls kv ++ [c] |}).
Proof. unfold kv_invoke. by intros ->. Qed.

Lemma d1_invoke_healthy {A} c (f : list Row → outcome A * list Row) db res rows :
  d1_faults db = [] → f (notes db) = (res, rows) →
  d1_invoke c f db =
    (res, {| notes := rows; d1_faults := []; d1_calls := d1_calls db ++ [c] |}).
Proof. unfold d1_invoke. by intros -> ->. Qed.

Lemma d1_invoke_fault {A} c (f : list Row → outcome A * list Row) db msg fs :
  d1_faults db = Some msg :: fs →
  d1_invoke c f db =
    (Throw (backend_error msg),
     {| notes := notes db; d1_faults := fs; d1_calls := d1_calls db ++ [c] |}).
Proof. unfold d1_invoke. by intros ->. Qed.

Lemma destructure_Ok j k : j ≠ JNull → destructure j k = Ok (prop j k).
Proof. by destruct j. Qed.

(** ** Storage faults *)

(** A failing database call surfaces from the switch as it is. *)
Lemma d1_dispatch_fault rt r user noteId db msg fs :
  d1_faults db = Some msg :: fs → reaches_database r noteId →
  ∃ c, D1.dispatch rt r user noteId db =
    (Throw (backend_error msg),
     {| notes := notes db; d1_faults := fs; d1_calls := d1_calls db ++ [c] |}).
Proof.
  intros Hf [Hm|[[Hm Hb]|[(Hm & Hid & Hb)|[Hm Hid]]]];
    unfold D1.dispatch; rewrite Hm; simpl.
  - eexists. erewrite bind_Throw; [done|]. by apply d1_invoke_fault.
  - destruct Hb as (j & t & c & Hb & Hj & Ht & Hc).
    eexists. unfold request_json. rewrite Hb. simpl.
    erewrite bind_Ok; [|done].
    rewrite !destructure_Ok by done.
    erewrite bind_Ok; [|done]. erewrite bind_Ok; [|done].
    rewrite Ht, Hc.
    erewrite bind_Ok; [|done]. erewrite bind_Ok; [|done].
    erewrite bind_Throw; [done|]. by apply d1_invoke_fault.
  - destruct Hb as (j & t & c & Hb & Hj & Ht & Hc). rewrite Hid.
    eexists. unfold request_json. rewrite Hb. simpl.
    erewrite bind_Ok; [|done].
    rewrite !destructure_Ok by done.
    erewrite bind_Ok; [|done]. erewrite bind_Ok; [|done].
    rewrite Ht, Hc.
    erewrite bind_Ok; [|done]. erewrite bind_Ok; [|done].
    erewrite bind_Throw; [done|]. by apply d1_invoke_fault.
  - rewrite Hid. eexists. erewrite bind_Throw; [done|]. by apply d1_invoke_fault.
Qed.

Lemma d1_guarded_fault rt r user noteId db msg fs :
  d1_faults db = Some msg :: fs → reaches_database r noteId →
  (try_catch (D1.dispatch rt r user noteId) D1.on_error db).1 =
    Ok (D1.errorResponse ("Database error: " +:+ msg) 500).
Proof.
  intros Hf Hr.
  destruct (d1_dispatch_fault rt r user noteId db msg fs Hf Hr) as [c Hc].
  unfold try_catch. by rewrite Hc.
Qed.

Lemma d1_function_returns rt c db :
  ∃ resp db', D1Function.onRequest rt c db = (Ok resp, db').
Proof.
  unfold D1Function.onRequest.
  destruct (headers_get _ _) as [user|]; [|by eexists _, _].
  destruct (truthy_string _); [|by eexists _, _].
  destruct (try_catch_on_error
              (D1.dispatch rt (D1Function.request c) user
                 (D1Function.first_param (D1Function.params_notes c))) db)
    as (resp & db' & H & _).
  by exists resp, db'.
Qed.

Lemma d1_worker_returns rt r db :
  ∃ res db', D1Worker.fetch rt r db = (Ok res, db').
Proof.
  rewrite d1_worker_fetch. unfold D1Worker.handleRequest.
  destruct (match_notes_path _) as [g|]; [|by eexists _, _].
  destruct (headers_get _ _) as [user|]; [|by eexists _, _].
  destruct (truthy_string (Some user)); [|by eexists _, _].
  destruct (try_catch_on_error
              (D1.dispatch rt r user (if truthy_string g then g else None)) db)
    as (resp & db' & H & _).
  exists (Some resp), db'. unfold handled. by erewrite bind_Ok.
Qed.

(** Once a listed key holds text that is not JSON, the loop of
    [handleListNotes] throws. *)
Lemma collect_notes_junk keys acc kv k s :
  kv_faults kv = [] → k ∈ keys → entries kv !! k = Some (Junk s) → s ≠ "" →
  ∃ e kv', collect_notes keys acc kv = (Throw e, kv') ∧
           err_name e = "SyntaxError".
Proof.
  revert acc kv. induction keys as [|key keys IH]; intros acc kv Hf Hin Hk Hs.
  { by apply elem_of_nil in Hin. }
  simpl. unfold kv_get. erewrite bind_Ok; [|by apply kv_invoke_healthy].
  simpl.
  destruct (decide (key = k)) as [->|Hne].
  - rewrite Hk. destruct s as [|c s]; [done|]. by eexists _, _.
  - apply elem_of_cons in Hin as [->|Hin]; [done|].
    destruct (entries kv !! key) as [[j|[|c s']]|] eqn:Ev; simpl.
    + run. by apply IH.
    + by apply IH.
    + by eexists _, _.
    + by apply IH.
Qed.

Lemma kv_function_fault rt r kv user msg fs :
  identified "X-User-Token" r user → reaches_namespace r →
  kv_faults kv = Some msg :: fs →
  (KvFunction.onRequest rt r kv).1 = Throw (backend_error msg).
Proof.
  intros [Hu Ht]%identified_truthy Hr Hf. rewrite kv_function_routes.
  unfold reaches_namespace in Hr.
  destruct (kv_route r) as [[| |id|id]|]; [| | | |done].
  - unfold KvFunction.handleListNotes, KvFunction.getUserId. rewrite Hu, Ht.
    unfold kv_list. erewrite bind_Throw; [done|]. by apply kv_invoke_fault.
  - destruct Hr as (j & c & Hb & Hc).
    unfold KvFunction.handleCreateNote, KvFunction.getUserId, request_json.
    rewrite Hu, Ht, Hb. simpl. erewrite bind_Ok; [|done].
    rewrite destructure_Ok by (by intros ->). erewrite bind_Ok; [|done].
    rewrite Hc. unfold kv_put. erewrite bind_Throw; [done|].
    by apply kv_invoke_fault.
  - unfold KvFunction.handleUpdateNote, KvFunction.getUserId. rewrite Hu, Ht.
    unfold kv_get. erewrite bind_Throw; [done|]. by apply kv_invoke_fault.
  - unfold KvFunction.handleDeleteNote, KvFunction.getUserId. rewrite Hu, Ht.
    unfold kv_get. erewrite bind_Throw; [done|]. by apply kv_invoke_fault.
Qed.

Lemma kv_worker_fault rt r kv user msg fs :
  identified "X-User-Token" r user → reaches_namespace r →
  kv_faults kv = Some msg :: fs →
  (KvWorker.fetch rt r kv).1 = Throw (backend_error msg).
Proof.
  intros Hu Hr Hf. rewrite (kv_worker_routes rt r user Hu).
  unfold reaches_namespace in Hr. unfold handled.
  destruct (kv_route r) as [[| |id|id]|]; [| | | |done].
  - erewrite bind_Throw; [done|]. unfold KvWorker.handleListNotes, kv_list.
    erewrite bind_Throw; [done|]. by apply kv_invoke_fault.
  - destruct Hr as (j & c & Hb & Hc).
    erewrite bind_Throw; [done|].
    unfold KvWorker.handleCreateNote, request_json. rewrite Hb. simpl.
    erewrite bind_Ok; [|done].
    rewrite destructure_Ok by (by intros ->). erewrite bind_Ok; [|done].
    rewrite Hc. unfold kv_put. erewrite bind_Throw; [done|].
    by apply kv_invoke_fault.
  - erewrite bind_Throw; [done|]. unfold KvWorker.handleUpdateNote, kv_get.
    erewrite bind_Throw; [done|]. by apply kv_invoke_fault.
  - erewrite bind_Throw; [done|]. unfold KvWorker.handleDeleteNote, kv_delete.
    erewrite bind_Throw; [done|]. by apply kv_invoke_fault.
Qed.

Lemma kv_function_list_junk rt r kv user k s :
  identified "X-User-Token" r user → kv_route r = Some List →
  kv_faults kv = [] →
  k ∈ keys_with_prefix (user_prefix user) (entries kv) →
  entries kv !! k = Some (Junk s) → s ≠ "" →
  ∃ e, (KvFunction.onRequest rt r kv).1 = Throw e ∧ err_name e = "SyntaxError".
Proof.
  intros [Hu Ht]%identified_truthy Hr Hf Hin Hk Hs.
  rewrite kv_function_routes, Hr.
  unfold KvFunction.handleListNotes, KvFunction.getUserId. rewrite Hu, Ht.
  unfold kv_list. erewrite bind_Ok; [|by apply kv_invoke_healthy]. simpl.
  destruct (collect_notes_junk (keys_with_prefix (user_prefix user) (entries kv))
              [] {| entries := entries kv; kv_faults := [];
                    kv_calls := kv_calls kv ++ [KvList (user_prefix user)] |}
              k s) as (e & kv' & He & Hn); [done..|].
  exists e. split; [|done]. by erewrite bind_Throw.
Qed.

Lemma kv_worker_list_junk rt r kv user k s :
  identified "X-User-Token" r user → kv_route r = Some List →
  kv_faults kv = [] →
  k ∈ keys_with_prefix (user_prefix user) (entries kv) →
  entries kv !! k = Some (Junk s) → s ≠ "" →
  ∃ e, (KvWorker.fetch rt r kv).1 = Throw e ∧ err_name e = "SyntaxError".
Proof.
  intros Hu Hr Hf Hin Hk Hs.
  rewrite (kv_worker_routes rt r user Hu), Hr.
  unfold KvWorker.handleListNotes, handled.
  unfold kv_list.
  destruct (collect_notes_junk (keys_with_prefix (user_prefix user) (entries kv))
              [] {| entries := entries kv; kv_faults := [];
                    kv_calls := kv_calls kv ++ [KvList (user_prefix user)] |}
              k s) as (e & kv' & He & Hn); [done..|].
  exists e. split; [|done].
  erewrite bind_Throw; [done|].
  erewrite bind_Ok; [|by apply kv_invoke_healthy]. simpl.
  by erewrite bind_Throw.
Qed.

(** C3, as the claim has it, fails twice over.  In the KV Pages Function
    a stored value that is not JSON makes the list handler throw, and
    nothing catches it; in the D1 Pages Function a failing database call
    is answered with a 500 whose message repeats the fault's own text. *)
Lemma fault_escapes_or_leaks :
  (KvFunction.onRequest sample_rt
     (request_of "X-User-Token" "u" "GET" "/api/notes" (Junk "")) junk_kv).1 =
    Throw (syntax_error "Unexpected token in JSON: {oops") ∧
  (D1Function.onRequest sample_rt
     {| D1Function.request :=
          request_of "X-User-Session" "u" "GET" "/api/notes" (Junk "");
        D1Function.params_notes := None |} failing_db).1 =
    Ok (D1.errorResponse "Database error: D1_ERROR: no such table: notes" 500).
Proof. split; reflexivity. Qed.

(** C3, amended.  The D1 scripts let no fault out: whatever the request
    and the database, they return.  Whatever the method switch throws is
    answered with the 500 response whose message is [Database error: ]
    followed by the message of the fault; for a failing database call
    that is the backend's own message.  The KV scripts catch
    nothing: a failing namespace call propagates out of the handler with
    the backend's error, and so does the [SyntaxError] of [JSON.parse] on
    a listed value that is not JSON. *)
Theorem storage_faults :
  (∀ rt c db, ∃ resp db', D1Function.onRequest rt c db = (Ok resp, db')) ∧
  (∀ rt r db, ∃ res db', D1Worker.fetch rt r db = (Ok res, db')) ∧
  (∀ rt c db user e db1,
     identified "X-User-Session" (D1Function.request c) user →
     D1.dispatch rt (D1Function.request c) user
       (D1Function.first_param (D1Function.params_notes c)) db = (Throw e, db1) →
     D1Function.onRequest rt c db =
       (Ok (D1.errorResponse ("Database error: " +:+ message e) 500), db1)) ∧
  (∀ rt r db user g e db1,
     identified "X-User-Session" r user →
     match_notes_path (pathname r) = Some g →
     D1.dispatch rt r user (if truthy_string g then g else None) db =
       (Throw e, db1) →
     D1Worker.fetch rt r db =
       (Ok (Some (D1.errorResponse ("Database error: " +:+ message e) 500)),
        db1)) ∧
  (∀ rt c db user msg fs,
     identified "X-User-Session" (D1Function.request c) user →
     reaches_database (D1Function.request c)
       (D1Function.first_param (D1Function.params_notes c)) →
     d1_faults db = Some msg :: fs →
     (D1Function.onRequest rt c db).1 =
       Ok (D1.errorResponse ("Database error: " +:+ msg) 500)) ∧
  (∀ rt r db user g msg fs,
     identified "X-User-Session" r user →
     match_notes_path (pathname r) = Some g →
     reaches_database r (if truthy_string g then g else None) →
     d1_faults db = Some msg :: fs →
     (D1Worker.fetch rt r db).1 =
       Ok (Some (D1.errorResponse ("Database error: " +:+ msg) 500))) ∧
  (∀ rt r kv user msg fs,
     identified "X-User-Token" r user → reaches_namespace r →
     kv_faults kv = Some msg :: fs →
     (KvFunction.onRequest rt r kv).1 = Throw (backend_error msg) ∧
     (KvWorker.fetch rt r kv).1 = Throw (backend_error msg)) ∧
  (∀ rt r kv user k s,
     identified "X-User-Token" r user → kv_route r = Some List →
     kv_faults kv = [] →
     k ∈ keys_with_prefix (user_prefix user) (entries kv) →
     entries kv !! k = Some (Junk s) → s ≠ "" →
     (∃ e, (KvFunction.onRequest rt r kv).1 = Throw e ∧
           err_name e = "SyntaxError") ∧
     (∃ e, (KvWorker.fetch rt r kv).1 = Throw e ∧
           err_name e = "SyntaxError")).
Proof.
  split; [apply d1_function_returns|].
  split; [apply d1_worker_returns|].
  split; [|split; [|split; [|split; [|split]]]].
  - intros rt c db user e db1 Hu Hd.
    rewrite (d1_function_identified rt c user Hu). unfold try_catch.
    by rewrite Hd.
  - intros rt r db user g e db1 Hu Hg Hd.
    rewrite d1_worker_fetch, (d1_worker_identified rt r user g Hu Hg).
    unfold handled. erewrite bind_Ok; [done|]. unfold try_catch.
    by rewrite Hd.
  - intros rt c db user msg fs Hu Hr Hf.
    rewrite (d1_function_identified rt c user Hu). by eapply d1_guarded_fault.
  - intros rt r db user g msg fs Hu Hg Hr Hf.
    rewrite d1_worker_fetch, (d1_worker_identified rt r user g Hu Hg).
    pose proof (d1_guarded_fault rt r user _ db msg fs Hf Hr) as H.
    unfold handled, mbind, M_bind.
    by destruct (try_catch _ _ db) as [[resp|e] db']; simplify_eq/=.
  - intros rt r kv user msg fs Hu Hr Hf. split.
    + by eapply kv_function_fault.
    + by eapply kv_worker_fault.
  - intros rt r kv user k s Hu Hr Hf Hin Hk Hs. split.
    + by eapply kv_function_list_junk.
    + by eapply kv_worker_list_junk.
Qed.

Lemma storage_faults_witness :
  D1Function.onRequest sample_rt
    {| D1Function.request :=
         request_of "X-User-Session" "u" "POST" "/api/notes" (Junk "{");
       D1Function.params_notes := None |} empty_db =
    (Ok (D1.errorResponse
           ("Database error: " +:+
            message (syntax_error "Unexpected token in JSON: {")) 500),
     empty_db) ∧
  D1Worker.fetch sample_rt
    (request_of "X-User-Session" "u" "POST" "/api/notes" (Doc JNull)) empty_db =
    (Ok (Some (D1.errorResponse
                 ("Database error: " +:+
                  message (type_error
                             "Cannot destructure property 'title' of null"))
                 500)),
     empty_db) ∧
  (D1Function.onRequest sample_rt
     {| D1Function.request :=
          request_of "X-User-Session" "u" "DELETE" "/api/notes" (Junk "");
        D1Function.params_notes := Some (PArr [sample_uuid]) |} failing_db).1 =
    Ok (D1.errorResponse
          ("Database error: " +:+ "D1_ERROR: no such table: notes") 500) ∧
  (D1Worker.fetch sample_rt
     (request_of "X-User-Session" "u" "PUT" "/api/notes/abc"
        (content_body (JStr "x"))) failing_db).1 =
    Ok (Some (D1.errorResponse
                ("Database error: " +:+ "D1_ERROR: no such table: notes") 500)) ∧
  ((KvFunction.onRequest sample_rt
      (request_of "X-User-Token" "u" "PUT" (item_path sample_uuid)
         (content_body (JStr "x"))) failing_kv).1 =
     Throw (backend_error "KV GET failed: 503") ∧
   (KvWorker.fetch sample_rt
      (request_of "X-User-Token" "u" "PUT" (item_path sample_uuid)
         (content_body (JStr "x"))) failing_kv).1 =
     Throw (backend_error "KV GET failed: 503")) ∧
  ((∃ e, (KvFunction.onRequest sample_rt
            (request_of "X-User-Token" "u" "GET" "/api/notes" (Junk ""))
            junk_kv).1 = Throw e ∧ err_name e = "SyntaxError") ∧
   (∃ e, (KvWorker.fetch sample_rt
            (request_of "X-User-Token" "u" "GET" "/api/notes" (Junk ""))
            junk_kv).1 = Throw e ∧ err_name e = "SyntaxError")).
Proof.
  destruct storage_faults as (_ & _ & H1 & H2 & H3 & H4 & H5 & H6).
  split; [|split; [|split; [|split; [|split]]]].
  - by apply (H1 _ _ _ "u").
  - by apply (H2 _ _ _ "u" None).
  - eapply (H3 _ _ _ "u"); [done| |done]. by do 3 right.
  - eapply (H4 _ _ _ "u" (Some "abc")); [done|done| |done].
    right; right; left. split; [done|]. split; [done|].
    by exists (JObj {["content" := JStr "x"]}), (SqlText D1.placeholder),
              (SqlText "x").
  - by eapply (H5 _ _ _ "u").
  - eapply (H6 _ _ _ "u" (note_key "u" sample_uuid) "{oops"); try done.
    vm_compute. apply list_elem_of_here.
Defined.

(** ** Updating a note *)

Lemma kv_invoke_Ok_inv {A} c (f : gmap string text → A * gmap string text)
    kv a kv' :
  kv_invoke c f kv = (Ok a, kv') →
  a = (f (entries kv)).1 ∧ entries kv' = (f (entries kv)).2 ∧
  kv_faults kv' = tail (kv_faults kv) ∧ kv_calls kv' = kv_calls kv ++ [c].
Proof.
  unfold kv_invoke.
  destruct (kv_faults kv) as [|[msg|] fs]; [|done|];
    destruct (f (entries kv)) as [x m]; by intros [= -> <-].
Qed.

Lemma d1_invoke_Ok_inv {A} c (f : list Row → outcome A * list Row) db a db' :
  d1_invoke c f db = (Ok a, db') →
  f (notes db) = (Ok a, notes db') ∧
  d1_faults db' = tail (d1_faults db) ∧ d1_calls db' = d1_calls db ++ [c].
Proof.
  unfold d1_invoke.
  destruct (d1_faults db) as [|[msg|] fs]; [|done|];
    destruct (f (notes db)) as [x m]; by intros [= -> <-].
Qed.

Lemma lookup_assign k v (o : gmap string json) k' :
  assign k v o !! k' = if decide (k = k') then v else o !! k'.
Proof.
  unfold assign. destruct v as [j|].
  - apply lookup_insert.
  - rewrite lookup_delete. by case_decide.
Qed.

Lemma JSON_parse_Ok_inv t j : JSON_parse t = Ok j → t = Doc j.
Proof. destruct t as [j'|[|c s]]; simpl; congruence. Qed.

Lemma destructure_Ok_inv j k v :
  destructure j k = Ok v → j ≠ JNull ∧ v = prop j k.
Proof. by destruct j; simpl; intros [= <-]. Qed.

(** The record [updated_note] builds: the clock in [updatedAt], the
    supplied content unless it is [undefined] or [null], every other
    property as it was. *)
Lemma updated_note_Ok existing c t note' :
  updated_note existing c t = Ok note' →
  ∃ o', note' = JObj o' ∧
    o' !! "updatedAt" = Some (JNum t) ∧
    o' !! "content" = nullish c (prop existing "content") ∧
    ∀ k, k ≠ "content" → k ≠ "updatedAt" → o' !! k = spread existing !! k.
Proof.
  intros H.
  assert (note' = JObj (assign "updatedAt" (Some (JNum t))
               (assign "content" (nullish c (prop existing "content"))
                  (spread existing)))) as ->.
  { unfold updated_note in H. destruct c as [[]|], existing; by simplify_eq. }
  eexists. split; [done|]. split; [|split].
  - by rewrite lookup_assign, decide_True.
  - by rewrite lookup_assign, decide_False, lookup_assign, decide_True.
  - intros k H1 H2. by rewrite !lookup_assign, !decide_False.
Qed.

Lemma updated_note_object o c t :
  updated_note (JObj o) c t =
    Ok (JObj (<["updatedAt" := JNum t]>
               (assign "content" (nullish c (o !! "content")) o))).
Proof. by destruct c as [[]|]. Qed.

Lemma kv_worker_update_inv rt r user id kv resp kv' :
  KvWorker.handleUpdateNote rt r user id kv = (Ok resp, kv') →
  status resp = 200 →
  ∃ existing b note',
    entries kv !! note_key user id = Some (Doc existing) ∧
    body r = Doc b ∧ b ≠ JNull ∧
    updated_note existing (prop b "content") (now rt) = Ok note' ∧
    resp = KvWorker.jsonResponse note' 200 ∧
    entries kv' = <[note_key user id := Doc note']> (entries kv).
Proof.
  unfold KvWorker.handleUpdateNote.
  intros (v & kv1 & Hget & H)%bind_Ok_inv Hst.
  apply kv_invoke_Ok_inv in Hget as (-> & He1 & _ & _). simpl in *.
  destruct (entries kv !! note_key user id) as [t|] eqn:Ev; cycle 1.
  { by apply mret_inv in H as [-> _]. }
  destruct (truthy_text (Some t)); cycle 1.
  { by apply mret_inv in H as [-> _]. }
  apply bind_Ok_inv in H as (existing & kv2 & [Hp ->]%lift_Ok_inv & H).
  apply JSON_parse_Ok_inv in Hp as ->.
  apply bind_Ok_inv in H as (b & kv3 & [Hb ->]%lift_Ok_inv & H).
  apply JSON_parse_Ok_inv in Hb.
  apply bind_Ok_inv in H as (c & kv4 & [Hc ->]%lift_Ok_inv & H).
  apply destructure_Ok_inv in Hc as [Hb' ->].
  apply bind_Ok_inv in H as (note' & kv5 & [Hn ->]%lift_Ok_inv & H).
  apply bind_Ok_inv in H as (u & kv6 & Hput & H).
  apply kv_invoke_Ok_inv in Hput as (_ & He2 & _ & _). simpl in *.
  apply mret_inv in H as [-> ->].
  exists existing, b, note'. by rewrite He2, He1.
Qed.

Lemma kv_function_update_inv rt r user id kv resp kv' :
  identified "X-User-Token" r user →
  KvFunction.handleUpdateNote rt r id kv = (Ok resp, kv') →
  status resp = 200 →
  ∃ existing b note',
    entries kv !! note_key user id = Some (Doc existing) ∧
    body r = Doc b ∧ b ≠ JNull ∧
    updated_note existing (prop b "content") (now rt) = Ok note' ∧
    resp = KvFunction.jsonResponse note' 200 ∧
    entries kv' = <[note_key user id := Doc note']> (entries kv).
Proof.
  intros [Hu Ht]%identified_truthy.
  unfold KvFunction.handleUpdateNote, KvFunction.getUserId. rewrite Hu, Ht.
  intros (v & kv1 & Hget & H)%bind_Ok_inv Hst.
  apply kv_invoke_Ok_inv in Hget as (-> & He1 & _ & _). simpl in *.
  destruct (entries kv !! note_key user id) as [t|] eqn:Ev; cycle 1.
  { by apply mret_inv in H as [-> _]. }
  destruct (truthy_text (Some t)); cycle 1.
  { by apply mret_inv in H as [-> _]. }
  apply bind_Ok_inv in H as (existing & kv2 & [Hp ->]%lift_Ok_inv & H).
  apply JSON_parse_Ok_inv in Hp as ->.
  apply bind_Ok_inv in H as (b & kv3 & [Hb ->]%lift_Ok_inv & H).
  apply JSON_parse_Ok_inv in Hb.
  apply bind_Ok_inv in H as (c & kv4 & [Hc ->]%lift_Ok_inv & H).
  apply destructure_Ok_inv in Hc as [Hb' ->].
  apply bind_Ok_inv in H as (note' & kv5 & [Hn ->]%lift_Ok_inv & H).
  apply bind_Ok_inv in H as (u & kv6 & Hput & H).
  apply kv_invoke_Ok_inv in Hput as (_ & He2 & _ & _). simpl in *.
  apply mret_inv in H as [-> ->].
  exists existing, b, note'. by rewrite He2, He1.
Qed.

(** An update of a stored object by a body that is not [null], on a
    healthy namespace: one read, one write, the written record returned. *)
Lemma kv_worker_update_ok rt r user id kv o b :
  kv_faults kv = [] →
  entries kv !! note_key user id = Some (Doc (JObj o)) →
  body r = Doc b → b ≠ JNull →
  let note' := JObj (<["updatedAt" := JNum (now rt)]>
                 (assign "content" (nullish (prop b "content") (o !! "content")) o)) in
  KvWorker.handleUpdateNote rt r user id kv =
    (Ok (KvWorker.jsonResponse note' 200),
     {| entries := <[note_key user id := Doc note']> (entries kv);
        kv_faults := [];
        kv_calls := (kv_calls kv ++ [KvGet (note_key user id)]) ++
                    [KvPut (note_key user id) (Doc note')] |}).
Proof.
  intros Hf Hk Hb Hj note'. unfold KvWorker.handleUpdateNote, kv_get.
  erewrite bind_Ok; [|by apply kv_invoke_healthy]. simpl. rewrite Hk. simpl.
  unfold request_json. rewrite Hb.
  erewrite bind_Ok; [|done]. erewrite bind_Ok; [|done].
  rewrite destructure_Ok by done. erewrite bind_Ok; [|done].
  rewrite updated_note_object. erewrite bind_Ok; [|done].
  unfold kv_put. by erewrite bind_Ok; [|by apply kv_invoke_healthy].
Qed.

Lemma kv_function_update_ok rt r user id kv o b :
  identified "X-User-Token" r user →
  kv_faults kv = [] →
  entries kv !! note_key user id = Some (Doc (JObj o)) →
  body r = Doc b → b ≠ JNull →
  let note' := JObj (<["updatedAt" := JNum (now rt)]>
                 (assign "content" (nullish (prop b "content") (o !! "content")) o)) in
  KvFunction.handleUpdateNote rt r id kv =
    (Ok (KvFunction.jsonResponse note' 200),
     {| entries := <[note_key user id := Doc note']> (entries kv);
        kv_faults := [];
        kv_calls := (kv_calls kv ++ [KvGet (note_key user id)]) ++
                    [KvPut (note_key user id) (Doc note')] |}).
Proof.
  intros [Hu Ht]%identified_truthy Hf Hk Hb Hj note'.
  unfold KvFunction.handleUpdateNote, KvFunction.getUserId, kv_get.
  rewrite Hu, Ht.
  erewrite bind_Ok; [|by apply kv_invoke_healthy]. simpl. rewrite Hk. simpl.
  unfold request_json. rewrite Hb.
  erewrite bind_Ok; [|done]. erewrite bind_Ok; [|done].
  rewrite destructure_Ok by done. erewrite bind_Ok; [|done].
  rewrite updated_note_object. erewrite bind_Ok; [|done].
  unfold kv_put. by erewrite bind_Ok; [|by apply kv_invoke_healthy].
Qed.

(** The PUT branch of the D1 switch on a healthy database, with a body
    D1 can bind: the UPDATE runs, and [changes] picks the answer. *)
Lemma d1_put_ok rt r user id db j t c :
  method r = "PUT" → id ≠ "" → d1_faults db = [] →
  body r = Doc j → j ≠ JNull →
  d1_bind (js_or (prop j "title") (Some (JStr D1.placeholder))) = Ok t →
  d1_bind (prop j "content") = Ok c →
  D1.dispatch rt r user (Some id) db =
    (Ok (if changes_of id user (notes db) =? 0
         then D1.errorResponse "Note not found or you do not own this note." 404
         else D1.jsonResponse
                (JObj {["message" := JStr "Note updated successfully"]}) 200),
     {| notes := update_note t c id user (notes db); d1_faults := [];
        d1_calls := d1_calls db ++ [UpdateNote t c id user] |}).
Proof.
  intros Hm Hid Hf Hb Hj Ht Hc. unfold D1.dispatch. rewrite Hm. simpl.
  apply String.eqb_neq in Hid as ->. simpl.
  unfold request_json. rewrite Hb. simpl.
  erewrite bind_Ok; [|done]. rewrite !destructure_Ok by done.
  erewrite bind_Ok; [|done]. erewrite bind_Ok; [|done]. rewrite Ht, Hc.
  erewrite bind_Ok; [|done]. erewrite bind_Ok; [|done].
  unfold d1_run_update. erewrite bind_Ok; [|by eapply d1_invoke_healthy].
  simpl. by destruct (changes_of id user (notes db) =? 0).
Qed.

(** A PUT that the D1 switch answers with 200 ran the UPDATE with the
    bound title and content, and the UPDATE changed a row. *)
Lemma d1_put_inv rt r user noteId db resp db' :
  method r = "PUT" → D1.dispatch rt r user noteId db = (Ok resp, db') →
  status resp = 200 →
  ∃ id j t c,
    noteId = Some id ∧ id ≠ "" ∧ body r = Doc j ∧ j ≠ JNull ∧
    d1_bind (js_or (prop j "title") (Some (JStr D1.placeholder))) = Ok t ∧
    d1_bind (prop j "content") = Ok c ∧
    changes_of id user (notes db) ≠ 0 ∧
    notes db' = update_note t c id user (notes db) ∧
    resp = D1.jsonResponse
             (JObj {["message" := JStr "Note updated successfully"]}) 200.
Proof.
  intros Hm. unfold D1.dispatch. rewrite Hm. simpl.
  destruct (truthy_string noteId) eqn:Hid; cycle 1.
  { by intros [-> _]%mret_inv. }
  apply truthy_string_true in Hid as (id & -> & Hid). simpl.
  intros (parsed & db1 & [Hp ->]%lift_Ok_inv & H)%bind_Ok_inv Hst.
  apply JSON_parse_Ok_inv in Hp.
  apply bind_Ok_inv in H as (title & db2 & [Ht ->]%lift_Ok_inv & H).
  apply destructure_Ok_inv in Ht as [Hj ->].
  apply bind_Ok_inv in H as (content & db3 & [Hc ->]%lift_Ok_inv & H).
  apply destructure_Ok_inv in Hc as [_ ->].
  apply bind_Ok_inv in H as (t & db4 & [Hbt ->]%lift_Ok_inv & H).
  apply bind_Ok_inv in H as (c & db5 & [Hbc ->]%lift_Ok_inv & H).
  apply bind_Ok_inv in H as (n & db6 & Hrun & H).
  apply d1_invoke_Ok_inv in Hrun as (Hrun & _ & _). simpl in Hrun.
  injection Hrun as <- Hnotes.
  destruct (changes_of id user (notes db) =? 0) eqn:E.
  { by apply mret_inv in H as [-> _]. }
  apply mret_inv in H as [-> ->]. apply Z.eqb_neq in E.
  by exists id, parsed, t, c.
Qed.

(** What the guarded switch answers with a status other than 500 is what
    the switch returned. *)
Lemma try_catch_not_500 (m : M D1Database Response) db resp db' :
  try_catch m D1.on_error db = (Ok resp, db') → status resp ≠ 500 →
  m db = (Ok resp, db').
Proof.
  unfold try_catch. destruct (m db) as [[r0|e] db1]; [done|].
  unfold D1.on_error. by intros [-> _]%mret_inv.
Qed.

Lemma handled_Ok_inv {S} (m : M S Response) s resp s' :
  handled m s = (Ok (Some resp), s') → m s = (Ok resp, s').
Proof.
  unfold handled. intros (r0 & s1 & Hm & H)%bind_Ok_inv.
  apply mret_inv in H as [[= ->] ->]. done.
Qed.

Lemma owned_by_true id user r :
  owned_by id user r = true ↔ note_id r = id ∧ user_session_id r = user.
Proof. unfold owned_by. by rewrite andb_true_iff, !String.eqb_eq. Qed.

Lemma changes_of_nonzero id user rows :
  changes_of id user rows ≠ 0 ↔
  ∃ r, r ∈ rows ∧ note_id r = id ∧ user_session_id r = user.
Proof.
  unfold changes_of. split.
  - intros H.
    destruct (filter (λ r, owned_by id user r = true) rows) as [|r l] eqn:E;
      [done|].
    assert (r ∈ filter (λ r, owned_by id user r = true) rows) as Hin
      by (rewrite E; apply list_elem_of_here).
    apply list_elem_of_filter in Hin as [Ho Hin].
    exists r. by apply owned_by_true in Ho.
  - intros (r & Hin & Hid & Hu).
    assert (r ∈ filter (λ r, owned_by id user r = true) rows) as Hf.
    { apply list_elem_of_filter. split; [|done]. by apply owned_by_true. }
    destruct (filter _ rows); [by apply elem_of_nil in Hf|done].
Qed.

(** The UPDATE keeps every row in place with its id, owner and creation
    time, leaves the rows it does not match as they are, and gives the
    matched rows the bound title and content. *)
Lemma update_note_frame t c id user rows :
  Forall2 (λ r r',
      same_identity r r' ∧
      (owned_by id user r = false → r' = r) ∧
      (owned_by id user r = true → title r' = t ∧ content r' = c))
    rows (update_note t c id user rows).
Proof.
  unfold update_note. induction rows as [|r rows IH]; [constructor|].
  rewrite fmap_cons. constructor; [|done].
  unfold same_identity. by destruct (owned_by id user r).
Qed.

(** C6, as the claim has it, fails for the D1 scripts: a PUT that updates
    the note is answered with a message object, which has none of the
    note's fields. *)
Lemma d1_update_answers_with_message :
  let '(res, db') :=
    D1Function.onRequest later_rt
      (d1_put "u" (Doc (JObj (<["title" := JStr "Shopping"]>
                               {["content" := JStr "buy oat milk"]}))))
      one_note_db in
  res = Ok (D1.jsonResponse
              (JObj {["message" := JStr "Note updated successfully"]}) 200) ∧
  content <$> notes db' = [SqlText "buy oat milk"] ∧
  (∀ resp, res = Ok resp →
     prop (resp_body resp) "id" = None ∧
     prop (resp_body resp) "content" = None).
Proof.
  vm_compute. split; [done|]. split; [done|]. by intros resp [= <-].
Qed.

(** C6, amended.  A PUT to an item path that finds the note returns
    status 200.  In the KV scripts (stored object, body other than [null],
    healthy namespace) the body of the response is the updated note
    record, the very record then stored under the caller's key.  In the
    D1 scripts (body D1 can bind, healthy database, a row with that id
    owned by the caller) the body is the object with the single property
    [message], not the note. *)
Theorem successful_put_response :
  (∀ rt r kv user id o b,
     identified "X-User-Token" r user → kv_route r = Some (Update id) →
     kv_faults kv = [] →
     entries kv !! note_key user id = Some (Doc (JObj o)) →
     body r = Doc b → b ≠ JNull →
     ∃ note kv',
       note = JObj (<["updatedAt" := JNum (now rt)]>
                (assign "content" (nullish (prop b "content") (o !! "content")) o)) ∧
       KvFunction.onRequest rt r kv = (Ok (KvFunction.jsonResponse note 200), kv') ∧
       entries kv' = <[note_key user id := Doc note]> (entries kv)) ∧
  (∀ rt r kv user id o b,
     identified "X-User-Token" r user → kv_route r = Some (Update id) →
     kv_faults kv = [] →
     entries kv !! note_key user id = Some (Doc (JObj o)) →
     body r = Doc b → b ≠ JNull →
     ∃ note kv',
       note = JObj (<["updatedAt" := JNum (now rt)]>
                (assign "content" (nullish (prop b "content") (o !! "content")) o)) ∧
       KvWorker.fetch rt r kv = (Ok (Some (KvWorker.jsonResponse note 200)), kv') ∧
       entries kv' = <[note_key user id := Doc note]> (entries kv)) ∧
  (∀ rt c db user id row,
     identified "X-User-Session" (D1Function.request c) user →
     method (D1Function.request c) = "PUT" →
     D1Function.first_param (D1Function.params_notes c) = Some id → id ≠ "" →
     bindable_body (D1Function.request c) → d1_faults db = [] →
     row ∈ notes db → note_id row = id → user_session_id row = user →
     (D1Function.onRequest rt c db).1 =
       Ok (D1.jsonResponse
             (JObj {["message" := JStr "Note updated successfully"]}) 200)) ∧
  (∀ rt r db user id row,
     identified "X-User-Session" r user → method r = "PUT" →
     match_notes_path (pathname r) = Some (Some id) →
     bindable_body r → d1_faults db = [] →
     row ∈ notes db → note_id row = id → user_session_id row = user →
     (D1Worker.fetch rt r db).1 =
       Ok (Some (D1.jsonResponse
                   (JObj {["message" := JStr "Note updated successfully"]}) 200))).
Proof.
  split; [|split; [|split]].
  - intros rt r kv user id o b Hu Hr Hf Hk Hb Hj.
    eexists _, _. split; [done|].
    rewrite kv_function_routes, Hr.
    by rewrite (kv_function_update_ok rt r user id kv o b).
  - intros rt r kv user id o b Hu Hr Hf Hk Hb Hj.
    eexists _, _. split; [done|].
    rewrite (kv_worker_routes rt r user Hu), Hr. unfold handled.
    erewrite bind_Ok; [|by apply kv_worker_update_ok]. done.
  - intros rt c db user id row Hu Hm Hp Hid (j & t & cc & Hb & Hj & Ht & Hc)
      Hf Hin Hrid Hru.
    rewrite (d1_function_identified rt c user Hu), Hp. unfold try_catch.
    rewrite (d1_put_ok rt _ user id db j t cc) by done.
    assert (changes_of id user (notes db) ≠ 0) as Hn
      by (apply changes_of_nonzero; eauto).
    by apply Z.eqb_neq in Hn as ->.
  - intros rt r db user id row Hu Hm Hp (j & t & cc & Hb & Hj & Ht & Hc)
      Hf Hin Hrid Hru.
    assert (id ≠ "") as Hid.
    { intros ->. unfold match_notes_path in Hp.
      destruct (strip_prefix _ _) as [[|[] ?]|]; simplify_eq/=;
        repeat case_match; simplify_eq. }
    rewrite d1_worker_fetch, (d1_worker_identified rt r user _ Hu Hp).
    assert (truthy_string (Some id) = true) as ->
      by (apply truthy_string_true; eauto).
    unfold handled, try_catch.
    erewrite bind_Ok; cycle 1.
    { rewrite (d1_put_ok rt _ user id db j t cc) by done. done. }
    assert (changes_of id user (notes db) ≠ 0) as Hn
      by (apply changes_of_nonzero; eauto).
    by apply Z.eqb_neq in Hn as ->.
Qed.

Lemma successful_put_response_witness :
  (∃ note kv',
     KvFunction.onRequest later_rt
       (request_of "X-User-Token" "u" "PUT" (item_path sample_uuid)
          (content_body (JStr "buy oat milk"))) one_note_kv =
       (Ok (KvFunction.jsonResponse note 200), kv') ∧
     entries kv' = <[note_key "u" sample_uuid := Doc note]> (entries one_note_kv)) ∧
  (∃ note kv',
     KvWorker.fetch later_rt
       (request_of "X-User-Token" "u" "PUT" (item_path sample_uuid)
          (content_body (JStr "buy oat milk"))) one_note_kv =
       (Ok (Some (KvWorker.jsonResponse note 200)), kv') ∧
     entries kv' = <[note_key "u" sample_uuid := Doc note]> (entries one_note_kv)) ∧
  (D1Function.onRequest later_rt
     (d1_put "u" (content_body (JStr "buy oat milk"))) one_note_db).1 =
    Ok (D1.jsonResponse
          (JObj {["message" := JStr "Note updated successfully"]}) 200) ∧
  (D1Worker.fetch later_rt
     (request_of "X-User-Session" "u" "PUT" (item_path sample_uuid)
        (content_body (JStr "buy oat milk"))) one_note_db).1 =
    Ok (Some (D1.jsonResponse
                (JObj {["message" := JStr "Note updated successfully"]}) 200)).
Proof.
  destruct successful_put_response as (H1 & H2 & H3 & H4).
  assert (bindable_body (request_of "X-User-Session" "u" "PUT"
            (item_path sample_uuid) (content_body (JStr "buy oat milk")))) as Hb.
  { by exists (JObj {["content" := JStr "buy oat milk"]}),
              (SqlText D1.placeholder), (SqlText "buy oat milk"). }
  split; [|split; [|split]].
  - destruct (H1 later_rt
                 (request_of "X-User-Token" "u" "PUT" (item_path sample_uuid)
                    (content_body (JStr "buy oat milk")))
                 one_note_kv "u" sample_uuid
                 (<["id" := JStr sample_uuid]>
                 (<["content" := JStr "buy milk"]>
                 (<["createdAt" := JNum 1700000000000]>
                 (<["updatedAt" := JNum 1700000000000]> ∅))))
                 (JObj {["content" := JStr "buy oat milk"]}))
      as (note & kv' & _ & Hr & He);
      [done | done | done | reflexivity | done | done |].
    by exists note, kv'.
  - destruct (H2 later_rt
                 (request_of "X-User-Token" "u" "PUT" (item_path sample_uuid)
                    (content_body (JStr "buy oat milk")))
                 one_note_kv "u" sample_uuid
                 (<["id" := JStr sample_uuid]>
                 (<["content" := JStr "buy milk"]>
                 (<["createdAt" := JNum 1700000000000]>
                 (<["updatedAt" := JNum 1700000000000]> ∅))))
                 (JObj {["content" := JStr "buy oat milk"]}))
      as (note & kv' & _ & Hr & He);
      [done | done | done | reflexivity | done | done |].
    by exists note, kv'.
  - apply (H3 later_rt _ one_note_db "u" sample_uuid sample_row);
      first [done | exact Hb | apply list_elem_of_here].
  - apply (H4 later_rt _ one_note_db "u" sample_uuid sample_row);
      first [done | exact Hb | apply list_elem_of_here].
Defined.

(** C5, as the claim has it, fails for the D1 scripts: a successful
    update changes the title as well as the content. *)
Lemma d1_update_changes_title :
  let '(res, db') :=
    D1Function.onRequest later_rt
      (d1_put "u" (Doc (JObj (<["title" := JStr "Shopping"]>
                               {["content" := JStr "buy oat milk"]}))))
      one_note_db in
  (∃ resp, res = Ok resp ∧ status resp = 200) ∧
  title <$> notes one_note_db = [SqlText "Groceries"] ∧
  title <$> notes db' = [SqlText "Shopping"].
Proof. vm_compute. split; [by eexists|done]. Qed.

(** C5, amended.  A successful update (status 200) changes, in the KV
    scripts, only the [content] and [updatedAt] properties of the stored
    record: every other property, [id] and [createdAt] among them, is as
    it was, and the record stays under the same key, that of the caller's
    scope.  In the D1 scripts it changes only the [title] and [content]
    columns, and only of rows the caller owns: every row keeps its id, its
    owner and its creation time. *)
Theorem update_frame :
  (∀ rt r kv user id resp kv',
     identified "X-User-Token" r user → kv_route r = Some (Update id) →
     KvFunction.onRequest rt r kv = (Ok resp, kv') → status resp = 200 →
     ∃ existing o',
       entries kv !! note_key user id = Some (Doc existing) ∧
       entries kv' = <[note_key user id := Doc (JObj o')]> (entries kv) ∧
       ∀ k, k ≠ "content" → k ≠ "updatedAt" → o' !! k = spread existing !! k) ∧
  (∀ rt r kv user id resp kv',
     identified "X-User-Token" r user → kv_route r = Some (Update id) →
     KvWorker.fetch rt r kv = (Ok (Some resp), kv') → status resp = 200 →
     ∃ existing o',
       entries kv !! note_key user id = Some (Doc existing) ∧
       entries kv' = <[note_key user id := Doc (JObj o')]> (entries kv) ∧
       ∀ k, k ≠ "content" → k ≠ "updatedAt" → o' !! k = spread existing !! k) ∧
  (∀ rt c db user resp db',
     identified "X-User-Session" (D1Function.request c) user →
     method (D1Function.request c) = "PUT" →
     D1Function.onRequest rt c db = (Ok resp, db') → status resp = 200 →
     ∃ id, Forall2 (λ r r', same_identity r r' ∧
                            (owned_by id user r = false → r' = r))
             (notes db) (notes db')) ∧
  (∀ rt r db user resp db',
     identified "X-User-Session" r user → method r = "PUT" →
     D1Worker.fetch rt r db = (Ok (Some resp), db') → status resp = 200 →
     ∃ id, Forall2 (λ r r', same_identity r r' ∧
                            (owned_by id user r = false → r' = r))
             (notes db) (notes db')).
Proof.
  split; [|split; [|split]].
  - intros rt r kv user id resp kv' Hu Hr Hrun Hst.
    rewrite kv_function_routes, Hr in Hrun.
    destruct (kv_function_update_inv rt r user id kv resp kv' Hu Hrun Hst)
      as (existing & b & note' & Hk & _ & _ & Hn & _ & He).
    apply updated_note_Ok in Hn as (o' & -> & _ & _ & Hframe).
    by exists existing, o'.
  - intros rt r kv user id resp kv' Hu Hr Hrun Hst.
    rewrite (kv_worker_routes rt r user Hu), Hr in Hrun.
    apply handled_Ok_inv in Hrun.
    destruct (kv_worker_update_inv rt r user id kv resp kv' Hrun Hst)
      as (existing & b & note' & Hk & _ & _ & Hn & _ & He).
    apply updated_note_Ok in Hn as (o' & -> & _ & _ & Hframe).
    by exists existing, o'.
  - intros rt c db user resp db' Hu Hm Hrun Hst.
    rewrite (d1_function_identified rt c user Hu) in Hrun.
    apply try_catch_not_500 in Hrun; [|by rewrite Hst].
    destruct (d1_put_inv rt _ user _ db resp db' Hm Hrun Hst)
      as (id & j & t & cc & _ & _ & _ & _ & _ & _ & _ & -> & _).
    exists id. eapply Forall2_impl; [apply update_note_frame|].
    by intros r r' (? & ? & _).
  - intros rt r db user resp db' Hu Hm Hrun Hst.
    rewrite d1_worker_fetch in Hrun.
    destruct (match_notes_path (pathname r)) as [g|] eqn:Hg; cycle 1.
    { unfold D1Worker.handleRequest in Hrun. by rewrite Hg in Hrun. }
    rewrite (d1_worker_identified rt r user g Hu Hg) in Hrun.
    apply handled_Ok_inv, try_catch_not_500 in Hrun; [|by rewrite Hst].
    destruct (d1_put_inv rt _ user _ db resp db' Hm Hrun Hst)
      as (id & j & t & cc & _ & _ & _ & _ & _ & _ & _ & -> & _).
    exists id. eapply Forall2_impl; [apply update_note_frame|].
    by intros r0 r' (? & ? & _).
Qed.

Lemma update_frame_witness :
  (∃ existing o',
     entries one_note_kv !! note_key "u" sample_uuid = Some (Doc existing) ∧
     entries (KvFunction.onRequest later_rt kv_put_request one_note_kv).2 =
       <[note_key "u" sample_uuid := Doc (JObj o')]> (entries one_note_kv) ∧
     ∀ k, k ≠ "content" → k ≠ "updatedAt" → o' !! k = spread existing !! k) ∧
  (∃ existing o',
     entries one_note_kv !! note_key "u" sample_uuid = Some (Doc existing) ∧
     entries (KvWorker.fetch later_rt kv_put_request one_note_kv).2 =
       <[note_key "u" sample_uuid := Doc (JObj o')]> (entries one_note_kv) ∧
     ∀ k, k ≠ "content" → k ≠ "updatedAt" → o' !! k = spread existing !! k) ∧
  (∃ id, Forall2 (λ r r', same_identity r r' ∧
                          (owned_by id "u" r = false → r' = r))
           (notes one_note_db)
           (notes (D1Function.onRequest later_rt
                     (d1_put "u" (content_body (JStr "buy oat milk")))
                     one_note_db).2)) ∧
  (∃ id, Forall2 (λ r r', same_identity r r' ∧
                          (owned_by id "u" r = false → r' = r))
           (notes one_note_db)
           (notes (D1Worker.fetch later_rt
                     (request_of "X-User-Session" "u" "PUT"
                        (item_path sample_uuid)
                        (content_body (JStr "buy oat milk")))
                     one_note_db).2)).
Proof.
  destruct update_frame as (H1 & H2 & H3 & H4).
  split; [|split; [|split]].
  - apply (H1 later_rt kv_put_request one_note_kv "u" sample_uuid
             (KvFunction.jsonResponse updated_sample 200));
      [done | done | vm_compute; reflexivity | done].
  - apply (H2 later_rt kv_put_request one_note_kv "u" sample_uuid
             (KvWorker.jsonResponse updated_sample 200));
      [done | done | vm_compute; reflexivity | done].
  - apply (H3 later_rt (d1_put "u" (content_body (JStr "buy oat milk")))
             one_note_db "u" (D1.jsonResponse updated_message 200));
      [done | done | vm_compute; reflexivity | done].
  - apply (H4 later_rt
             (request_of "X-User-Session" "u" "PUT" (item_path sample_uuid)
                (content_body (JStr "buy oat milk")))
             one_note_db "u" (D1.jsonResponse updated_message 200));
      [done | done | vm_compute; reflexivity | done].
Defined.

(** C4, as the claim has it, fails for the D1 scripts: a body that gives
    only [content] makes the update replace the stored title with the
    placeholder. *)
Lemma d1_update_resets_omitted_title :
  let '(res, db') :=
    D1Function.onRequest later_rt
      (d1_put "u" (content_body (JStr "buy oat milk"))) one_note_db in
  (∃ resp, res = Ok resp ∧ status resp = 200) ∧
  title <$> notes one_note_db = [SqlText "Groceries"] ∧
  title <$> notes db' = [SqlText D1.placeholder].
Proof. vm_compute. split; [by eexists|done]. Qed.

(** C4, amended.  In the KV scripts update merges: with a stored object,
    a body other than [null] and a healthy namespace, the stored
    [content] is unchanged when the body omits [content] (or gives
    [null]), is the supplied value otherwise, and every property other
    than [content] and [updatedAt] is unchanged.  In the D1 scripts a
    successful update does not merge: it writes both columns of the rows
    it matches, the title being the placeholder when the body omits it or
    gives a falsy one. *)
Theorem update_merge :
  (∀ rt r kv user id o b,
     identified "X-User-Token" r user → kv_route r = Some (Update id) →
     kv_faults kv = [] →
     entries kv !! note_key user id = Some (Doc (JObj o)) →
     body r = Doc b → b ≠ JNull →
     ∃ o',
       entries (KvFunction.onRequest rt r kv).2 !! note_key user id =
         Some (Doc (JObj o')) ∧
       entries (KvWorker.fetch rt r kv).2 !! note_key user id =
         Some (Doc (JObj o')) ∧
       (prop b "content" = None ∨ prop b "content" = Some JNull →
        o' !! "content" = o !! "content") ∧
       (∀ c, prop b "content" = Some c → c ≠ JNull → o' !! "content" = Some c) ∧
       (∀ k, k ≠ "content" → k ≠ "updatedAt" → o' !! k = o !! k)) ∧
  (∀ rt c db user resp db',
     identified "X-User-Session" (D1Function.request c) user →
     method (D1Function.request c) = "PUT" →
     D1Function.onRequest rt c db = (Ok resp, db') → status resp = 200 →
     ∃ id j t cc,
       body (D1Function.request c) = Doc j ∧
       d1_bind (js_or (prop j "title") (Some (JStr D1.placeholder))) = Ok t ∧
       d1_bind (prop j "content") = Ok cc ∧
       (truthy (prop j "title") = false → t = SqlText D1.placeholder) ∧
       Forall2 (λ r r', (owned_by id user r = false → r' = r) ∧
                        (owned_by id user r = true →
                         title r' = t ∧ content r' = cc))
         (notes db) (notes db')) ∧
  (∀ rt r db user resp db',
     identified "X-User-Session" r user → method r = "PUT" →
     D1Worker.fetch rt r db = (Ok (Some resp), db') → status resp = 200 →
     ∃ id j t cc,
       body r = Doc j ∧
       d1_bind (js_or (prop j "title") (Some (JStr D1.placeholder))) = Ok t ∧
       d1_bind (prop j "content") = Ok cc ∧
       (truthy (prop j "title") = false → t = SqlText D1.placeholder) ∧
       Forall2 (λ r r', (owned_by id user r = false → r' = r) ∧
                        (owned_by id user r = true →
                         title r' = t ∧ content r' = cc))
         (notes db) (notes db')).
Proof.
  split; [|split].
  - intros rt r kv user id o b Hu Hr Hf Hk Hb Hj.
    eexists. rewrite kv_function_routes, (kv_worker_routes rt r user Hu), Hr.
    rewrite (kv_function_update_ok rt r user id kv o b) by done.
    unfold handled. erewrite bind_Ok; [|by apply kv_worker_update_ok].
    simpl. rewrite lookup_insert_eq.
    split; [done|]. split; [done|]. split; [|split].
    + intros Hc. rewrite lookup_insert_ne by done. rewrite lookup_assign.
      rewrite decide_True by done. by destruct Hc as [-> | ->].
    + intros c Hc Hn. rewrite lookup_insert_ne by done. rewrite lookup_assign.
      rewrite decide_True by done. rewrite Hc. by destruct c.
    + intros k H1 H2. rewrite lookup_insert_ne by done.
      by rewrite lookup_assign, decide_False.
  - intros rt c db user resp db' Hu Hm Hrun Hst.
    rewrite (d1_function_identified rt c user Hu) in Hrun.
    apply try_catch_not_500 in Hrun; [|by rewrite Hst].
    destruct (d1_put_inv rt _ user _ db resp db' Hm Hrun Hst)
      as (id & j & t & cc & _ & _ & Hb & _ & Ht & Hc & _ & -> & _).
    exists id, j, t, cc. split; [done|]. split; [done|]. split; [done|].
    split.
    + intros Hfalsy. unfold js_or in Ht. rewrite Hfalsy in Ht.
      by injection Ht as <-.
    + eapply Forall2_impl; [apply update_note_frame|].
      by intros r r' (_ & ? & ?).
  - intros rt r db user resp db' Hu Hm Hrun Hst.
    rewrite d1_worker_fetch in Hrun.
    destruct (match_notes_path (pathname r)) as [g|] eqn:Hg; cycle 1.
    { unfold D1Worker.handleRequest in Hrun. by rewrite Hg in Hrun. }
    rewrite (d1_worker_identified rt r user g Hu Hg) in Hrun.
    apply handled_Ok_inv, try_catch_not_500 in Hrun; [|by rewrite Hst].
    destruct (d1_put_inv rt _ user _ db resp db' Hm Hrun Hst)
      as (id & j & t & cc & _ & _ & Hb & _ & Ht & Hc & _ & -> & _).
    exists id, j, t, cc. split; [done|]. split; [done|]. split; [done|].
    split.
    + intros Hfalsy. unfold js_or in Ht. rewrite Hfalsy in Ht.
      by injection Ht as <-.
    + eapply Forall2_impl; [apply update_note_frame|].
      by intros r0 r' (_ & ? & ?).
Qed.

Lemma update_merge_witness :
  (∃ o',
     entries (KvFunction.onRequest later_rt kv_put_no_content one_note_kv).2
       !! note_key "u" sample_uuid = Some (Doc (JObj o')) ∧
     entries (KvWorker.fetch later_rt kv_put_no_content one_note_kv).2
       !! note_key "u" sample_uuid = Some (Doc (JObj o')) ∧
     (prop (JObj {["title" := JStr "Shopping"]}) "content" = None ∨
      prop (JObj {["title" := JStr "Shopping"]}) "content" = Some JNull →
      o' !! "content" = sample_props !! "content") ∧
     (∀ c, prop (JObj {["title" := JStr "Shopping"]}) "content" = Some c →
           c ≠ JNull → o' !! "content" = Some c) ∧
     (∀ k, k ≠ "content" → k ≠ "updatedAt" → o' !! k = sample_props !! k)) ∧
  (∃ id j t cc,
     body (D1Function.request (d1_put "u" (content_body (JStr "buy oat milk")))) =
       Doc j ∧
     d1_bind (js_or (prop j "title") (Some (JStr D1.placeholder))) = Ok t ∧
     d1_bind (prop j "content") = Ok cc ∧
     (truthy (prop j "title") = false → t = SqlText D1.placeholder) ∧
     Forall2 (λ r r', (owned_by id "u" r = false → r' = r) ∧
                      (owned_by id "u" r = true →
                       title r' = t ∧ content r' = cc))
       (notes one_note_db)
       (notes (D1Function.onRequest later_rt
                 (d1_put "u" (content_body (JStr "buy oat milk")))
                 one_note_db).2)) ∧
  (∃ id j t cc,
     body (request_of "X-User-Session" "u" "PUT" (item_path sample_uuid)
             (content_body (JStr "buy oat milk"))) = Doc j ∧
     d1_bind (js_or (prop j "title") (Some (JStr D1.placeholder))) = Ok t ∧
     d1_bind (prop j "content") = Ok cc ∧
     (truthy (prop j "title") = false → t = SqlText D1.placeholder) ∧
     Forall2 (λ r r', (owned_by id "u" r = false → r' = r) ∧
                      (owned_by id "u" r = true →
                       title r' = t ∧ content r' = cc))
       (notes one_note_db)
       (notes (D1Worker.fetch later_rt
                 (request_of "X-User-Session" "u" "PUT" (item_path sample_uuid)
                    (content_body (JStr "buy oat milk")))
                 one_note_db).2)).
Proof.
  destruct update_merge as (H1 & H2 & H3).
  split; [|split].
  - apply (H1 later_rt kv_put_no_content one_note_kv "u" sample_uuid
             sample_props (JObj {["title" := JStr "Shopping"]}));
      [done | done | done | reflexivity | done | done].
  - apply (H2 later_rt (d1_put "u" (content_body (JStr "buy oat milk")))
             one_note_db "u" (D1.jsonResponse updated_message 200));
      [done | done | vm_compute; reflexivity | done].
  - apply (H3 later_rt
             (request_of "X-User-Session" "u" "PUT" (item_path sample_uuid)
                (content_body (JStr "buy oat milk")))
             one_note_db "u" (D1.jsonResponse updated_message 200));
      [done | done | vm_compute; reflexivity | done].
Defined.

(** ** Deleting a note *)

(** The delete handler of the standard worker has one answer. *)
Lemma kv_worker_delete_answer user id kv resp kv' :
  KvWorker.handleDeleteNote user id kv = (Ok resp, kv') →
  resp = KvWorker.jsonResponse (JObj {["success" := JBool true]}) 200.
Proof.
  unfold KvWorker.handleDeleteNote.
  intros (u & kv1 & _ & H)%bind_Ok_inv. by apply mret_inv in H as [-> _].
Qed.

(** The KV Pages Function reads before it deletes: with nothing readable
    under the caller's key the answer is 404 and nothing is deleted. *)
Lemma kv_function_delete_absent r kv user id :
  identified "X-User-Token" r user → kv_faults kv = [] →
  truthy_text (entries kv !! note_key user id) = false →
  KvFunction.handleDeleteNote r id kv =
    (Ok (KvFunction.errorResponse "找不到要刪除的筆記" 404),
     {| entries := entries kv; kv_faults := [];
        kv_calls := kv_calls kv ++ [KvGet (note_key user id)] |}).
Proof.
  intros [Hu Ht]%identified_truthy Hf Hk.
  unfold KvFunction.handleDeleteNote, KvFunction.getUserId, kv_get.
  rewrite Hu, Ht. erewrite bind_Ok; [|by apply kv_invoke_healthy].
  simpl. by rewrite Hk.
Qed.

Lemma kv_function_delete_present r kv user id :
  identified "X-User-Token" r user → kv_faults kv = [] →
  truthy_text (entries kv !! note_key user id) = true →
  KvFunction.handleDeleteNote r id kv =
    (Ok (KvFunction.jsonResponse (JObj {["success" := JBool true]}) 200),
     {| entries := delete (note_key user id) (entries kv); kv_faults := [];
        kv_calls := (kv_calls kv ++ [KvGet (note_key user id)]) ++
                    [KvDelete (note_key user id)] |}).
Proof.
  intros [Hu Ht]%identified_truthy Hf Hk.
  unfold KvFunction.handleDeleteNote, KvFunction.getUserId, kv_get, kv_delete.
  rewrite Hu, Ht. erewrite bind_Ok; [|by apply kv_invoke_healthy].
  simpl. rewrite Hk. by erewrite bind_Ok; [|by apply kv_invoke_healthy].
Qed.

(** In the KV Pages Function the second of two deletes is a 404. *)
Lemma kv_function_delete_twice r kv user id :
  identified "X-User-Token" r user → kv_faults kv = [] →
  truthy_text (entries kv !! note_key user id) = true →
  ∃ kv1 kv2,
    KvFunction.handleDeleteNote r id kv =
      (Ok (KvFunction.jsonResponse (JObj {["success" := JBool true]}) 200), kv1) ∧
    KvFunction.handleDeleteNote r id kv1 =
      (Ok (KvFunction.errorResponse "找不到要刪除的筆記" 404), kv2).
Proof.
  intros Hu Hf Hk. eexists _, _. split.
  - by apply kv_function_delete_present.
  - apply kv_function_delete_absent; [done..|]. simpl.
    by rewrite lookup_delete_eq.
Qed.

Lemma changes_of_deleted id user rows :
  changes_of id user (delete_note id user rows) = 0.
Proof.
  unfold changes_of, delete_note.
  induction rows as [|r rows IH]; [done|].
  rewrite filter_cons. destruct (decide (owned_by id user r = false)) as [E|E].
  - rewrite filter_cons, decide_False; [done|]. by rewrite E.
  - done.
Qed.

(** The DELETE branch of the D1 switch on a healthy database. *)
Lemma d1_delete_ok rt r user id db :
  method r = "DELETE" → id ≠ "" → d1_faults db = [] →
  D1.dispatch rt r user (Some id) db =
    (Ok (if changes_of id user (notes db) =? 0
         then D1.errorResponse "Note not found or you do not own this note." 404
         else D1.jsonResponse
                (JObj {["message" := JStr "Note deleted successfully"]}) 200),
     {| notes := delete_note id user (notes db); d1_faults := [];
        d1_calls := d1_calls db ++ [DeleteNote id user] |}).
Proof.
  intros Hm Hid Hf. unfold D1.dispatch. rewrite Hm. simpl.
  apply String.eqb_neq in Hid as ->. simpl.
  unfold d1_run_delete. erewrite bind_Ok; [|by eapply d1_invoke_healthy].
  simpl. by destruct (changes_of id user (notes db) =? 0).
Qed.

(** In the D1 scripts the second of two deletes is a 404. *)
Lemma d1_delete_twice rt r user id db row :
  method r = "DELETE" → id ≠ "" → d1_faults db = [] →
  row ∈ notes db → note_id row = id → user_session_id row = user →
  ∃ db1 db2,
    D1.dispatch rt r user (Some id) db =
      (Ok (D1.jsonResponse
             (JObj {["message" := JStr "Note deleted successfully"]}) 200), db1) ∧
    D1.dispatch rt r user (Some id) db1 =
      (Ok (D1.errorResponse "Note not found or you do not own this note." 404),
       db2).
Proof.
  intros Hm Hid Hf Hin Hrid Hru. eexists _, _. split.
  - rewrite d1_delete_ok by done.
    assert (changes_of id user (notes db) ≠ 0) as Hn
      by (apply changes_of_nonzero; eauto).
    by apply Z.eqb_neq in Hn as ->.
  - rewrite d1_delete_ok by done. simpl. by rewrite changes_of_deleted.
Qed.

(** C2.  The standard worker over KV does not do what the claim says: the
    second of two deletes of the same note by the same caller is answered
    200 with [{success: true}], like the first, although the first has
    emptied the namespace. *)
Theorem kv_worker_second_delete_answers_200 :
  let '(first, kv1) := KvWorker.fetch later_rt kv_delete_request one_note_kv in
  let '(second, kv2) := KvWorker.fetch later_rt kv_delete_request kv1 in
  first = Ok (Some (KvWorker.jsonResponse success_body 200)) ∧
  entries kv1 = ∅ ∧
  second = Ok (Some (KvWorker.jsonResponse success_body 200)).
Proof. vm_compute. done. Qed.

(** ** Scopes *)

Lemma string_app_assoc s t u : (s +:+ t) +:+ u = s +:+ (t +:+ u).
Proof.
  induction s as [|a s IH]; [done|].
  change (String a ((s +:+ t) +:+ u) = String a (s +:+ (t +:+ u))).
  by rewrite IH.
Qed.

Lemma length_app s t :
  String.length (s +:+ t) = (String.length s + String.length t)%nat.
Proof.
  induction s as [|a s IH]; [done|].
  change (S (String.length (s +:+ t)) = S (String.length s + String.length t)).
  by rewrite IH.
Qed.

Lemma app_inj_r s1 s2 t : s1 +:+ t = s2 +:+ t → s1 = s2.
Proof.
  revert s2. induction s1 as [|a s1 IH]; intros [|b s2].
  - done.
  - intros H%(f_equal String.length).
    rewrite !length_app in H. simpl in H. lia.
  - intros H%(f_equal String.length).
    rewrite !length_app in H. simpl in H. lia.
  - change (String a (s1 +:+ t) = String b (s2 +:+ t) →
            String a s1 = String b s2).
    intros [= -> H]. f_equal. by apply IH.
Qed.

(** Two scopes never share the key of a note id: what one caller stores
    under an id, another cannot address with that id. *)
Lemma note_key_scope_inj s1 s2 id : note_key s1 id = note_key s2 id → s1 = s2.
Proof.
  unfold note_key. intros H%(inj (String.app "notes:")). by eapply app_inj_r.
Qed.

Lemma no_colon_app_colon s t : no_colon (s +:+ ":" +:+ t) = false.
Proof.
  induction s as [|a s IH]; [done|].
  change (no_colon (String a (s +:+ ":" +:+ t)) = false).
  unfold no_colon in *. simpl. rewrite IH. apply andb_false_r.
Qed.

Lemma first_colon a x b y :
  no_colon a = true → no_colon x = true →
  a +:+ ":" +:+ x = b +:+ ":" +:+ y → a = b.
Proof.
  revert b. induction a as [|c a IH]; intros [|c' b] Ha Hx.
  - done.
  - change (String ":" x = String c' (b +:+ ":" +:+ y) → "" = String c' b).
    intros [= <- ->]. by rewrite no_colon_app_colon in Hx.
  - change (String c (a +:+ ":" +:+ x) = String ":" y → String c a = "").
    by intros [= -> _].
  - change (String c (a +:+ ":" +:+ x) = String c' (b +:+ ":" +:+ y) →
            String c a = String c' b).
    intros [= -> H].
    unfold no_colon in Ha. simpl in Ha. apply andb_true_iff in Ha as [_ Ha].
    f_equal. by apply IH.
Qed.

(** The prefix of one scope is a prefix of every key of a scope that
    extends it past a colon. *)
Lemma note_key_nested s t id :
  String.prefix (user_prefix s) (note_key (s +:+ ":" +:+ t) id) = true.
Proof.
  unfold note_key, user_prefix.
  replace ("notes:" +:+ (s +:+ ":" +:+ t) +:+ ":" +:+ id)
    with (("notes:" +:+ s +:+ ":") +:+ (t +:+ ":" +:+ id)).
  - apply prefix_app.
  - by rewrite !string_app_assoc.
Qed.

(** When neither the owner's scope nor the note id holds a colon, the key
    lies under no other scope's prefix. *)
Lemma key_outside_prefix s1 s2 id :
  no_colon s1 = true → no_colon id = true → s1 ≠ s2 →
  String.prefix (user_prefix s2) (note_key s1 id) = false.
Proof.
  intros H1 Hid Hne. destruct (String.prefix _ _) eqn:E; [|done].
  apply prefix_Some in E as [rest E]. unfold note_key, user_prefix in E.
  destruct Hne. rewrite !string_app_assoc in E.
  apply (inj (String.app "notes:")) in E.
  by eapply first_colon.
Qed.

(** The ids the item pattern captures hold no colon. *)
Lemma hex_no_colon s : all_chars is_hex_or_hyphen s = true → no_colon s = true.
Proof.
  unfold no_colon. induction s as [|c s IH]; [done|]. simpl.
  intros [Hc Hs]%andb_true_iff. rewrite IH by done. rewrite andb_true_r.
  destruct (is_colon c) eqn:E; [|done].
  apply N.eqb_eq in E.
  unfold is_hex_or_hyphen, in_range, is_digit, is_hyphen, in_range in Hc.
  by rewrite E in Hc.
Qed.

Lemma keys_with_prefix_elem p m k :
  k ∈ keys_with_prefix p m → String.prefix p k = true ∧ is_Some (m !! k).
Proof.
  unfold keys_with_prefix. intros H%subseteq_take.
  rewrite merge_sort_Permutation in H.
  apply list_elem_of_filter in H as [Hp H]. split; [done|].
  apply list_elem_of_fmap in H as ([k' v] & -> & H%elem_of_map_to_list).
  by exists v.
Qed.

(** With colon-free scopes the scan of one caller never reaches the key
    of another caller's note. *)
Lemma kv_scan_stays_in_scope s1 s2 id m :
  no_colon s1 = true → no_colon id = true → s1 ≠ s2 →
  note_key s1 id ∉ keys_with_prefix (user_prefix s2) m.
Proof.
  intros H1 Hid Hne [Hp _]%keys_with_prefix_elem.
  by rewrite key_outside_prefix in Hp.
Qed.

(** The SELECT returns rows of the asking session only. *)
Lemma select_notes_elem session rows r :
  r ∈ select_notes session rows ↔ r ∈ rows ∧ user_session_id r = session.
Proof.
  unfold select_notes.
  rewrite merge_sort_Permutation, list_elem_of_filter, String.eqb_eq.
  split; by intros [? ?].
Qed.

Lemma changes_of_zero id user rows :
  changes_of id user rows = 0 ↔
  ∀ r, r ∈ rows → note_id r = id → user_session_id r ≠ user.
Proof.
  split.
  - intros H0 r Hin Hid Hu.
    assert (changes_of id user rows ≠ 0) as Hn
      by (apply changes_of_nonzero; eauto).
    done.
  - intros H. destruct (decide (changes_of id user rows = 0)) as [|Hn]; [done|].
    apply changes_of_nonzero in Hn as (r & Hin & Hid & Hu). by destruct (H r).
Qed.

(** A successful INSERT leaves the new row the only one with its id. *)
Lemma insert_note_Ok r rows rows' :
  insert_note r rows = (Ok tt, rows') →
  rows' = rows ++ [r] ∧ ∀ r', r' ∈ rows → note_id r' ≠ note_id r.
Proof.
  unfold insert_note. destruct (existsb _ rows) eqn:E; [done|].
  intros [= <-]. split; [done|]. intros r' Hin Heq.
  apply not_true_iff_false in E. apply E, existsb_exists.
  exists r'. split; [by apply list_elem_of_In|]. by apply String.eqb_eq.
Qed.

(** After a caller's INSERT succeeded, an UPDATE or DELETE of that id by
    any other session matches no row, which is the 404 of the switch. *)
Lemma d1_created_note_foreign r rows rows' session :
  insert_note r rows = (Ok tt, rows') → user_session_id r ≠ session →
  changes_of (note_id r) session rows' = 0.
Proof.
  intros [-> Hfresh]%insert_note_Ok Hne. apply changes_of_zero.
  intros r' [Hin|Hin]%elem_of_app Hid; [by destruct (Hfresh r')|].
  by apply list_elem_of_singleton in Hin as ->.
Qed.

(** C1.  The KV scripts do not isolate scopes as the claim says: the
    prefix of user [a] is a prefix of the keys of user [a:b], so the list
    of [a] returns the note that [a:b] created.  The outcome is the same
    in the Pages Function and in the standard worker. *)
Theorem kv_list_crosses_scopes :
  (KvFunction.onRequest later_rt list_as_a
     (KvFunction.onRequest sample_rt create_as_a_b empty_kv).2).1 =
    Ok (KvFunction.jsonResponse
          (JArr [new_note sample_uuid "secret" 1700000000000]) 200) ∧
  (KvWorker.fetch later_rt list_as_a
     (KvWorker.fetch sample_rt create_as_a_b empty_kv).2).1 =
    Ok (Some (KvWorker.jsonResponse
                (JArr [new_note sample_uuid "secret" 1700000000000]) 200)).
Proof. split; vm_compute; reflexivity. Qed.

(** * Further properties *)

(** ** What a KV request can write *)

Lemma differ_at_refl key m : differ_at key m m.
Proof. by intros k _. Qed.

Ltac same H := cbn; rewrite ?H; apply differ_at_refl.

Lemma bind_state {S A B} (m : M S A) (f : A → M S B) s :
  ((m ≫= f) s).2 = match m s with
                   | (Ok a, s1) => (f a s1).2
                   | (Throw _, s1) => s1
                   end.
Proof. unfold mbind, M_bind. by destruct (m s) as [[a|e] s1]. Qed.

Lemma kv_get_entries key kv : entries (kv_get key kv).2 = entries kv.
Proof. unfold kv_get, kv_invoke. by destruct (kv_faults kv) as [|[msg|] fs]. Qed.

Lemma kv_list_entries p kv : entries (kv_list p kv).2 = entries kv.
Proof. unfold kv_list, kv_invoke. by destruct (kv_faults kv) as [|[msg|] fs]. Qed.

Lemma kv_put_entries key v kv :
  differ_at key (entries kv) (entries (kv_put key v kv).2).
Proof.
  unfold kv_put, kv_invoke. intros k Hk.
  destruct (kv_faults kv) as [|[msg|] fs]; simpl; by rewrite ?lookup_insert_ne.
Qed.

Lemma kv_delete_entries key kv :
  differ_at key (entries kv) (entries (kv_delete key kv).2).
Proof.
  unfold kv_delete, kv_invoke. intros k Hk.
  destruct (kv_faults kv) as [|[msg|] fs]; simpl; by rewrite ?lookup_delete_ne.
Qed.

Lemma collect_notes_entries keys acc kv :
  entries (collect_notes keys acc kv).2 = entries kv.
Proof.
  revert acc kv. induction keys as [|key keys IH]; intros acc kv; [done|].
  simpl. rewrite bind_state.
  pose proof (kv_get_entries key kv) as Hg.
  destruct (kv_get key kv) as [[v|e] kv1]; simpl in *; [|done].
  destruct v as [t|]; [|by rewrite IH].
  destruct (truthy_text (Some t)); [|by rewrite IH].
  rewrite bind_state. unfold lift. destruct (JSON_parse t); [|done].
  by rewrite IH.
Qed.

Lemma kv_worker_list_entries user kv :
  entries (KvWorker.handleListNotes user kv).2 = entries kv.
Proof.
  unfold KvWorker.handleListNotes. rewrite bind_state.
  pose proof (kv_list_entries (user_prefix user) kv) as Hl.
  destruct (kv_list _ kv) as [[keys|e] kv1]; simpl in *; [|done].
  rewrite bind_state.
  pose proof (collect_notes_entries keys [] kv1) as Hc.
  destruct (collect_notes keys [] kv1) as [[ns|e] kv2]; simpl in *; congruence.
Qed.

Lemma kv_worker_create_entries rt r user kv :
  differ_at (note_key user (randomUUID rt)) (entries kv)
    (entries (KvWorker.handleCreateNote rt r user kv).2).
Proof.
  unfold KvWorker.handleCreateNote, request_json, lift. rewrite bind_state.
  destruct (JSON_parse (body r)) as [j|e]; [|apply differ_at_refl].
  rewrite bind_state.
  destruct (destructure j "content") as [c|e]; [|apply differ_at_refl].
  destruct c as [[]|]; try apply differ_at_refl.
  rewrite bind_state.
  pose proof (kv_put_entries (note_key user (randomUUID rt))
                (Doc (new_note (randomUUID rt) s (now rt))) kv) as Hp.
  by destruct (kv_put _ _ kv) as [[u|e] kv1].
Qed.

Lemma kv_worker_update_entries rt r user id kv :
  differ_at (note_key user id) (entries kv)
    (entries (KvWorker.handleUpdateNote rt r user id kv).2).
Proof.
  unfold KvWorker.handleUpdateNote, request_json, lift. rewrite bind_state.
  pose proof (kv_get_entries (note_key user id) kv) as Hg.
  destruct (kv_get _ kv) as [[v|e] kv1]; simpl in *; [|same Hg].
  destruct v as [t|]; [|same Hg].
  destruct (truthy_text (Some t)); [|same Hg].
  rewrite bind_state. destruct (JSON_parse t) as [ex|e]; [|same Hg].
  rewrite bind_state. destruct (JSON_parse (body r)) as [j|e]; [|same Hg].
  rewrite bind_state.
  destruct (destructure j "content") as [c|e]; [|same Hg].
  rewrite bind_state.
  destruct (updated_note ex c (now rt)) as [n|e]; [|same Hg].
  rewrite bind_state.
  pose proof (kv_put_entries (note_key user id) (Doc n) kv1) as Hp.
  rewrite Hg in Hp.
  by destruct (kv_put _ _ kv1) as [[u|e] kv2].
Qed.

Lemma kv_worker_delete_entries user id kv :
  differ_at (note_key user id) (entries kv)
    (entries (KvWorker.handleDeleteNote user id kv).2).
Proof.
  unfold KvWorker.handleDeleteNote. rewrite bind_state.
  pose proof (kv_delete_entries (note_key user id) kv) as Hp.
  by destruct (kv_delete _ kv) as [[u|e] kv2].
Qed.

Lemma kv_function_list_entries r kv :
  entries (KvFunction.handleListNotes r kv).2 = entries kv.
Proof.
  unfold KvFunction.handleListNotes.
  destruct (KvFunction.getUserId r) as [user|]; [|done].
  destruct (truthy_string (Some user)); [|done].
  rewrite bind_state.
  pose proof (kv_list_entries (user_prefix user) kv) as Hl.
  destruct (kv_list _ kv) as [[keys|e] kv1]; simpl in *; [|done].
  rewrite bind_state.
  pose proof (collect_notes_entries keys [] kv1) as Hc.
  destruct (collect_notes keys [] kv1) as [[ns|e] kv2]; simpl in *; congruence.
Qed.

Lemma kv_function_create_entries rt r user kv :
  identified "X-User-Token" r user →
  differ_at (note_key user (randomUUID rt)) (entries kv)
    (entries (KvFunction.handleCreateNote rt r kv).2).
Proof.
  intros [Hu Ht]%identified_truthy.
  unfold KvFunction.handleCreateNote, KvFunction.getUserId.
  rewrite Hu, Ht. unfold request_json, lift. rewrite bind_state.
  destruct (JSON_parse (body r)) as [j|e]; [|apply differ_at_refl].
  rewrite bind_state.
  destruct (destructure j "content") as [c|e]; [|apply differ_at_refl].
  destruct c as [[]|]; try apply differ_at_refl.
  rewrite bind_state.
  pose proof (kv_put_entries (note_key user (randomUUID rt))
                (Doc (new_note (randomUUID rt) s (now rt))) kv) as Hp.
  by destruct (kv_put _ _ kv) as [[u|e] kv1].
Qed.

Lemma kv_function_update_entries rt r user id kv :
  identified "X-User-Token" r user →
  differ_at (note_key user id) (entries kv)
    (entries (KvFunction.handleUpdateNote rt r id kv).2).
Proof.
  intros [Hu Ht]%identified_truthy.
  unfold KvFunction.handleUpdateNote, KvFunction.getUserId.
  rewrite Hu, Ht. unfold request_json, lift. rewrite bind_state.
  pose proof (kv_get_entries (note_key user id) kv) as Hg.
  destruct (kv_get _ kv) as [[v|e] kv1]; simpl in *; [|same Hg].
  destruct v as [t|]; [|same Hg].
  destruct (truthy_text (Some t)); [|same Hg].
  rewrite bind_state. destruct (JSON_parse t) as [ex|e]; [|same Hg].
  rewrite bind_state. destruct (JSON_parse (body r)) as [j|e]; [|same Hg].
  rewrite bind_state.
  destruct (destructure j "content") as [c|e]; [|same Hg].
  rewrite bind_state.
  destruct (updated_note ex c (now rt)) as [n|e]; [|same Hg].
  rewrite bind_state.
  pose proof (kv_put_entries (note_key user id) (Doc n) kv1) as Hp.
  rewrite Hg in Hp.
  by destruct (kv_put _ _ kv1) as [[u|e] kv2].
Qed.

Lemma kv_function_delete_entries r user id kv :
  identified "X-User-Token" r user →
  differ_at (note_key user id) (entries kv)
    (entries (KvFunction.handleDeleteNote r id kv).2).
Proof.
  intros [Hu Ht]%identified_truthy.
  unfold KvFunction.handleDeleteNote, KvFunction.getUserId.
  rewrite Hu, Ht. rewrite bind_state.
  pose proof (kv_get_entries (note_key user id) kv) as Hg.
  destruct (kv_get _ kv) as [[v|e] kv1]; simpl in *; [|same Hg].
  destruct (truthy_text v); [|same Hg].
  rewrite bind_state.
  pose proof (kv_delete_entries (note_key user id) kv1) as Hp.
  rewrite Hg in Hp.
  by destruct (kv_delete _ kv1) as [[u|e] kv2].
Qed.

(** X1.  Whatever the request of an identified caller, whatever the
    faults of the namespace and however the handler ends, a KV script
    changes the namespace at one key at most, and that key is one of the
    caller's scope: [notes:<caller>:<id>] for some id.  A list request
    changes nothing. *)
Theorem kv_writes_confined rt r kv user :
  identified "X-User-Token" r user →
  (∃ id, differ_at (note_key user id) (entries kv)
           (entries (KvFunction.onRequest rt r kv).2)) ∧
  (∃ id, differ_at (note_key user id) (entries kv)
           (entries (KvWorker.fetch rt r kv).2)) ∧
  (kv_route r = Some List →
   entries (KvFunction.onRequest rt r kv).2 = entries kv ∧
   entries (KvWorker.fetch rt r kv).2 = entries kv).
Proof.
  intros Hu. rewrite kv_function_routes, (kv_worker_routes rt r user Hu).
  unfold handled. rewrite bind_state.
  destruct (kv_route r) as [[| |id|id]|].
  - pose proof (kv_function_list_entries r kv) as H1.
    pose proof (kv_worker_list_entries user kv) as H2.
    destruct (KvWorker.handleListNotes user kv) as [[resp|e] kv1];
      simpl in *; rewrite H1, H2;
      (split; [|split]); try (exists ""; apply differ_at_refl); done.
  - pose proof (kv_function_create_entries rt r user kv Hu) as H1.
    pose proof (kv_worker_create_entries rt r user kv) as H2.
    destruct (KvWorker.handleCreateNote rt r user kv) as [[resp|e] kv1];
      (split; [|split]); try done; by exists (randomUUID rt).
  - pose proof (kv_function_update_entries rt r user id kv Hu) as H1.
    pose proof (kv_worker_update_entries rt r user id kv) as H2.
    destruct (KvWorker.handleUpdateNote rt r user id kv) as [[resp|e] kv1];
      (split; [|split]); try done; by exists id.
  - pose proof (kv_function_delete_entries r user id kv Hu) as H1.
    pose proof (kv_worker_delete_entries user id kv) as H2.
    destruct (KvWorker.handleDeleteNote user id kv) as [[resp|e] kv1];
      (split; [|split]); try done; by exists id.
  - split; [|split]; [| |done]; exists ""; [apply differ_at_refl|].
    destruct (String.prefix "/api/" (pathname r)); apply differ_at_refl.
Qed.

Lemma kv_writes_confined_witness :
  (∃ id, differ_at (note_key "u" id) (entries one_note_kv)
           (entries (KvFunction.onRequest later_rt list_as_u one_note_kv).2)) ∧
  (∃ id, differ_at (note_key "u" id) (entries one_note_kv)
           (entries (KvWorker.fetch later_rt list_as_u one_note_kv).2)) ∧
  (kv_route list_as_u = Some List →
   entries (KvFunction.onRequest later_rt list_as_u one_note_kv).2 =
     entries one_note_kv ∧
   entries (KvWorker.fetch later_rt list_as_u one_note_kv).2 =
     entries one_note_kv).
Proof. by apply (kv_writes_confined later_rt list_as_u one_note_kv "u"). Defined.

(** ** Creating and listing in the KV scripts *)

Lemma kv_worker_create_ok rt r user kv j c :
  kv_faults kv = [] → body r = Doc j → prop j "content" = Some (JStr c) →
  let note := new_note (randomUUID rt) c (now rt) in
  let key := note_key user (randomUUID rt) in
  KvWorker.handleCreateNote rt r user kv =
    (Ok (KvWorker.jsonResponse note 201),
     {| entries := <[key := Doc note]> (entries kv); kv_faults := [];
        kv_calls := kv_calls kv ++ [KvPut key (Doc note)] |}).
Proof.
  intros Hf Hb Hc note key. unfold KvWorker.handleCreateNote, request_json.
  rewrite Hb. simpl. erewrite bind_Ok; [|done].
  rewrite destructure_Ok by (by intros ->). erewrite bind_Ok; [|done].
  rewrite Hc. unfold kv_put.
  by erewrite bind_Ok; [|by apply kv_invoke_healthy].
Qed.

Lemma kv_function_create_ok rt r user kv j c :
  identified "X-User-Token" r user →
  kv_faults kv = [] → body r = Doc j → prop j "content" = Some (JStr c) →
  let note := new_note (randomUUID rt) c (now rt) in
  let key := note_key user (randomUUID rt) in
  KvFunction.handleCreateNote rt r kv =
    (Ok (KvFunction.jsonResponse note 201),
     {| entries := <[key := Doc note]> (entries kv); kv_faults := [];
        kv_calls := kv_calls kv ++ [KvPut key (Doc note)] |}).
Proof.
  intros [Hu Ht]%identified_truthy Hf Hb Hc note key.
  unfold KvFunction.handleCreateNote, KvFunction.getUserId, request_json.
  rewrite Hu, Ht, Hb. simpl. erewrite bind_Ok; [|done].
  rewrite destructure_Ok by (by intros ->). erewrite bind_Ok; [|done].
  rewrite Hc. unfold kv_put.
  by erewrite bind_Ok; [|by apply kv_invoke_healthy].
Qed.

(** On a healthy namespace the loop reads every key once and collects,
    in order, the documents it finds; a missing key and an empty value
    are skipped. *)
Lemma collect_notes_healthy keys acc kv :
  kv_faults kv = [] →
  (∀ k s, k ∈ keys → entries kv !! k = Some (Junk s) → s = "") →
  collect_notes keys acc kv =
    (Ok (acc ++ docs_at (entries kv) keys),
     {| entries := entries kv; kv_faults := [];
        kv_calls := kv_calls kv ++ (KvGet <$> keys) |}).
Proof.
  revert acc kv. induction keys as [|key keys IH]; intros acc kv Hf Hj.
  { simpl. rewrite !app_nil_r. unfold mret, M_ret. by destruct kv; simplify_eq/=. }
  simpl. unfold kv_get. erewrite bind_Ok; [|by apply kv_invoke_healthy].
  simpl.
  assert (∀ k s, k ∈ keys → entries kv !! k = Some (Junk s) → s = "") as Hj'.
  { intros k s Hk. apply Hj. by right. }
  unfold docs_at. simpl.
  destruct (entries kv !! key) as [[j|s]|] eqn:Ev; simpl.
  - unfold lift. erewrite bind_Ok; [|done].
    rewrite IH by done. simpl. by rewrite <-!app_assoc.
  - rewrite (Hj key s) by (done || by left). simpl.
    rewrite IH by done. simpl. by rewrite <-!app_assoc.
  - rewrite IH by done. simpl. by rewrite <-!app_assoc.
Qed.

Lemma kv_worker_list_ok user kv :
  kv_faults kv = [] → parseable_under (user_prefix user) (entries kv) →
  let keys := keys_with_prefix (user_prefix user) (entries kv) in
  KvWorker.handleListNotes user kv =
    (Ok (KvWorker.jsonResponse (JArr (docs_at (entries kv) keys)) 200),
     {| entries := entries kv; kv_faults := [];
        kv_calls := (kv_calls kv ++ [KvList (user_prefix user)]) ++
                    (KvGet <$> keys) |}).
Proof.
  intros Hf Hp keys. unfold KvWorker.handleListNotes, kv_list.
  erewrite bind_Ok; [|by apply kv_invoke_healthy]. simpl.
  erewrite bind_Ok; cycle 1.
  { apply collect_notes_healthy; [done|]. simpl. intros k s Hk.
    apply Hp. by apply keys_with_prefix_elem in Hk as [? _]. }
  done.
Qed.

Lemma kv_function_list_ok r user kv :
  identified "X-User-Token" r user →
  kv_faults kv = [] → parseable_under (user_prefix user) (entries kv) →
  let keys := keys_with_prefix (user_prefix user) (entries kv) in
  KvFunction.handleListNotes r kv =
    (Ok (KvFunction.jsonResponse (JArr (docs_at (entries kv) keys)) 200),
     {| entries := entries kv; kv_faults := [];
        kv_calls := (kv_calls kv ++ [KvList (user_prefix user)]) ++
                    (KvGet <$> keys) |}).
Proof.
  intros [Hu Ht]%identified_truthy Hf Hp keys.
  unfold KvFunction.handleListNotes, KvFunction.getUserId, kv_list.
  rewrite Hu, Ht.
  erewrite bind_Ok; [|by apply kv_invoke_healthy]. simpl.
  erewrite bind_Ok; cycle 1.
  { apply collect_notes_healthy; [done|]. simpl. intros k s Hk.
    apply Hp. by apply keys_with_prefix_elem in Hk as [? _]. }
  done.
Qed.

Lemma user_prefix_note_key user id :
  String.prefix (user_prefix user) (note_key user id) = true.
Proof.
  unfold note_key, user_prefix.
  replace ("notes:" +:+ user +:+ ":" +:+ id)
    with (("notes:" +:+ user +:+ ":") +:+ id) by (by rewrite !string_app_assoc).
  apply prefix_app.
Qed.

(** Below the limit of one [list] call, the scan returns every stored
    key that starts with the prefix. *)
Lemma keys_with_prefix_intro p m k :
  String.prefix p k = true → is_Some (m !! k) → (size m ≤ kv_list_limit)%nat →
  k ∈ keys_with_prefix p m.
Proof.
  intros Hp [v Hv] Hsize. unfold keys_with_prefix.
  rewrite take_ge.
  - rewrite merge_sort_Permutation. apply list_elem_of_filter.
    split; [done|]. apply list_elem_of_fmap. exists (k, v).
    split; [done|]. by apply elem_of_map_to_list.
  - rewrite merge_sort_Permutation.
    etrans; [apply length_filter|].
    by rewrite length_fmap, length_map_to_list.
Qed.

Lemma parseable_under_insert p m k j :
  parseable_under p m → parseable_under p (<[k := Doc j]> m).
Proof.
  intros H k' s Hp. rewrite lookup_insert. case_decide; [done|]. by apply H.
Qed.

(** X2.  On a healthy namespace that holds no unparseable text under the
    caller's prefix, the list request of an identified caller is answered
    200 with the documents stored under the keys that start with
    [notes:<caller>:], in the byte order of the keys (the first 1000 of
    them), values that read as empty being skipped; the namespace's
    content is unchanged and the calls made are one [list] and one [get]
    per key. *)
Theorem kv_list_returns_stored rt r kv user :
  identified "X-User-Token" r user → kv_route r = Some List →
  kv_faults kv = [] → parseable_under (user_prefix user) (entries kv) →
  let keys := keys_with_prefix (user_prefix user) (entries kv) in
  let kv' := {| entries := entries kv; kv_faults := [];
                kv_calls := (kv_calls kv ++ [KvList (user_prefix user)]) ++
                            (KvGet <$> keys) |} in
  KvFunction.onRequest rt r kv =
    (Ok (KvFunction.jsonResponse (JArr (docs_at (entries kv) keys)) 200), kv') ∧
  KvWorker.fetch rt r kv =
    (Ok (Some (KvWorker.jsonResponse (JArr (docs_at (entries kv) keys)) 200)),
     kv').
Proof.
  intros Hu Hr Hf Hp keys kv'.
  rewrite kv_function_routes, (kv_worker_routes rt r user Hu), Hr. split.
  - by apply kv_function_list_ok.
  - unfold handled. erewrite bind_Ok; [done|]. by apply kv_worker_list_ok.
Qed.

Lemma kv_list_returns_stored_witness :
  KvFunction.onRequest later_rt list_as_u one_note_kv =
    (Ok (KvFunction.jsonResponse
           (JArr (docs_at (entries one_note_kv)
                    (keys_with_prefix (user_prefix "u") (entries one_note_kv))))
           200),
     {| entries := entries one_note_kv; kv_faults := [];
        kv_calls := (kv_calls one_note_kv ++ [KvList (user_prefix "u")]) ++
                    (KvGet <$> keys_with_prefix (user_prefix "u")
                                 (entries one_note_kv)) |}) ∧
  KvWorker.fetch later_rt list_as_u one_note_kv =
    (Ok (Some (KvWorker.jsonResponse
                 (JArr (docs_at (entries one_note_kv)
                          (keys_with_prefix (user_prefix "u")
                             (entries one_note_kv)))) 200)),
     {| entries := entries one_note_kv; kv_faults := [];
        kv_calls := (kv_calls one_note_kv ++ [KvList (user_prefix "u")]) ++
                    (KvGet <$> keys_with_prefix (user_prefix "u")
                                 (entries one_note_kv)) |}).
Proof.
  apply (kv_list_returns_stored later_rt list_as_u one_note_kv "u");
    [done | done | done |].
  intros k s Hp. unfold one_note_kv. simpl. rewrite lookup_singleton.
  by case_decide.
Defined.

(** X3.  A valid create by an identified caller on a healthy namespace
    is answered 201 with the new note: the generated id, the given
    content, and the clock in both [createdAt] and [updatedAt].  The note
    is stored under [notes:<caller>:<id>] by a single [put], the only call
    made, and no other key changes. *)
Theorem kv_create_stores_note rt r kv user j c :
  identified "X-User-Token" r user → kv_route r = Some Create →
  kv_faults kv = [] → body r = Doc j → prop j "content" = Some (JStr c) →
  let note := new_note (randomUUID rt) c (now rt) in
  let key := note_key user (randomUUID rt) in
  let kv' := {| entries := <[key := Doc note]> (entries kv); kv_faults := [];
                kv_calls := kv_calls kv ++ [KvPut key (Doc note)] |} in
  KvFunction.onRequest rt r kv = (Ok (KvFunction.jsonResponse note 201), kv') ∧
  KvWorker.fetch rt r kv = (Ok (Some (KvWorker.jsonResponse note 201)), kv').
Proof.
  intros Hu Hr Hf Hb Hc note key kv'.
  rewrite kv_function_routes, (kv_worker_routes rt r user Hu), Hr. split.
  - by eapply kv_function_create_ok.
  - unfold handled. erewrite bind_Ok; [done|]. by eapply kv_worker_create_ok.
Qed.

Lemma kv_create_stores_note_witness :
  let note := new_note sample_uuid "secret" 1700000000000 in
  let key := note_key "a:b" sample_uuid in
  let kv' := {| entries := <[key := Doc note]> ∅; kv_faults := [];
                kv_calls := [KvPut key (Doc note)] |} in
  KvFunction.onRequest sample_rt create_as_a_b empty_kv =
    (Ok (KvFunction.jsonResponse note 201), kv') ∧
  KvWorker.fetch sample_rt create_as_a_b empty_kv =
    (Ok (Some (KvWorker.jsonResponse note 201)), kv').
Proof.
  by apply (kv_create_stores_note sample_rt create_as_a_b empty_kv "a:b"
              (JObj {["content" := JStr "secret"]}) "secret").
Defined.

(** X4.  Create then list: after a valid create on a healthy namespace
    that holds fewer keys than one [list] call returns and nothing
    unparseable under the caller's prefix, the list of the same caller is
    answered 200 with an array that contains the created note. *)
Theorem kv_create_then_list rt rt' post get kv user j c :
  identified "X-User-Token" post user → kv_route post = Some Create →
  identified "X-User-Token" get user → kv_route get = Some List →
  kv_faults kv = [] → body post = Doc j → prop j "content" = Some (JStr c) →
  (size (entries kv) < kv_list_limit)%nat →
  parseable_under (user_prefix user) (entries kv) →
  (∃ ns, (KvFunction.onRequest rt' get (KvFunction.onRequest rt post kv).2).1 =
           Ok (KvFunction.jsonResponse (JArr ns) 200) ∧
         new_note (randomUUID rt) c (now rt) ∈ ns) ∧
  (∃ ns, (KvWorker.fetch rt' get (KvWorker.fetch rt post kv).2).1 =
           Ok (Some (KvWorker.jsonResponse (JArr ns) 200)) ∧
         new_note (randomUUID rt) c (now rt) ∈ ns).
Proof.
  intros Hu Hr Hu' Hr' Hf Hb Hc Hsize Hp.
  set (note := new_note (randomUUID rt) c (now rt)).
  set (key := note_key user (randomUUID rt)).
  set (kv1 := {| entries := <[key := Doc note]> (entries kv); kv_faults := [];
                 kv_calls := kv_calls kv ++ [KvPut key (Doc note)] |}).
  assert (parseable_under (user_prefix user) (entries kv1)) as Hp1
    by by apply parseable_under_insert.
  assert (note ∈ docs_at (entries kv1)
                   (keys_with_prefix (user_prefix user) (entries kv1))) as Hin.
  { apply list_elem_of_omap. exists key. split.
    - apply keys_with_prefix_intro.
      + apply user_prefix_note_key.
      + simpl. rewrite lookup_insert_eq. by eexists.
      + simpl. rewrite map_size_insert.
        destruct (entries kv !! key); simpl; lia.
    - simpl. by rewrite lookup_insert_eq. }
  assert (KvFunction.onRequest rt post kv =
            (Ok (KvFunction.jsonResponse note 201), kv1)) as ->.
  { rewrite kv_function_routes, Hr. by eapply kv_function_create_ok. }
  assert (KvWorker.fetch rt post kv =
            (Ok (Some (KvWorker.jsonResponse note 201)), kv1)) as ->.
  { rewrite (kv_worker_routes rt post user Hu), Hr. unfold handled.
    erewrite bind_Ok; [done|]. by eapply kv_worker_create_ok. }
  cbn [snd]. split; eexists; (split; [|exact Hin]).
  - rewrite kv_function_routes, Hr'.
    by rewrite (kv_function_list_ok get user kv1).
  - rewrite (kv_worker_routes rt' get user Hu'), Hr'. unfold handled.
    erewrite bind_Ok; [done|]. by apply kv_worker_list_ok.
Qed.

Lemma kv_create_then_list_witness :
  (∃ ns, (KvFunction.onRequest later_rt list_as_u
            (KvFunction.onRequest sample_rt create_as_u empty_kv).2).1 =
           Ok (KvFunction.jsonResponse (JArr ns) 200) ∧
         new_note (randomUUID sample_rt) "hello" (now sample_rt) ∈ ns) ∧
  (∃ ns, (KvWorker.fetch later_rt list_as_u
            (KvWorker.fetch sample_rt create_as_u empty_kv).2).1 =
           Ok (Some (KvWorker.jsonResponse (JArr ns) 200)) ∧
         new_note (randomUUID sample_rt) "hello" (now sample_rt) ∈ ns).
Proof.
  apply (kv_create_then_list sample_rt later_rt create_as_u list_as_u empty_kv
           "u" (JObj {["content" := JStr "hello"]}) "hello");
    first [done | vm_compute; lia | intros k s _; by rewrite lookup_empty].
Defined.

(** ** Missing notes and deletes in the KV scripts *)

(** X5.  An update of a note that is not there: when the caller's key
    holds nothing, or holds the empty string, both KV scripts answer 404
    after a single [get]; the body of the request is not even parsed, and
    nothing is written. *)
Theorem kv_update_missing_is_404 rt r kv user id :
  identified "X-User-Token" r user → kv_route r = Some (Update id) →
  kv_faults kv = [] →
  truthy_text (entries kv !! note_key user id) = false →
  let kv' := {| entries := entries kv; kv_faults := [];
                kv_calls := kv_calls kv ++ [KvGet (note_key user id)] |} in
  KvFunction.onRequest rt r kv =
    (Ok (KvFunction.errorResponse "找不到要更新的筆記" 404), kv') ∧
  KvWorker.fetch rt r kv =
    (Ok (Some (KvWorker.errorResponse "找不到要更新的筆記" 404)), kv').
Proof.
  intros Hu Hr Hf Hk kv'.
  rewrite kv_function_routes, (kv_worker_routes rt r user Hu), Hr.
  apply identified_truthy in Hu as [Hu Ht].
  unfold handled, KvFunction.handleUpdateNote, KvWorker.handleUpdateNote,
    KvFunction.getUserId, kv_get.
  rewrite Hu, Ht. split.
  - erewrite bind_Ok; [|by apply kv_invoke_healthy]. simpl.
    by destruct (entries kv !! note_key user id) as [[j|[|? ?]]|].
  - erewrite bind_Ok; [done|].
    erewrite bind_Ok; [|by apply kv_invoke_healthy]. simpl.
    by destruct (entries kv !! note_key user id) as [[j|[|? ?]]|].
Qed.

Lemma kv_update_missing_is_404_witness :
  let kv' := {| entries := ∅; kv_faults := [];
                kv_calls := [KvGet (note_key "u" sample_uuid)] |} in
  KvFunction.onRequest later_rt kv_put_request empty_kv =
    (Ok (KvFunction.errorResponse "找不到要更新的筆記" 404), kv') ∧
  KvWorker.fetch later_rt kv_put_request empty_kv =
    (Ok (Some (KvWorker.errorResponse "找不到要更新的筆記" 404)), kv').
Proof.
  by apply (kv_update_missing_is_404 later_rt kv_put_request empty_kv "u"
              sample_uuid).
Defined.

(** X6.  Delete in the Pages Function over KV, on a healthy namespace:
    when the caller's key holds a non-empty value the answer is 200 with
    [{success: true}], exactly that key is removed, and the same request
    sent again is answered 404 without a write; when the key holds
    nothing the answer is 404 at once. *)
Theorem kv_function_delete_then_404 rt r kv user id :
  identified "X-User-Token" r user → kv_route r = Some (Delete id) →
  kv_faults kv = [] →
  let key := note_key user id in
  (truthy_text (entries kv !! key) = true →
   ∃ kv1 kv2,
     KvFunction.onRequest rt r kv =
       (Ok (KvFunction.jsonResponse (JObj {["success" := JBool true]}) 200),
        kv1) ∧
     entries kv1 = delete key (entries kv) ∧
     KvFunction.onRequest rt r kv1 =
       (Ok (KvFunction.errorResponse "找不到要刪除的筆記" 404), kv2) ∧
     entries kv2 = entries kv1) ∧
  (truthy_text (entries kv !! key) = false →
   KvFunction.onRequest rt r kv =
     (Ok (KvFunction.errorResponse "找不到要刪除的筆記" 404),
      {| entries := entries kv; kv_faults := [];
         kv_calls := kv_calls kv ++ [KvGet key] |})).
Proof.
  intros Hu Hr Hf key. rewrite !kv_function_routes, Hr. split.
  - intros Hk. eexists _, _.
    rewrite (kv_function_delete_present r kv user id) by done.
    split; [done|]. split; [done|].
    rewrite (kv_function_delete_absent r _ user id); [done..|].
    simpl. by rewrite lookup_delete_eq.
  - intros Hk. by apply kv_function_delete_absent.
Qed.

Lemma kv_function_delete_then_404_witness :
  (truthy_text (entries one_note_kv !! note_key "u" sample_uuid) = true →
   ∃ kv1 kv2,
     KvFunction.onRequest later_rt kv_delete_request one_note_kv =
       (Ok (KvFunction.jsonResponse (JObj {["success" := JBool true]}) 200),
        kv1) ∧
     entries kv1 = delete (note_key "u" sample_uuid) (entries one_note_kv) ∧
     KvFunction.onRequest later_rt kv_delete_request kv1 =
       (Ok (KvFunction.errorResponse "找不到要刪除的筆記" 404), kv2) ∧
     entries kv2 = entries kv1) ∧
  (truthy_text (entries one_note_kv !! note_key "u" sample_uuid) = false →
   KvFunction.onRequest later_rt kv_delete_request one_note_kv =
     (Ok (KvFunction.errorResponse "找不到要刪除的筆記" 404),
      {| entries := entries one_note_kv; kv_faults := [];
         kv_calls := kv_calls one_note_kv ++
                     [KvGet (note_key "u" sample_uuid)] |})).
Proof.
  by apply (kv_function_delete_then_404 later_rt kv_delete_request one_note_kv
              "u" sample_uuid).
Defined.

(** X7.  Create then delete is a round trip: on a healthy namespace in
    which the new key is free, a valid create followed by the caller's
    delete of the generated id leaves the namespace with the content it
    had, in both KV scripts. *)
Theorem kv_create_delete_round_trip rt rt' post del kv user j c :
  identified "X-User-Token" post user → kv_route post = Some Create →
  identified "X-User-Token" del user →
  kv_route del = Some (Delete (randomUUID rt)) →
  kv_faults kv = [] → body post = Doc j → prop j "content" = Some (JStr c) →
  entries kv !! note_key user (randomUUID rt) = None →
  entries (KvFunction.onRequest rt' del (KvFunction.onRequest rt post kv).2).2 =
    entries kv ∧
  entries (KvWorker.fetch rt' del (KvWorker.fetch rt post kv).2).2 =
    entries kv.
Proof.
  intros Hu Hr Hu' Hr' Hf Hb Hc Hfree.
  set (note := new_note (randomUUID rt) c (now rt)).
  set (key := note_key user (randomUUID rt)).
  set (kv1 := {| entries := <[key := Doc note]> (entries kv); kv_faults := [];
                 kv_calls := kv_calls kv ++ [KvPut key (Doc note)] |}).
  assert (KvFunction.onRequest rt post kv =
            (Ok (KvFunction.jsonResponse note 201), kv1)) as ->.
  { rewrite kv_function_routes, Hr. by eapply kv_function_create_ok. }
  assert (KvWorker.fetch rt post kv =
            (Ok (Some (KvWorker.jsonResponse note 201)), kv1)) as ->.
  { rewrite (kv_worker_routes rt post user Hu), Hr. unfold handled.
    erewrite bind_Ok; [done|]. by eapply kv_worker_create_ok. }
  cbn [snd]. rewrite kv_function_routes, (kv_worker_routes rt' del user Hu'), Hr'.
  split.
  - rewrite (kv_function_delete_present del kv1 user (randomUUID rt));
      [|done|done|by simpl; rewrite lookup_insert_eq].
    simpl. by rewrite delete_insert_eq, delete_id.
  - unfold handled, KvWorker.handleDeleteNote, kv_delete.
    erewrite bind_Ok; cycle 1.
    { erewrite bind_Ok; [done|]. by apply kv_invoke_healthy. }
    simpl. by rewrite delete_insert_eq, delete_id.
Qed.

Lemma kv_create_delete_round_trip_witness :
  entries (KvFunction.onRequest later_rt kv_delete_request
             (KvFunction.onRequest sample_rt create_as_u empty_kv).2).2 =
    entries empty_kv ∧
  entries (KvWorker.fetch later_rt kv_delete_request
             (KvWorker.fetch sample_rt create_as_u empty_kv).2).2 =
    entries empty_kv.
Proof.
  by apply (kv_create_delete_round_trip sample_rt later_rt create_as_u
              kv_delete_request empty_kv "u"
              (JObj {["content" := JStr "hello"]}) "hello").
Defined.

(** ** The two KV scripts side by side *)

Ltac crunch :=
  unfold agree, handled, try_catch, request_json, mbind, M_bind, mret, M_ret,
    lift;
  repeat case_match; simplify_eq/=; try done.

Lemma agree_list r user kv :
  identified "X-User-Token" r user →
  agree (KvFunction.handleListNotes r kv)
        (handled (KvWorker.handleListNotes user) kv).
Proof.
  intros [Hu Ht]%identified_truthy.
  unfold KvFunction.handleListNotes, KvWorker.handleListNotes,
    KvFunction.getUserId.
  rewrite Hu, Ht. crunch.
Qed.

Lemma agree_create rt r user kv :
  identified "X-User-Token" r user →
  agree (KvFunction.handleCreateNote rt r kv)
        (handled (KvWorker.handleCreateNote rt r user) kv).
Proof.
  intros [Hu Ht]%identified_truthy.
  unfold KvFunction.handleCreateNote, KvWorker.handleCreateNote,
    KvFunction.getUserId.
  rewrite Hu, Ht. crunch.
Qed.

Lemma agree_update rt r user id kv :
  identified "X-User-Token" r user →
  agree (KvFunction.handleUpdateNote rt r id kv)
        (handled (KvWorker.handleUpdateNote rt r user id) kv).
Proof.
  intros [Hu Ht]%identified_truthy.
  unfold KvFunction.handleUpdateNote, KvWorker.handleUpdateNote,
    KvFunction.getUserId.
  rewrite Hu, Ht. crunch.
Qed.

(** X8.  The standard worker is the Pages Function over KV for every
    request of an identified caller to a path under [/api/] that is not a
    routed delete: whatever the namespace and its faults, both end with
    the same namespace (content, pending faults and record of calls) and
    either throw the same error or answer with the same status and body,
    the worker's response carrying the cross-origin header in addition. *)
Theorem kv_scripts_agree rt r kv user :
  identified "X-User-Token" r user →
  String.prefix "/api/" (pathname r) = true →
  (∀ id, kv_route r ≠ Some (Delete id)) →
  agree (KvFunction.onRequest rt r kv) (KvWorker.fetch rt r kv).
Proof.
  intros Hu Hp Hd. rewrite kv_function_routes, (kv_worker_routes rt r user Hu).
  destruct (kv_route r) as [[| |id|id]|].
  - by apply agree_list.
  - by apply agree_create.
  - by apply agree_update.
  - by destruct (Hd id).
  - by rewrite Hp.
Qed.

Lemma kv_scripts_agree_witness :
  agree (KvFunction.onRequest later_rt kv_put_request one_note_kv)
        (KvWorker.fetch later_rt kv_put_request one_note_kv).
Proof.
  by apply (kv_scripts_agree later_rt kv_put_request one_note_kv "u").
Defined.

(** X9.  Every response of the KV scripts is JSON with one of the
    statuses 200, 201, 400, 401 and 404: there is no 405 and no 500.  The
    Pages Function sends the content type alone, without a cross-origin
    header; the standard worker sends both headers. *)
Theorem kv_response_shape :
  (∀ rt r kv resp kv',
     KvFunction.onRequest rt r kv = (Ok resp, kv') →
     resp_headers resp = [json_header] ∧
     status resp ∈ [200; 201; 400; 401; 404]) ∧
  (∀ rt r kv resp kv',
     KvWorker.fetch rt r kv = (Ok (Some resp), kv') →
     resp_headers resp = [json_header; cors_header] ∧
     status resp ∈ [200; 201; 400; 401; 404]).
Proof.
  split.
  - intros rt r kv resp kv'. rewrite kv_function_routes.
    unfold KvFunction.handleListNotes, KvFunction.handleCreateNote,
      KvFunction.handleUpdateNote, KvFunction.handleDeleteNote.
    crunch; intros; simplify_eq/=; (split; [done|]); set_solver.
  - intros rt r kv resp kv'.
    unfold KvWorker.fetch, KvWorker.handleListNotes, KvWorker.handleCreateNote,
      KvWorker.handleUpdateNote, KvWorker.handleDeleteNote.
    crunch; intros; simplify_eq/=; (split; [done|]); set_solver.
Qed.

Lemma kv_response_shape_witness :
  (resp_headers (KvFunction.errorResponse "找不到要更新的筆記" 404) =
     [json_header] ∧
   status (KvFunction.errorResponse "找不到要更新的筆記" 404)
     ∈ [200; 201; 400; 401; 404]) ∧
  (resp_headers (KvWorker.errorResponse "找不到要更新的筆記" 404) =
     [json_header; cors_header] ∧
   status (KvWorker.errorResponse "找不到要更新的筆記" 404)
     ∈ [200; 201; 400; 401; 404]).
Proof.
  destruct kv_response_shape as [H1 H2]. split.
  - apply (H1 later_rt kv_put_request empty_kv _
             {| entries := ∅; kv_faults := [];
                kv_calls := [KvGet (note_key "u" sample_uuid)] |}).
    reflexivity.
  - apply (H2 later_rt kv_put_request empty_kv _
             {| entries := ∅; kv_faults := [];
                kv_calls := [KvGet (note_key "u" sample_uuid)] |}).
    reflexivity.
Defined.

(** ** The D1 scripts: entry points and the switch *)

Lemma d1_function_enters rt c user noteId :
  d1_function_call c user noteId →
  D1Function.onRequest rt c =
    try_catch (D1.dispatch rt (D1Function.request c) user noteId) D1.on_error.
Proof. intros [Hu <-]. by apply d1_function_identified. Qed.

Lemma d1_worker_enters rt r user noteId db :
  d1_worker_call r user noteId →
  D1Worker.fetch rt r db =
    handled (try_catch (D1.dispatch rt r user noteId) D1.on_error) db.
Proof.
  intros [Hu (g & Hg & ->)].
  by rewrite d1_worker_fetch, (d1_worker_identified rt r user g Hu Hg).
Qed.

(** What the switch returns is what both entry points answer. *)
Lemma d1_entries_Ok rt req user noteId db resp db' :
  D1.dispatch rt req user noteId db = (Ok resp, db') →
  (∀ c, d1_function_call c user noteId → D1Function.request c = req →
        D1Function.onRequest rt c db = (Ok resp, db')) ∧
  (d1_worker_call req user noteId →
   D1Worker.fetch rt req db = (Ok (Some resp), db')).
Proof.
  intros Hd. split.
  - intros c Hc <-. rewrite (d1_function_enters rt c user noteId Hc).
    unfold try_catch. by rewrite Hd.
  - intros Hc. rewrite (d1_worker_enters rt req user noteId db Hc).
    unfold handled, try_catch. erewrite bind_Ok; [done|]. by rewrite Hd.
Qed.

(** ** Listing and creating in the D1 scripts *)

Global Instance newer_first_total : Total newer_first.
Proof. intros a b. unfold newer_first. lia. Qed.

Lemma select_notes_spec session rows :
  select_notes session rows ≡ₚ filter (λ r, user_session_id r = session) rows ∧
  Sorted newer_first (select_notes session rows).
Proof.
  unfold select_notes. split; [|apply (Sorted_merge_sort _)].
  rewrite merge_sort_Permutation.
  erewrite list_filter_iff; [done|]. intros r. apply String.eqb_eq.
Qed.

Lemma d1_get_ok rt r user noteId db :
  method r = "GET" → d1_faults db = [] →
  D1.dispatch rt r user noteId db =
    (Ok (D1.jsonResponse (JArr (row_json <$> select_notes user (notes db))) 200),
     {| notes := notes db; d1_faults := [];
        d1_calls := d1_calls db ++ [SelectNotes user] |}).
Proof.
  intros Hm Hf. unfold D1.dispatch. rewrite Hm. simpl. unfold d1_all.
  by erewrite bind_Ok; [|by eapply d1_invoke_healthy].
Qed.

(** X10.  On a healthy database a GET of an identified caller is answered
    200 with an array of row objects, one for each row of the table that
    the caller owns and for no other row, the newest first; whatever note
    id the path or the parameters carry is ignored, the table is unchanged
    and the only call made is the SELECT. *)
Theorem d1_list_own_rows_newest_first rt req user noteId db :
  method req = "GET" → d1_faults db = [] →
  ∃ rows,
    rows ≡ₚ filter (λ r, user_session_id r = user) (notes db) ∧
    Sorted newer_first rows ∧
    let resp := D1.jsonResponse (JArr (row_json <$> rows)) 200 in
    let db' := {| notes := notes db; d1_faults := [];
                  d1_calls := d1_calls db ++ [SelectNotes user] |} in
    (∀ c, d1_function_call c user noteId → D1Function.request c = req →
          D1Function.onRequest rt c db = (Ok resp, db')) ∧
    (d1_worker_call req user noteId →
     D1Worker.fetch rt req db = (Ok (Some resp), db')).
Proof.
  intros Hm Hf. exists (select_notes user (notes db)).
  destruct (select_notes_spec user (notes db)) as [Hp Hs].
  split; [done|]. split; [done|].
  by apply d1_entries_Ok, d1_get_ok.
Qed.

Lemma d1_list_own_rows_newest_first_witness :
  ∃ rows,
    rows ≡ₚ filter (λ r, user_session_id r = "u") (notes one_note_db) ∧
    Sorted newer_first rows ∧
    D1Function.onRequest later_rt
      {| D1Function.request := d1_worker_request "GET" (Junk "");
         D1Function.params_notes := Some (PArr [sample_uuid]) |} one_note_db =
      (Ok (D1.jsonResponse (JArr (row_json <$> rows)) 200),
       {| notes := notes one_note_db; d1_faults := [];
          d1_calls := d1_calls one_note_db ++ [SelectNotes "u"] |}) ∧
    D1Worker.fetch later_rt (d1_worker_request "GET" (Junk "")) one_note_db =
      (Ok (Some (D1.jsonResponse (JArr (row_json <$> rows)) 200)),
       {| notes := notes one_note_db; d1_faults := [];
          d1_calls := d1_calls one_note_db ++ [SelectNotes "u"] |}).
Proof.
  destruct (d1_list_own_rows_newest_first later_rt
              (d1_worker_request "GET" (Junk "")) "u" (Some sample_uuid)
              one_note_db eq_refl eq_refl) as (rows & Hp & Hs & H1 & H2).
  exists rows. split; [done|]. split; [done|]. split.
  - by apply H1.
  - apply H2. split; [done|]. by exists (Some sample_uuid).
Defined.

Lemma insert_note_fresh r rows :
  (∀ r', r' ∈ rows → note_id r' ≠ note_id r) →
  insert_note r rows = (Ok tt, rows ++ [r]).
Proof.
  intros H. unfold insert_note.
  destruct (existsb _ rows) eqn:E; [|done].
  apply existsb_exists in E as (r' & Hin%list_elem_of_In & Heq%String.eqb_eq).
  by destruct (H r').
Qed.

Lemma d1_post_ok rt r user noteId db j t c :
  method r = "POST" → d1_faults db = [] → body r = Doc j → j ≠ JNull →
  d1_bind (js_or (prop j "title") (Some (JStr D1.placeholder))) = Ok t →
  d1_bind (prop j "content") = Ok c →
  (∀ r', r' ∈ notes db → note_id r' ≠ randomUUID rt) →
  let row := {| note_id := randomUUID rt; user_session_id := user; title := t;
                content := c; created_at := now rt |} in
  D1.dispatch rt r user noteId db =
    (Ok (D1.jsonResponse
           (JObj (assign "id" (Some (JStr (randomUUID rt)))
                 (assign "title" (prop j "title")
                 (assign "content" (prop j "content")
                 (assign "created_at" (Some (JNum (now rt))) ∅))))) 201),
     {| notes := notes db ++ [row]; d1_faults := [];
        d1_calls := d1_calls db ++
          [InsertNote (randomUUID rt) user t c (now rt)] |}).
Proof.
  intros Hm Hf Hb Hj Ht Hc Hfresh row. unfold D1.dispatch. rewrite Hm. simpl.
  unfold request_json. rewrite Hb. simpl.
  erewrite bind_Ok; [|done]. rewrite !destructure_Ok by done.
  erewrite bind_Ok; [|done]. erewrite bind_Ok; [|done]. rewrite Ht, Hc.
  erewrite bind_Ok; [|done]. erewrite bind_Ok; [|done].
  unfold d1_run_insert. erewrite bind_Ok; cycle 1.
  { eapply d1_invoke_healthy; [done|]. by apply insert_note_fresh. }
  done.
Qed.

(** X11.  A create in the D1 scripts with a body whose [title] is missing
    or falsy and whose [content] D1 can bind, on a healthy database in
    which the generated id is new: the row is appended with the caller as
    owner, the placeholder as title and the clock as creation time, and
    the answer is 201; but the response echoes the request, not the row:
    its [title] is what the body gave (none when omitted), its [content]
    the body's, next to the generated [id] and [created_at]. *)
Theorem d1_create_placeholder_title rt req user noteId db j c :
  method req = "POST" → d1_faults db = [] → body req = Doc j → j ≠ JNull →
  truthy (prop j "title") = false → d1_bind (prop j "content") = Ok c →
  (∀ r', r' ∈ notes db → note_id r' ≠ randomUUID rt) →
  ∃ o,
    o !! "id" = Some (JStr (randomUUID rt)) ∧
    o !! "title" = prop j "title" ∧
    o !! "content" = prop j "content" ∧
    o !! "created_at" = Some (JNum (now rt)) ∧
    let resp := D1.jsonResponse (JObj o) 201 in
    let row := {| note_id := randomUUID rt; user_session_id := user;
                  title := SqlText D1.placeholder; content := c;
                  created_at := now rt |} in
    let db' := {| notes := notes db ++ [row]; d1_faults := [];
                  d1_calls := d1_calls db ++
                    [InsertNote (randomUUID rt) user (SqlText D1.placeholder) c
                       (now rt)] |} in
    (∀ ctx, d1_function_call ctx user noteId → D1Function.request ctx = req →
            D1Function.onRequest rt ctx db = (Ok resp, db')) ∧
    (d1_worker_call req user noteId →
     D1Worker.fetch rt req db = (Ok (Some resp), db')).
Proof.
  intros Hm Hf Hb Hj Ht Hc Hfresh. eexists.
  split; [|split; [|split; [|split]]]; cycle 4.
  - apply d1_entries_Ok.
    apply (d1_post_ok rt req user noteId db j (SqlText D1.placeholder) c);
      try done.
    unfold js_or. by rewrite Ht.
  - rewrite !lookup_assign. by repeat case_decide.
  - rewrite !lookup_assign. by repeat case_decide.
  - rewrite !lookup_assign. by repeat case_decide.
  - rewrite !lookup_assign. by repeat case_decide.
Qed.

Lemma d1_create_placeholder_title_witness :
  ∃ o,
    o !! "id" = Some (JStr sample_uuid) ∧
    o !! "title" = None ∧
    o !! "content" = Some (JStr "hello") ∧
    o !! "created_at" = Some (JNum 1700000000000) ∧
    D1Worker.fetch sample_rt
      (request_of "X-User-Session" "u" "POST" "/api/notes"
         (content_body (JStr "hello"))) empty_db =
      (Ok (Some (D1.jsonResponse (JObj o) 201)),
       {| notes := [ {| note_id := sample_uuid; user_session_id := "u";
                        title := SqlText D1.placeholder;
                        content := SqlText "hello";
                        created_at := 1700000000000 |} ];
          d1_faults := [];
          d1_calls := [InsertNote sample_uuid "u" (SqlText D1.placeholder)
                         (SqlText "hello") 1700000000000] |}).
Proof.
  destruct (d1_create_placeholder_title sample_rt
              (request_of "X-User-Session" "u" "POST" "/api/notes"
                 (content_body (JStr "hello")))
              "u" None empty_db (JObj {["content" := JStr "hello"]})
              (SqlText "hello"))
    as (o & H1 & H2 & H3 & H4 & _ & H); try done.
  { intros r' Hin. by apply elem_of_nil in Hin. }
  exists o. repeat (split; [done|]).
  apply H. split; [done|]. by exists None.
Defined.

(** ** Edges of the D1 switch *)

(** X12.  A PUT or DELETE of an identified caller that carries no note
    id (no route parameter, an empty one, or the bare collection path) is
    answered 400 before the body is read or the database called: the
    database is as it was, record of calls included. *)
Theorem d1_missing_id_is_400 rt req user noteId db :
  truthy_string noteId = false →
  method req = "PUT" ∨ method req = "DELETE" →
  let resp :=
    D1.errorResponse
      (if String.eqb (method req) "PUT" then "Missing note ID for update."
       else "Missing note ID for deletion.") 400 in
  (∀ c, d1_function_call c user noteId → D1Function.request c = req →
        D1Function.onRequest rt c db = (Ok resp, db)) ∧
  (d1_worker_call req user noteId →
   D1Worker.fetch rt req db = (Ok (Some resp), db)).
Proof.
  intros Hid Hm resp. apply d1_entries_Ok. unfold D1.dispatch, resp.
  by destruct Hm as [-> | ->]; rewrite Hid.
Qed.

Lemma d1_missing_id_is_400_witness :
  D1Function.onRequest later_rt
    {| D1Function.request :=
         request_of "X-User-Session" "u" "DELETE" "/api/notes" (Junk "");
       D1Function.params_notes := None |} one_note_db =
    (Ok (D1.errorResponse "Missing note ID for deletion." 400), one_note_db) ∧
  D1Worker.fetch later_rt
    (request_of "X-User-Session" "u" "DELETE" "/api/notes" (Junk ""))
    one_note_db =
    (Ok (Some (D1.errorResponse "Missing note ID for deletion." 400)),
     one_note_db).
Proof.
  destruct (d1_missing_id_is_400 later_rt
              (request_of "X-User-Session" "u" "DELETE" "/api/notes" (Junk ""))
              "u" None one_note_db eq_refl) as [H1 H2]; [by right|].
  split.
  - by apply H1.
  - apply H2. split; [done|]. by exists None.
Defined.

(** X13.  Any method other than GET, POST, PUT and DELETE from an
    identified caller is answered 405 with the method's name in the
    message, and the database is not touched. *)
Theorem d1_other_method_is_405 rt req user noteId db :
  method req ≠ "GET" → method req ≠ "POST" →
  method req ≠ "PUT" → method req ≠ "DELETE" →
  let resp :=
    D1.errorResponse ("Method " +:+ method req +:+ " not allowed.") 405 in
  (∀ c, d1_function_call c user noteId → D1Function.request c = req →
        D1Function.onRequest rt c db = (Ok resp, db)) ∧
  (d1_worker_call req user noteId →
   D1Worker.fetch rt req db = (Ok (Some resp), db)).
Proof.
  intros H1 H2 H3 H4 resp. apply d1_entries_Ok. unfold D1.dispatch.
  apply String.eqb_neq in H1 as ->. apply String.eqb_neq in H2 as ->.
  apply String.eqb_neq in H3 as ->. by apply String.eqb_neq in H4 as ->.
Qed.

Lemma d1_other_method_is_405_witness :
  D1Function.onRequest later_rt
    {| D1Function.request := d1_worker_request "PATCH" (Junk "");
       D1Function.params_notes := Some (PArr [sample_uuid]) |} one_note_db =
    (Ok (D1.errorResponse "Method PATCH not allowed." 405), one_note_db) ∧
  D1Worker.fetch later_rt (d1_worker_request "PATCH" (Junk "")) one_note_db =
    (Ok (Some (D1.errorResponse "Method PATCH not allowed." 405)), one_note_db).
Proof.
  destruct (d1_other_method_is_405 later_rt (d1_worker_request "PATCH" (Junk ""))
              "u" (Some sample_uuid) one_note_db
              ltac:(done) ltac:(done) ltac:(done) ltac:(done)) as [H1 H2].
  split.
  - by apply H1.
  - apply H2. split; [done|]. by exists (Some sample_uuid).
Defined.





(** ** What a D1 request can write, and how it answers *)

Lemma foreign_rows_app_own user rows r :
  user_session_id r = user →
  foreign_rows user (rows ++ [r]) = foreign_rows user rows.
Proof.
  intros H. unfold foreign_rows.
  rewrite filter_app, filter_cons, decide_False by (by intros ?).
  by rewrite filter_nil, app_nil_r.
Qed.

Lemma foreign_rows_update t c id user rows :
  foreign_rows user (update_note t c id user rows) = foreign_rows user rows.
Proof.
  unfold foreign_rows, update_note. induction rows as [|r rows IH]; [done|].
  rewrite fmap_cons, !filter_cons, IH.
  destruct (owned_by id user r) eqn:E; [|done].
  apply owned_by_true in E as [_ E]. simpl.
  by rewrite !decide_False by (by intros ?).
Qed.

Lemma foreign_rows_delete id user rows :
  foreign_rows user (delete_note id user rows) = foreign_rows user rows.
Proof.
  unfold foreign_rows, delete_note. induction rows as [|r rows IH]; [done|].
  rewrite !filter_cons. destruct (owned_by id user r) eqn:E.
  - apply owned_by_true in E as [_ E].
    rewrite decide_False by done. by rewrite decide_False by (by intros ?).
  - rewrite decide_True by done. by rewrite filter_cons, IH.
Qed.

Lemma d1_dispatch_foreign rt r user noteId db :
  foreign_rows user (notes (D1.dispatch rt r user noteId db).2) =
    foreign_rows user (notes db).
Proof.
  unfold D1.dispatch, d1_all, d1_run_insert, d1_run_update, d1_run_delete,
    d1_invoke, insert_note.
  crunch;
    rewrite ?foreign_rows_app_own, ?foreign_rows_update, ?foreign_rows_delete;
    done.
Qed.

Lemma try_catch_state (m : M D1Database Response) db :
  (try_catch m D1.on_error db).2 = (m db).2.
Proof. unfold try_catch. by destruct (m db) as [[resp|e] db1]. Qed.

(** X15.  Whatever an identified caller sends to a D1 script, whatever
    the faults of the database and however the request ends, the rows of
    every other session are afterwards exactly as they were: same rows,
    same values, same order. *)
Theorem d1_writes_confined rt req user noteId db :
  (∀ c, d1_function_call c user noteId → D1Function.request c = req →
        foreign_rows user (notes (D1Function.onRequest rt c db).2) =
          foreign_rows user (notes db)) ∧
  (d1_worker_call req user noteId →
   foreign_rows user (notes (D1Worker.fetch rt req db).2) =
     foreign_rows user (notes db)).
Proof.
  split.
  - intros c Hc <-. rewrite (d1_function_enters rt c user noteId Hc).
    rewrite try_catch_state. apply d1_dispatch_foreign.
  - intros Hc. rewrite (d1_worker_enters rt req user noteId db Hc).
    unfold handled. rewrite bind_state.
    pose proof (try_catch_state (D1.dispatch rt req user noteId) db) as Hs.
    pose proof (d1_dispatch_foreign rt req user noteId db) as Hd.
    destruct (try_catch _ _ db) as [[resp|e] db1]; simpl in *; by rewrite Hs.
Qed.

Lemma d1_writes_confined_witness :
  foreign_rows "v"
    (notes (D1Function.onRequest later_rt
              {| D1Function.request :=
                   request_of "X-User-Session" "v" "DELETE"
                     (item_path sample_uuid) (Junk "");
                 D1Function.params_notes := Some (PArr [sample_uuid]) |}
              one_note_db).2) =
    foreign_rows "v" (notes one_note_db) ∧
  foreign_rows "v"
    (notes (D1Worker.fetch later_rt
              (request_of "X-User-Session" "v" "DELETE"
                 (item_path sample_uuid) (Junk "")) one_note_db).2) =
    foreign_rows "v" (notes one_note_db).
Proof.
  destruct (d1_writes_confined later_rt
              (request_of "X-User-Session" "v" "DELETE"
                 (item_path sample_uuid) (Junk ""))
              "v" (Some sample_uuid) one_note_db) as [H1 H2].
  split.
  - by apply H1.
  - apply H2. split; [done|]. by exists (Some sample_uuid).
Defined.

(** X16.  Every response of the D1 scripts is JSON with the cross-origin
    header, and its status is one of 200, 201, 400, 401, 404, 405 and
    500. *)
Theorem d1_response_shape :
  (∀ rt c db resp db',
     D1Function.onRequest rt c db = (Ok resp, db') →
     resp_headers resp = [json_header; cors_header] ∧
     status resp ∈ [200; 201; 400; 401; 404; 405; 500]) ∧
  (∀ rt r db resp db',
     D1Worker.fetch rt r db = (Ok (Some resp), db') →
     resp_headers resp = [json_header; cors_header] ∧
     status resp ∈ [200; 201; 400; 401; 404; 405; 500]).
Proof.
  split.
  - intros rt c db resp db'.
    unfold D1Function.onRequest, D1.dispatch, D1.on_error.
    crunch; intros; simplify_eq/=; (split; [done|]); set_solver.
  - intros rt r db resp db'. rewrite d1_worker_fetch.
    unfold D1Worker.handleRequest, D1.dispatch, D1.on_error.
    crunch; intros; simplify_eq/=; (split; [done|]); set_solver.
Qed.

Lemma d1_response_shape_witness :
  (resp_headers (D1.errorResponse "Method PATCH not allowed." 405) =
     [json_header; cors_header] ∧
   status (D1.errorResponse "Method PATCH not allowed." 405)
     ∈ [200; 201; 400; 401; 404; 405; 500]) ∧
  (resp_headers (D1.errorResponse "Method PATCH not allowed." 405) =
     [json_header; cors_header] ∧
   status (D1.errorResponse "Method PATCH not allowed." 405)
     ∈ [200; 201; 400; 401; 404; 405; 500]).
Proof.
  destruct d1_response_shape as [H1 H2]. split.
  - apply (H1 later_rt
             {| D1Function.request := d1_worker_request "PATCH" (Junk "");
                D1Function.params_notes := None |} one_note_db _ one_note_db).
    reflexivity.
  - apply (H2 later_rt (d1_worker_request "PATCH" (Junk "")) one_note_db _
             one_note_db).
    reflexivity.
Defined.

(** ** Composing D1 requests *)




(** X18.  Create then list in the D1 scripts: after a create that
    succeeded as in X11 (any title), a GET of the same caller on the
    still healthy database is answered 200 with an array that holds the
    object of the new row: its id, the stored title, the stored content
    and its creation time. *)
Theorem d1_create_then_list rt rt' post get user n n' db j t c :
  method post = "POST" → method get = "GET" → d1_faults db = [] →
  body post = Doc j → j ≠ JNull →
  d1_bind (js_or (prop j "title") (Some (JStr D1.placeholder))) = Ok t →
  d1_bind (prop j "content") = Ok c →
  (∀ r', r' ∈ notes db → note_id r' ≠ randomUUID rt) →
  let row := {| note_id := randomUUID rt; user_session_id := user; title := t;
                content := c; created_at := now rt |} in
  (∀ cp cg,
     d1_function_call cp user n → D1Function.request cp = post →
     d1_function_call cg user n' → D1Function.request cg = get →
     ∃ rows,
       (D1Function.onRequest rt' cg (D1Function.onRequest rt cp db).2).1 =
         Ok (D1.jsonResponse (JArr (row_json <$> rows)) 200) ∧
       row ∈ rows) ∧
  (d1_worker_call post user n → d1_worker_call get user n' →
   ∃ rows,
     (D1Worker.fetch rt' get (D1Worker.fetch rt post db).2).1 =
       Ok (Some (D1.jsonResponse (JArr (row_json <$> rows)) 200)) ∧
     row ∈ rows).
Proof.
  intros Hm Hm' Hf Hb Hj Ht Hc Hfresh row.
  pose proof (d1_post_ok rt post user n db j t c Hm Hf Hb Hj Ht Hc Hfresh)
    as Hpost. cbv zeta in Hpost.
  match type of Hpost with _ = (_, ?d) => set (db1 := d) in * end.
  pose proof (d1_get_ok rt' get user n' db1 Hm' eq_refl) as Hget.
  assert (row ∈ select_notes user (notes db1)) as Hin.
  { apply select_notes_elem. split; [|done]. simpl.
    apply elem_of_app. right. apply list_elem_of_here. }
  destruct (d1_entries_Ok _ _ _ _ _ _ _ Hpost) as [A1 A2].
  destruct (d1_entries_Ok _ _ _ _ _ _ _ Hget) as [B1 B2].
  split.
  - intros cp cg Hcp Hrp Hcg Hrg. eexists. rewrite (A1 cp Hcp Hrp).
    cbn [snd]. rewrite (B1 cg Hcg Hrg). by split.
  - intros Hcp Hcg. eexists. rewrite (A2 Hcp).
    cbn [snd]. rewrite (B2 Hcg). by split.
Qed.

Lemma d1_create_then_list_witness :
  ∃ rows,
    (D1Worker.fetch later_rt
       (request_of "X-User-Session" "u" "GET" "/api/notes" (Junk ""))
       (D1Worker.fetch sample_rt
          (request_of "X-User-Session" "u" "POST" "/api/notes"
             (content_body (JStr "hello"))) empty_db).2).1 =
      Ok (Some (D1.jsonResponse (JArr (row_json <$> rows)) 200)) ∧
    {| note_id := randomUUID sample_rt; user_session_id := "u";
       title := SqlText D1.placeholder; content := SqlText "hello";
       created_at := now sample_rt |} ∈ rows.
Proof.
  destruct (d1_create_then_list sample_rt later_rt
              (request_of "X-User-Session" "u" "POST" "/api/notes"
                 (content_body (JStr "hello")))
              (request_of "X-User-Session" "u" "GET" "/api/notes" (Junk ""))
              "u" None None empty_db (JObj {["content" := JStr "hello"]})
              (SqlText D1.placeholder) (SqlText "hello")
              ltac:(done) ltac:(done) ltac:(done) ltac:(done) ltac:(done)
              ltac:(done) ltac:(done)
              ltac:(by intros r' Hin%elem_of_nil))
    as [_ H].
  apply H; (split; [done|]); by exists None.
Defined.

(** ** The two path patterns *)

Lemma match_notes_path_unfold path :
  match_notes_path path =
    match strip_prefix "/api/notes" path with
    | Some rest =>
        let tok := after_slash rest in
        match tok with
        | EmptyString => Some None
        | _ => if all_chars is_alnum_or_hyphen tok then Some (Some tok) else None
        end
    | None => None
    end.
Proof. reflexivity. Qed.

Lemma after_slash_cases rest :
  (∃ r, rest = String "/" r ∧ after_slash rest = r) ∨
  (after_slash rest = rest ∧ ∀ r, rest ≠ String "/" r).
Proof.
  destruct rest as [|c r]; [by right|].
  destruct (decide (c = "/"%char)) as [->|Hc]; [left; by exists r|].
  right. split; [|by intros r' [= ? ?]].
  by destruct c as [[] [] [] [] [] [] [] []].
Qed.

Lemma alnum_not_slash c r :
  all_chars is_alnum_or_hyphen (String c r) = true → c ≠ "/"%char.
Proof. by intros H ->. Qed.

(** X19.  The paths the D1 worker takes for its API are exactly
    [/api/notes] and [/api/notes/], without a note id, and [/api/notes]
    followed by a non-empty run of letters, digits and hyphens, which is
    the note id, with or without a slash in between: [/api/notesabc]
    addresses the note [abc] just as [/api/notes/abc] does. *)
Theorem match_notes_path_spec p g :
  match_notes_path p = Some g ↔
  (g = None ∧ (p = "/api/notes" ∨ p = "/api/notes/")) ∨
  (∃ id, g = Some id ∧ id ≠ "" ∧ all_chars is_alnum_or_hyphen id = true ∧
         (p = "/api/notes" +:+ id ∨ p = "/api/notes/" +:+ id)).
Proof.
  rewrite match_notes_path_unfold. cbv zeta. split.
  - destruct (strip_prefix _ p) as [rest|] eqn:E; [|done].
    apply strip_prefix_Some in E as ->.
    destruct (after_slash_cases rest) as [(r & -> & Hr)|[Hr Hns]]; rewrite Hr.
    + destruct r as [|c r]; [intros [= <-]; left; split; [done|by right]|].
      destruct (all_chars _ _) eqn:Ha; [|done].
      intros [= <-]. right. exists (String c r).
      repeat split; try done. by right.
    + destruct rest as [|c r]; [intros [= <-]; left; split; [done|by left]|].
      destruct (all_chars _ _) eqn:Ha; [|done].
      intros [= <-]. right. exists (String c r).
      repeat split; try done. by left.
  - intros [[-> [-> | ->]]|(id & -> & Hid & Ha & [-> | ->])]; try done.
    + rewrite strip_prefix_app.
      destruct id as [|c r]; [done|].
      pose proof (alnum_not_slash c r Ha) as Hc.
      destruct (after_slash_cases (String c r))
        as [(r' & [= ? ?] & _)|[-> _]]; [done|].
      by rewrite Ha.
    + change ("/api/notes/" +:+ id) with ("/api/notes" +:+ String "/" id).
      rewrite strip_prefix_app. simpl. destruct id; [done|]. by rewrite Ha.
Qed.

Lemma match_notes_path_spec_witness :
  match_notes_path "/api/notesabc" = Some (Some "abc") ∧
  match_notes_path "/api/notes/abc" = Some (Some "abc").
Proof.
  split; apply match_notes_path_spec; right; exists "abc";
    (split; [done|]); (split; [done|]); (split; [done|]); [by left|by right].
Defined.

Lemma hex_char_alnum c :
  is_hex_or_hyphen c = true → is_alnum_or_hyphen c = true.
Proof. destruct c as [[] [] [] [] [] [] [] []]; by vm_compute. Qed.

Lemma hex_is_alnum s :
  all_chars is_hex_or_hyphen s = true → all_chars is_alnum_or_hyphen s = true.
Proof.
  induction s as [|c s IH]; [done|]. simpl.
  intros [Hc Hs]%andb_true_iff. by rewrite hex_char_alnum, IH.
Qed.

(** X20.  The item pattern of the KV scripts captures an id exactly from
    the paths [/api/notes/<id>] whose id is 36 characters long, each a
    hexadecimal digit or a hyphen; every such path is an item path of the
    D1 worker as well, with the same id.  So the strict pattern accepts
    nothing the permissive one rejects. *)
Theorem uuid_path_is_notes_path p id :
  (match_uuid_path p = Some id ↔
   p = "/api/notes/" +:+ id ∧ String.length id = 36%nat ∧
   all_chars is_hex_or_hyphen id = true) ∧
  (match_uuid_path p = Some id → match_notes_path p = Some (Some id)).
Proof.
  assert (match_uuid_path p = Some id ↔
          p = "/api/notes/" +:+ id ∧ String.length id = 36%nat ∧
          all_chars is_hex_or_hyphen id = true) as Hspec.
  { unfold match_uuid_path. split.
    - destruct (strip_prefix _ p) as [tok|] eqn:E; [|done].
      apply strip_prefix_Some in E as ->.
      destruct (_ && _) eqn:Hc; [|done]. intros [= ->].
      apply andb_true_iff in Hc as [Hlen Ha]. by apply Nat.eqb_eq in Hlen.
    - intros (-> & Hlen & Ha). rewrite strip_prefix_app.
      apply Nat.eqb_eq in Hlen. by rewrite Hlen, Ha. }
  split; [done|].
  intros (-> & Hlen & Ha)%Hspec.
  rewrite match_notes_path_unfold.
  change ("/api/notes/" +:+ id) with ("/api/notes" +:+ String "/" id).
  rewrite strip_prefix_app. simpl.
  destruct id as [|c id]; [done|]. by rewrite (hex_is_alnum _ Ha).
Qed.

Lemma uuid_path_is_notes_path_witness :
  match_notes_path (item_path sample_uuid) = Some (Some sample_uuid).
Proof.
  by apply (proj2 (uuid_path_is_notes_path (item_path sample_uuid) sample_uuid)).
Defined.

(** ** Unrouted requests and unreadable bodies *)

(** X21.  A request that matches none of the four routes never reaches
    the namespace in the KV scripts.  The Pages Function answers its 404
    without looking at the identity header; the standard worker answers
    401 to an anonymous caller and, to an identified one, a 404 whose
    message depends on whether the path is under [/api/]. *)
Theorem kv_unrouted rt r kv :
  kv_route r = None →
  KvFunction.onRequest rt r kv =
    (Ok (KvFunction.errorResponse "API 路由不存在或方法不允許" 404), kv) ∧
  (anonymous "X-User-Token" r →
   KvWorker.fetch rt r kv =
     (Ok (Some (KvWorker.errorResponse "缺少使用者憑證 (X-User-Token)" 401)),
      kv)) ∧
  (∀ user, identified "X-User-Token" r user →
   KvWorker.fetch rt r kv =
     (Ok (Some (KvWorker.errorResponse
                  (if String.prefix "/api/" (pathname r)
                   then "API 路由不存在或方法不允許" else "找不到資源") 404)),
      kv)).
Proof.
  intros Hr. split; [|split].
  - by rewrite kv_function_routes, Hr.
  - apply kv_worker_anonymous.
  - intros user Hu. rewrite (kv_worker_routes rt r user Hu), Hr.
    by destruct (String.prefix "/api/" (pathname r)).
Qed.

Lemma kv_unrouted_witness :
  KvFunction.onRequest sample_rt
    (bare_request "PATCH" "/api/notes" (Junk "")) one_note_kv =
    (Ok (KvFunction.errorResponse "API 路由不存在或方法不允許" 404),
     one_note_kv) ∧
  KvWorker.fetch sample_rt
    (bare_request "PATCH" "/api/notes" (Junk "")) one_note_kv =
    (Ok (Some (KvWorker.errorResponse "缺少使用者憑證 (X-User-Token)" 401)),
     one_note_kv) ∧
  KvWorker.fetch sample_rt
    (request_of "X-User-Token" "u" "GET" (item_path sample_uuid) (Junk ""))
    one_note_kv =
    (Ok (Some (KvWorker.errorResponse "API 路由不存在或方法不允許" 404)),
     one_note_kv).
Proof.
  destruct (kv_unrouted sample_rt
              (bare_request "PATCH" "/api/notes" (Junk "")) one_note_kv eq_refl)
    as (H1 & H2 & _).
  destruct (kv_unrouted sample_rt
              (request_of "X-User-Token" "u" "GET" (item_path sample_uuid)
                 (Junk "")) one_note_kv eq_refl)
    as (_ & _ & H3).
  split; [exact H1|]. split; [apply H2; by left|].
  by apply (H3 "u").
Defined.

(** X22.  A create whose body cannot be read as a JSON object: text that
    is not JSON, or the document [null].  The KV scripts throw out of the
    handler, the D1 scripts answer 500 with a [Database error: ] message;
    in both cases the backend is not called at all. *)
Theorem create_unreadable_body rt :
  (∀ r kv user,
     identified "X-User-Token" r user → kv_route r = Some Create →
     (∃ s, body r = Junk s) ∨ body r = Doc JNull →
     ∃ e, KvFunction.onRequest rt r kv = (Throw e, kv) ∧
          KvWorker.fetch rt r kv = (Throw e, kv)) ∧
  (∀ req db user noteId,
     method req = "POST" →
     (∃ s, body req = Junk s) ∨ body req = Doc JNull →
     ∃ e,
       let resp := D1.errorResponse ("Database error: " +:+ message e) 500 in
       (∀ c, d1_function_call c user noteId → D1Function.request c = req →
             D1Function.onRequest rt c db = (Ok resp, db)) ∧
       (d1_worker_call req user noteId →
        D1Worker.fetch rt req db = (Ok (Some resp), db))).
Proof.
  split.
  - intros r kv user Hu Hr Hb.
    rewrite kv_function_routes, (kv_worker_routes rt r user Hu), Hr.
    apply identified_truthy in Hu as [Hu Ht].
    unfold handled, KvFunction.handleCreateNote, KvWorker.handleCreateNote,
      KvFunction.getUserId, request_json.
    rewrite Hu, Ht. destruct Hb as [[s ->]| ->].
    + destruct s; by eexists.
    + by eexists.
  - intros req db user noteId Hm Hb.
    assert (∃ e, D1.dispatch rt req user noteId db = (Throw e, db))
      as [e He].
    { unfold D1.dispatch, request_json. rewrite Hm. simpl.
      destruct Hb as [[s ->]| ->]; [destruct s|]; by eexists. }
    exists e. split.
    + intros c Hc <-. rewrite (d1_function_enters rt c user noteId Hc).
      unfold try_catch. by rewrite He.
    + intros Hc. rewrite (d1_worker_enters rt req user noteId db Hc).
      unfold handled, try_catch. erewrite bind_Ok; [done|]. by rewrite He.
Qed.

Lemma create_unreadable_body_witness :
  (∃ e, KvFunction.onRequest sample_rt
          (request_of "X-User-Token" "u" "POST" "/api/notes" (Junk "{"))
          one_note_kv = (Throw e, one_note_kv) ∧
        KvWorker.fetch sample_rt
          (request_of "X-User-Token" "u" "POST" "/api/notes" (Junk "{"))
          one_note_kv = (Throw e, one_note_kv)) ∧
  (∃ e, D1Worker.fetch sample_rt
          (request_of "X-User-Session" "u" "POST" "/api/notes" (Doc JNull))
          one_note_db =
          (Ok (Some (D1.errorResponse ("Database error: " +:+ message e) 500)),
           one_note_db)).
Proof.
  destruct (create_unreadable_body sample_rt) as [H1 H2]. split.
  - apply (H1 _ one_note_kv "u"); [done|done|]. left. by exists "{".
  - destruct (H2 (request_of "X-User-Session" "u" "POST" "/api/notes"
                    (Doc JNull)) one_note_db "u" None eq_refl)
      as (e & _ & H); [by right|].
    exists e. apply H. split; [done|]. by exists None.
Defined.
